(** * GitHub contributor analyzer: a shallow embedding of [main.py]

    The development follows the layout of the script:
    - the Python built-ins the script relies on (string methods, JSON
      values as [requests] decodes them, truthiness, subscripting);
    - [extract_repo_info];
    - the methods of [GitHubContributorAnalyzer], the effectful ones in a
      small monad over the analyzer's fields, a clock and an event trace;
    - the top of the script up to the call of [analyze_repository].

    Conventions.  A Python [str] is a [string] whose characters are the
    code points below 256.  JSON numbers are integers (fractions are not
    part of the model), and a JSON object binds each key once.  Time is
    counted in microseconds, the resolution of [datetime]; the rounding
    of [total_seconds()] to a float is not modelled, and the clock moves
    only when the script sleeps.  What [datetime] makes of a time stamp
    (the local time zone with its changes of offset, and the time stamps
    it cannot represent) and which sleeps [time.sleep] refuses are left to
    the platform the script runs on, a part of the world.  Every request
    is answered: connection errors are not part of the model.  Loops and retries that Python does
    not bound take fuel. *)

From Stdlib Require Import String Ascii List ZArith Bool Lia Arith.
From Stdlib Require Import Permutation Sorted DecimalString OrderedTypeEx.
Import ListNotations.

Open Scope list_scope.
Open Scope string_scope.

Set Implicit Arguments.
Set Warnings "-register-all".

(** ** Exceptions and results *)

Inductive exn : Type :=
| KeyError
| TypeError
| AttributeError
| ValueError
| IndexError
| JSONDecodeError
| OverflowError
| OSError.

Inductive result (A : Type) : Type :=
| Ok (a : A)
| Raise (e : exn).

Arguments Ok {A} a.
Arguments Raise {A} e.

Definition rbind {A B : Type} (r : result A) (k : A -> result B) : result B :=
  match r with
  | Ok a => k a
  | Raise e => Raise e
  end.

Declare Scope result_scope.
Delimit Scope result_scope with result.
Notation "'let?' x ':=' r 'in' k" :=
  (rbind r (fun x => k))
  (at level 10, x name, r at level 100, k at level 200) : result_scope.
Open Scope result_scope.

(** ** Python string methods *)

Module PyStr.

(** [str.isspace] on one character: the code points below 256 that
    [str.strip()] removes. *)
Definition isspace (c : ascii) : bool :=
  let n := nat_of_ascii c in
  (((9 <=? n) && (n <=? 13)) || ((28 <=? n) && (n <=? 32))
   || (n =? 133) || (n =? 160))%nat.

Fixpoint lstrip (s : string) : string :=
  match s with
  | EmptyString => EmptyString
  | String c s' => if isspace c then lstrip s' else s
  end.

Fixpoint rstrip (s : string) : string :=
  match s with
  | EmptyString => EmptyString
  | String c s' =>
      match rstrip s' with
      | EmptyString => if isspace c then EmptyString else String c EmptyString
      | r => String c r
      end
  end.

(** [s.strip()] *)
Definition strip (s : string) : string := rstrip (lstrip s).

(** [s.startswith(p)] *)
Definition startswith (s p : string) : bool := String.prefix p s.

(** [s.endswith(p)] *)
Fixpoint endswith (s p : string) : bool :=
  (s =? p)%string ||
  match s with
  | EmptyString => false
  | String _ s' => endswith s' p
  end.

(** [s[:-1]] *)
Fixpoint but_last (s : string) : string :=
  match s with
  | EmptyString => EmptyString
  | String _ EmptyString => EmptyString
  | String c s' => String c (but_last s')
  end.

(** [s.replace(old, new)] scans from the left and replaces the
    occurrences of [old] that do not overlap.  [skip] counts the
    characters of a match that are still to be dropped. *)
Fixpoint replace_from (old new : string) (skip : nat) (s : string) : string :=
  match s with
  | EmptyString => EmptyString
  | String c s' =>
      match skip with
      | S k => replace_from old new k s'
      | O =>
          if String.prefix old s
          then new ++ replace_from old new (String.length old - 1) s'
          else String c (replace_from old new 0 s')
      end
  end.

Fixpoint intersperse (new s : string) : string :=
  match s with
  | EmptyString => new
  | String c s' => new ++ String c (intersperse new s')
  end.

Definition replace (s old new : string) : string :=
  match old with
  | EmptyString => intersperse new s
  | _ => replace_from old new 0 s
  end.

(** [s.split(sep)] for a non-empty separator: the pieces between the
    occurrences of [sep] that do not overlap, scanning from the left. *)
Fixpoint split_from (sep : string) (skip : nat) (s : string) : list string :=
  match s with
  | EmptyString => [EmptyString]
  | String c s' =>
      match skip with
      | S k => split_from sep k s'
      | O =>
          if String.prefix sep s
          then EmptyString :: split_from sep (String.length sep - 1) s'
          else match split_from sep 0 s' with
               | piece :: rest => String c piece :: rest
               | [] => [String c EmptyString]
               end
      end
  end.

Definition split (s sep : string) : result (list string) :=
  match sep with
  | EmptyString => Raise ValueError
  | _ => Ok (split_from sep 0 s)
  end.

(** [c.lower()] on one character below 256: the ASCII capitals and the
    Latin-1 capitals (all of 192..222 but the multiplication sign). *)
Definition lower_char (c : ascii) : ascii :=
  let n := nat_of_ascii c in
  if (((65 <=? n) && (n <=? 90))
      || ((192 <=? n) && (n <=? 222) && negb (n =? 215)))%nat
  then ascii_of_nat (n + 32)
  else c.

Fixpoint lower (s : string) : string :=
  match s with
  | EmptyString => EmptyString
  | String c s' => String (lower_char c) (lower s')
  end.

(** [sub in s] *)
Fixpoint contains (s sub : string) : bool :=
  String.prefix sub s ||
  match s with
  | EmptyString => false
  | String _ s' => contains s' sub
  end.

End PyStr.

(** ** [extract_repo_info] *)

Definition https_github : string := "https://github.com/".
Definition ssh_github : string := "git@github.com:".

(** Lines 240-255: the cleaned URL and its path segments. *)
Definition clean_url (repo_url : string) : string :=
  let url := PyStr.strip repo_url in
  if PyStr.endswith url "/" then PyStr.but_last url else url.

Definition repo_parts (repo_url : string) : list string :=
  let url := clean_url repo_url in
  if PyStr.startswith url "https://" then
    PyStr.split_from "/" 0 (PyStr.replace url https_github "")
  else if PyStr.startswith url ssh_github then
    PyStr.split_from "/" 0 (PyStr.replace url ssh_github "")
  else
    PyStr.split_from "/" 0 url.

Definition extract_repo_info (repo_url : string) : result (string * string) :=
  match repo_parts repo_url with
  | owner :: name :: _ => Ok (owner, name)
  | _ => Raise ValueError
  end.

(** ** JSON values and the Python operations on them *)

Inductive json : Type :=
| JNull
| JBool (b : bool)
| JInt (n : Z)
| JStr (s : string)
| JList (l : list json)
| JDict (d : list (string * json)).

(** A Python [dict] with string keys, in insertion order. *)
Definition dict : Type := list (string * json).

Module Py.

(** [bool(v)] *)
Definition truthy (v : json) : bool :=
  match v with
  | JNull => false
  | JBool b => b
  | JInt n => negb (n =? 0)%Z
  | JStr s => negb (s =? "")%string
  | JList l => match l with [] => false | _ => true end
  | JDict d => match d with [] => false | _ => true end
  end.

(** [a or b] *)
Definition or_ (a b : json) : json := if truthy a then a else b.

Definition isinstance_list (v : json) : bool :=
  match v with JList _ => true | _ => false end.

Definition isinstance_dict (v : json) : bool :=
  match v with JDict _ => true | _ => false end.

Fixpoint lookup (k : string) (d : dict) : option json :=
  match d with
  | [] => None
  | (k', v) :: d' => if (k =? k')%string then Some v else lookup k d'
  end.

(** [d[k] = v]: the binding is replaced where it stands, a new key goes
    to the end. *)
Fixpoint set (k : string) (v : json) (d : dict) : dict :=
  match d with
  | [] => [(k, v)]
  | (k', v') :: d' =>
      if (k =? k')%string then (k, v) :: d' else (k', v') :: set k v d'
  end.

(** [o[k]] for a string [k] *)
Definition getitem (o : json) (k : string) : result json :=
  match o with
  | JDict d => match lookup k d with Some v => Ok v | None => Raise KeyError end
  | _ => Raise TypeError
  end.

(** [o[i]] for a natural number [i] *)
Definition getindex (o : json) (i : nat) : result json :=
  match o with
  | JList l => match nth_error l i with Some v => Ok v | None => Raise IndexError end
  | JStr s =>
      match String.get i s with
      | Some c => Ok (JStr (String c ""))
      | None => Raise IndexError
      end
  | JDict _ => Raise KeyError
  | _ => Raise TypeError
  end.

(** [o.get(k, default)] *)
Definition get (o : json) (k : string) (default : json) : result json :=
  match o with
  | JDict d => Ok (match lookup k d with Some v => v | None => default end)
  | _ => Raise AttributeError
  end.

(** [k in o] for a string [k]: a key of a dict, an element of a list,
    a substring of a string. *)
Definition contains (o : json) (k : string) : result bool :=
  match o with
  | JDict d => Ok (match lookup k d with Some _ => true | None => false end)
  | JList l =>
      Ok (existsb (fun x => match x with
                            | JStr s => (s =? k)%string
                            | _ => false
                            end) l)
  | JStr s => Ok (PyStr.contains s k)
  | _ => Raise TypeError
  end.

(** [len(o)] *)
Definition len (o : json) : result Z :=
  match o with
  | JDict d => Ok (Z.of_nat (List.length d))
  | JList l => Ok (Z.of_nat (List.length l))
  | JStr s => Ok (Z.of_nat (String.length s))
  | _ => Raise TypeError
  end.

(** *** [str] and [repr], as an f-string field prints a value *)

Definition hex_digit (n : nat) : ascii :=
  ascii_of_nat (if (n <? 10)%nat then 48 + n else 87 + n).

Definition repr_char (quote c : ascii) : string :=
  let n := nat_of_ascii c in
  if (c =? "\")%char then "\\"
  else if (c =? quote)%char then String "\" (String c "")
  else if (n =? 9)%nat then "\t"
  else if (n =? 10)%nat then "\n"
  else if (n =? 13)%nat then "\r"
  else if ((n <? 32) || ((127 <=? n) && (n <=? 160)) || (n =? 173))%nat
  then String "\" (String "x"
         (String (hex_digit (n / 16)) (String (hex_digit (n mod 16)) "")))
  else String c "".

Fixpoint repr_chars (quote : ascii) (s : string) : string :=
  match s with
  | EmptyString => EmptyString
  | String c s' => repr_char quote c ++ repr_chars quote s'
  end.

Definition double_quote : ascii := ascii_of_nat 34.

Definition repr_str (s : string) : string :=
  let quote : ascii :=
    if PyStr.contains s "'" && negb (PyStr.contains s (String double_quote ""))
    then double_quote else "'"%char in
  String quote (repr_chars quote s ++ String quote "").

Definition str_int (n : Z) : string :=
  DecimalString.NilZero.string_of_int (Z.to_int n).

Fixpoint join (sep : string) (l : list string) : string :=
  match l with
  | [] => ""
  | [x] => x
  | x :: l' => x ++ sep ++ join sep l'
  end.

Fixpoint repr (v : json) : string :=
  match v with
  | JNull => "None"
  | JBool b => if b then "True" else "False"
  | JInt n => str_int n
  | JStr s => repr_str s
  | JList l => "[" ++ join ", " (map repr l) ++ "]"
  | JDict d =>
      "{" ++ join ", " (map (fun kv => repr_str (fst kv) ++ ": " ++ repr (snd kv)) d)
          ++ "}"
  end.

(** [str(v)], which is what [f"{v}"] prints *)
Definition str (v : json) : string :=
  match v with
  | JStr s => s
  | _ => repr v
  end.

(** *** Comparisons, as [sorted] uses them *)

(** The number a [bool] or an [int] stands for. *)
Definition as_number (v : json) : option Z :=
  match v with
  | JBool b => Some (if b then 1 else 0)%Z
  | JInt n => Some n
  | _ => None
  end.

(** [a == b] *)
Fixpoint eq (a b : json) {struct a} : bool :=
  match a, b with
  | JNull, JNull => true
  | JStr s, JStr t => (s =? t)%string
  | JList l, JList m =>
      (fix eq_list (l m : list json) {struct l} : bool :=
         match l, m with
         | [], [] => true
         | x :: l', y :: m' => eq x y && eq_list l' m'
         | _, _ => false
         end) l m
  | JDict d, JDict e =>
      (List.length d =? List.length e)%nat &&
      (fix eq_items (d : dict) : bool :=
         match d with
         | [] => true
         | (k, v) :: d' =>
             match lookup k e with
             | Some w => eq v w && eq_items d'
             | None => false
             end
         end) d
  | _, _ =>
      match as_number a, as_number b with
      | Some x, Some y => (x =? y)%Z
      | _, _ => false
      end
  end.

(** [a < b]: numbers with numbers, strings with strings by code point,
    lists by their first differing elements; anything else is a
    [TypeError]. *)
Fixpoint lt (a b : json) {struct a} : result bool :=
  match a, b with
  | JStr s, JStr t => Ok (String.ltb s t)
  | JList l, JList m =>
      (fix lt_list (l m : list json) {struct l} : result bool :=
         match l, m with
         | [], [] => Ok false
         | [], _ :: _ => Ok true
         | _ :: _, [] => Ok false
         | x :: l', y :: m' => if eq x y then lt_list l' m' else lt x y
         end) l m
  | _, _ =>
      match as_number a, as_number b with
      | Some x, Some y => Ok (x <? y)%Z
      | _, _ => Raise TypeError
      end
  end.

(** *** [sorted(l, key=key, reverse=reverse)]

    CPython computes the keys once, reverses the list when [reverse] is
    set, sorts it stably in ascending order with [<] alone, and reverses
    the result. *)
Section Sorted.
Variable A : Type.

Fixpoint insert (x : json * A) (l : list (json * A)) : result (list (json * A)) :=
  match l with
  | [] => Ok [x]
  | y :: l' =>
      let? below := lt (fst x) (fst y) in
      if below then Ok (x :: y :: l')
      else let? r := insert x l' in Ok (y :: r)
  end.

(** The elements are inserted from the left, so that an element goes
    after the earlier ones it is not smaller than. *)
Fixpoint sort_keyed (done todo : list (json * A)) : result (list (json * A)) :=
  match todo with
  | [] => Ok done
  | x :: todo' => let? done' := insert x done in sort_keyed done' todo'
  end.

Definition sorted (l : list A) (key : A -> json) (reverse : bool)
  : result (list A) :=
  let keyed := map (fun x => (key x, x)) l in
  let keyed := if reverse then rev keyed else keyed in
  let? s := sort_keyed [] keyed in
  let s := if reverse then rev s else s in
  Ok (map snd s).
End Sorted.

(** [d.pop(k, default)]: the value taken out, and the dictionary that is
    left. *)
Fixpoint remove (k : string) (d : dict) : dict :=
  match d with
  | [] => []
  | (k', v) :: d' =>
      if (k =? k')%string then d' else (k', v) :: remove k d'
  end.

Definition pop (d : dict) (k : string) (default : json) : json * dict :=
  (match lookup k d with Some v => v | None => default end, remove k d).

End Py.

(** ** The world the analyzer runs in *)

Record request : Type := {
  req_url : string;
  req_headers : list (string * string);
  req_params : option dict
}.

(** What the script reads of a [requests.Response].  The two rate-limit
    headers are given as the integers [int()] makes of them; [body] is
    what [response.json()] returns, [None] when the text is not JSON. *)
Record response : Type := {
  status_code : Z;
  x_ratelimit_remaining : option Z;
  x_ratelimit_reset : option Z;
  text : string;
  body : option json
}.

(** A printed line.  The two waiting messages print a duration with
    [:.2f]; the duration is kept as it is, in microseconds. *)
Inductive line : Type :=
| Text (s : string)
| RateLimitReached (sleep_time : Z)
| RateLimitExceeded (wait_time : Z)
| HttpError (status : Z) (response_text : string).

Inductive event : Type :=
| Print (l : line)
| Sleep (duration : Z)
| Get (sent_at : Z) (r : request).

(** The hosting API: the answer to a request, given the time it is sent
    at and everything that happened before (latest event first). *)
Definition network : Type := Z -> list event -> request -> response.

(** What the platform decides about time.  [localtime t] is the naive
    local date and time that [datetime] makes of the time stamp [t], both
    in microseconds ([t] since the epoch, the result since 1970-01-01
    00:00:00 on the local calendar), or the exception raised when the
    year is outside 1..9999 or the C library gives up ([ValueError],
    [OverflowError], [OSError]).  [refuses t d] is the exception with
    which [time.sleep], called at the time [t], turns down the duration
    [d] for its size, if it does: a duration that it cannot convert,
    whatever its sign, or one that is too long to sleep. *)
Record platform : Type := {
  localtime : Z -> result Z;
  refuses : Z -> Z -> option exn
}.

(** The fields of the analyzer object, the platform, the clock
    (microseconds since the epoch) and the events so far, latest first. *)
Record state : Type := {
  base_url : string;
  headers : list (string * string);
  rate_limit_remaining : option Z;
  rate_limit_reset : option Z;
  host : platform;
  clock : Z;
  trace : list event
}.

(** A computation returns a value, raises, or runs out of fuel ([None]);
    the state it has reached is kept in each case. *)
Definition M (A : Type) : Type := state -> option (result A) * state.

Definition ret {A : Type} (a : A) : M A := fun st => (Some (Ok a), st).

Definition raise {A : Type} (e : exn) : M A := fun st => (Some (Raise e), st).

Definition out_of_fuel {A : Type} : M A := fun st => (None, st).

Definition lift {A : Type} (r : result A) : M A := fun st => (Some r, st).

Definition bind {A B : Type} (m : M A) (k : A -> M B) : M B :=
  fun st =>
    match m st with
    | (Some (Ok a), st') => k a st'
    | (Some (Raise e), st') => (Some (Raise e), st')
    | (None, st') => (None, st')
    end.

Declare Scope monad_scope.
Delimit Scope monad_scope with monad.
Notation "x <- m ;; k" := (bind m (fun x => k))
  (at level 61, m at next level, right associativity) : monad_scope.
Notation "m ;; k" := (bind m (fun _ => k))
  (at level 61, right associativity) : monad_scope.
Open Scope monad_scope.

Definition gets {A : Type} (f : state -> A) : M A := fun st => (Some (Ok (f st)), st).

Definition emit (e : event) : M unit :=
  fun st =>
    (Some (Ok tt),
     {| base_url := base_url st; headers := headers st;
        rate_limit_remaining := rate_limit_remaining st;
        rate_limit_reset := rate_limit_reset st;
        host := host st;
        clock := clock st; trace := e :: trace st |}).

Definition print (l : line) : M unit := emit (Print l).

Definition second : Z := 1000000.

(** [time.sleep(duration)]: a duration that the platform refuses for
    its size raises what the platform says, another negative one raises
    [ValueError]. *)
Definition sleep (duration : Z) : M unit :=
  fun st =>
    match refuses (host st) (clock st) duration with
    | Some e => (Some (Raise e), st)
    | None =>
        if (duration <? 0)%Z then (Some (Raise ValueError), st)
        else
          (Some (Ok tt),
           {| base_url := base_url st; headers := headers st;
              rate_limit_remaining := rate_limit_remaining st;
              rate_limit_reset := rate_limit_reset st;
              host := host st;
              clock := (clock st + duration)%Z;
              trace := Sleep duration :: trace st |})
    end.

(** [datetime.datetime.now()]: the naive local time of the present. *)
Definition now : M Z :=
  fun st => (Some (localtime (host st) (clock st)), st).

(** [datetime.datetime.fromtimestamp(t)]: the naive local time of the
    time stamp [t], given in seconds; [None] is no time stamp. *)
Definition fromtimestamp (t : option Z) : M Z :=
  match t with
  | Some t => fun st => (Some (localtime (host st) (t * second)%Z), st)
  | None => raise TypeError
  end.

(** [response.json()] *)
Definition response_json (r : response) : M json :=
  match body r with
  | Some j => ret j
  | None => raise JSONDecodeError
  end.

Definition set_rate_limit (remaining reset : Z) : M unit :=
  fun st =>
    (Some (Ok tt),
     {| base_url := base_url st; headers := headers st;
        rate_limit_remaining := Some remaining;
        rate_limit_reset := Some reset;
        host := host st; clock := clock st; trace := trace st |}).

(** [v.lower()] *)
Definition lower (v : json) : result string :=
  match v with
  | JStr s => Ok (PyStr.lower s)
  | _ => Raise AttributeError
  end.

(** ** [GitHubContributorAnalyzer] *)

Module GitHubContributorAnalyzer.

(** [__init__], on the platform [os] at time [clock0] and with nothing
    printed or sent yet *)
Definition __init__ (token : option string) (os : platform) (clock0 : Z)
  : state :=
  let headers := [("Accept", "application/vnd.github.v3+json")] in
  let headers :=
    match token with
    | Some t =>
        if negb (t =? "")%string
        then (headers ++ [("Authorization", ("token " ++ t)%string)])%list
        else headers
    | None => headers
    end in
  {| base_url := "https://api.github.com"; headers := headers;
     rate_limit_remaining := None; rate_limit_reset := None;
     host := os; clock := clock0; trace := [] |}.

Section WithNetwork.
Variable net : network.

(** [requests.get(url, headers=self.headers, params=params)] *)
Definition requests_get (url : string) (params : option dict) : M response :=
  fun st =>
    let r := {| req_url := url; req_headers := headers st;
                req_params := params |} in
    (Some (Ok (net (clock st) (trace st) r)),
     {| base_url := base_url st; headers := headers st;
        rate_limit_remaining := rate_limit_remaining st;
        rate_limit_reset := rate_limit_reset st;
        host := host st;
        clock := clock st; trace := Get (clock st) r :: trace st |}).

(** Lines 41-48: wait for the reset when the quota is known to be
    used up. *)
Definition wait_for_reset : M unit :=
  remaining <- gets rate_limit_remaining ;;
  match remaining with
  | Some r =>
      if (r <=? 1)%Z then
        reset <- gets rate_limit_reset ;;
        reset_time <- fromtimestamp reset ;;
        current_time <- now ;;
        let sleep_time := (reset_time - current_time + 5 * second)%Z in
        if (sleep_time >? 0)%Z then
          print (RateLimitReached sleep_time) ;;
          sleep sleep_time
        else ret tt
      else ret tt
  | None => ret tt
  end.

(** Line 60: the test of the [elif]. *)
Definition is_rate_limit_error (r : response) : M bool :=
  if (status_code r =? 403)%Z then
    j <- response_json r ;;
    message <- lift (Py.get j "message" (JStr "")) ;;
    lowered <- lift (lower message) ;;
    ret (PyStr.contains lowered "rate limit")
  else ret false.

(** Lines 52-70: the rate-limit fields are updated, then the status
    decides; [retry] is the call of line 67. *)
Definition handle_response (retry : M json) (response : response) : M json :=
  set_rate_limit
    (match x_ratelimit_remaining response with Some n => n | None => 0%Z end)
    (match x_ratelimit_reset response with Some n => n | None => 0%Z end) ;;
  if (status_code response =? 200)%Z then response_json response
  else
    limited <- is_rate_limit_error response ;;
    if limited then
      reset <- gets rate_limit_reset ;;
      reset_time <- fromtimestamp reset ;;
      current_time <- now ;;
      let wait_time := (reset_time - current_time + 5 * second)%Z in
      print (RateLimitExceeded wait_time) ;;
      sleep wait_time ;;
      retry
    else
      print (HttpError (status_code response) (text response)) ;;
      ret (JDict []).

Fixpoint _make_request (fuel : nat) (url : string) (params : option dict)
  : M json :=
  match fuel with
  | O => out_of_fuel
  | S fuel' =>
      wait_for_reset ;;
      response <- requests_get url params ;;
      handle_response (_make_request fuel' url params) response
  end.

(** The [while True] of [get_repository_contributors]; [retries] is
    the fuel of each request. *)
Fixpoint contributors_loop (retries fuel : nat) (url : string) (params : dict)
    (contributors : list json) (page : Z) : M (list json) :=
  match fuel with
  | O => out_of_fuel
  | S fuel' =>
      let params := Py.set "page" (JInt page) params in
      response_data <- _make_request retries url (Some params) ;;
      if negb (Py.truthy response_data)
         || negb (Py.isinstance_list response_data)
      then ret contributors
      else if negb (Py.truthy response_data) then ret contributors
      else
        match response_data with
        | JList items =>
            let contributors := (contributors ++ items)%list in
            let page := (page + 1)%Z in
            if (Z.of_nat (List.length items) <? 100)%Z then ret contributors
            else contributors_loop retries fuel' url params contributors page
        | _ => ret contributors (* not reached: the answer is a list here *)
        end
  end.

Definition get_repository_contributors (fuel : nat) (owner repo : string)
  : M (list json) :=
  base <- gets base_url ;;
  let url := base ++ "/repos/" ++ owner ++ "/" ++ repo ++ "/contributors" in
  let params := [("per_page", JInt 100)] in
  contributors_loop fuel fuel url params [] 1.

Definition get_user_details (fuel : nat) (username : json) : M json :=
  base <- gets base_url ;;
  let url := base ++ "/users/" ++ Py.str username in
  _make_request fuel url None.

Definition get_user_recent_commits (fuel : nat) (username : json)
    (owner repo : string) : M json :=
  base <- gets base_url ;;
  let url := base ++ "/repos/" ++ owner ++ "/" ++ repo ++ "/commits" in
  let params := [("author", username); ("per_page", JInt 10)] in
  _make_request fuel url (Some params).

End WithNetwork.

(** Lines 124-141: the platform a blog URL is filed under. *)
Definition platform_of_domain (domain : string) : string :=
  if PyStr.contains domain "twitter.com" || PyStr.contains domain "x.com"
  then "Twitter"
  else if PyStr.contains domain "linkedin.com" then "LinkedIn"
  else if PyStr.contains domain "facebook.com" then "Facebook"
  else if PyStr.contains domain "instagram.com" then "Instagram"
  else if PyStr.contains domain "github.com" then "GitHub"
  else "Website".

(** [blog_url.split("//")[-1].split("/")[0].lower()] *)
Definition domain_of (blog_url : string) : string :=
  let after_scheme := last (PyStr.split_from "//" 0 blog_url) "" in
  PyStr.lower (hd "" (PyStr.split_from "/" 0 after_scheme)).

Definition get_user_social_links (user_data : json) : result dict :=
  let social_links : dict := [] in
  let? blog := Py.get user_data "blog" JNull in
  let? social_links :=
    if Py.truthy blog then
      let? blog_url := Py.getitem user_data "blog" in
      match blog_url with
      | JStr url =>
          if PyStr.startswith url "http"
          then Ok (Py.set (platform_of_domain (domain_of url)) blog_url
                          social_links)
          else Ok social_links
      | _ => Raise AttributeError
      end
    else Ok social_links in
  let? html_url := Py.get user_data "html_url" JNull in
  let? social_links :=
    if Py.truthy html_url then
      let? v := Py.getitem user_data "html_url" in
      Ok (Py.set "GitHub" v social_links)
    else Ok social_links in
  let? twitter_username := Py.get user_data "twitter_username" JNull in
  let? social_links :=
    if Py.truthy twitter_username then
      let? v := Py.getitem user_data "twitter_username" in
      Ok (Py.set "Twitter" (JStr ("https://twitter.com/" ++ Py.str v))
                 social_links)
    else Ok social_links in
  Ok social_links.

(** Lines 176-182 of [analyze_repository]. *)
Definition latest_commit_date_of (recent_commits : json) : result json :=
  let latest_commit_date := JNull in
  let? nonempty_list :=
    if Py.truthy recent_commits && Py.isinstance_list recent_commits
    then let? n := Py.len recent_commits in Ok (n >? 0)%Z
    else Ok false in
  if nonempty_list then
    let? first := Py.getindex recent_commits 0 in
    let? has_commit :=
      if Py.isinstance_dict first then Py.contains first "commit"
      else Ok false in
    if has_commit then
      let? commit_info := Py.getitem first "commit" in
      let? has_author := Py.contains commit_info "author" in
      let? has_date :=
        if has_author then
          let? author := Py.getitem commit_info "author" in
          Py.contains author "date"
        else Ok false in
      if has_date then
        let? author := Py.getitem commit_info "author" in
        Py.getitem author "date"
      else Ok latest_commit_date
    else Ok latest_commit_date
  else Ok latest_commit_date.

(** The dictionary appended to [contributor_details]. *)
Record details : Type := {
  username : json;
  name : json;
  email : json;
  bio : json;
  company : json;
  location : json;
  avatar_url : json;
  profile_url : json;
  contributions : json;
  latest_commit_date : json;
  social_links : dict
}.

(** Lines 187-199. *)
Definition make_details (username contributor user_data latest_commit_date : json)
    (social_links : dict) : result details :=
  let? name := Py.get user_data "name" (JStr "") in
  let? email := Py.get user_data "email" (JStr "") in
  let? bio := Py.get user_data "bio" (JStr "") in
  let? company := Py.get user_data "company" (JStr "") in
  let? location := Py.get user_data "location" (JStr "") in
  let? avatar_url := Py.getitem contributor "avatar_url" in
  let? profile_url := Py.get user_data "html_url" (JStr "") in
  let? contributions := Py.getitem contributor "contributions" in
  Ok {| username := username; name := name; email := email; bio := bio;
        company := company; location := location; avatar_url := avatar_url;
        profile_url := profile_url; contributions := contributions;
        latest_commit_date := latest_commit_date;
        social_links := social_links |}.

(** Lines 176-199: what one contributor becomes, given the two answers
    fetched for it. *)
Definition enrich (username contributor user_data recent_commits : json)
  : result details :=
  let? latest_commit_date := latest_commit_date_of recent_commits in
  let? social_links := get_user_social_links user_data in
  make_details username contributor user_data latest_commit_date social_links.

(** Lines 202-206. *)
Definition sort_key (x : details) : json :=
  Py.or_ (latest_commit_date x) (JStr "0").

Definition sort_contributors (contributor_details : list details)
  : result (list details) :=
  Py.sorted contributor_details sort_key true.

Section WithNetwork.
Variable net : network.

(** The body of the [for] loop, lines 165-199. *)
Definition process_contributor (fuel : nat) (owner repo : string)
    (total i : nat) (contributor : json) : M details :=
  username <- lift (Py.getitem contributor "login") ;;
  print (Text ("Processing contributor " ++ Py.str_int (Z.of_nat (i + 1))
               ++ "/" ++ Py.str_int (Z.of_nat total) ++ ": "
               ++ Py.str username)) ;;
  user_data <- get_user_details net fuel username ;;
  recent_commits <- get_user_recent_commits net fuel username owner repo ;;
  lift (enrich username contributor user_data recent_commits).

Fixpoint process_all (fuel : nat) (owner repo : string) (total i : nat)
    (contributors : list json) (contributor_details : list details)
  : M (list details) :=
  match contributors with
  | [] => ret contributor_details
  | contributor :: rest =>
      d <- process_contributor fuel owner repo total i contributor ;;
      process_all fuel owner repo total (S i) rest
                  (contributor_details ++ [d])%list
  end.

Definition analyze_repository (fuel : nat) (owner repo : string)
  : M (list details) :=
  print (Text ("Analyzing repository: " ++ owner ++ "/" ++ repo)) ;;
  contributors <- get_repository_contributors net fuel owner repo ;;
  print (Text ("Found " ++ Py.str_int (Z.of_nat (List.length contributors))
               ++ " contributors")) ;;
  contributor_details <-
    process_all fuel owner repo (List.length contributors) 0 contributors [] ;;
  lift (sort_contributors contributor_details).

End WithNetwork.

(** The dictionary that lines 187-199 build, with its keys in the order
    they are written; the links are the nested dictionary. *)
Definition as_dict (x : details) : dict :=
  [("username", username x); ("name", name x); ("email", email x);
   ("bio", bio x); ("company", company x); ("location", location x);
   ("avatar_url", avatar_url x); ("profile_url", profile_url x);
   ("contributions", contributions x);
   ("latest_commit_date", latest_commit_date x);
   ("social_links", JDict (social_links x))].

(** Lines 217-221 of [create_dataframe]: the copy of one contributor
    without its links, then one [social_...] entry per link. *)
Definition flatten (contributor : dict) : result dict :=
  let (social_links, contributor_flat) :=
    Py.pop contributor "social_links" (JDict []) in
  match social_links with
  | JDict links =>
      Ok (fold_left
            (fun flat link =>
               Py.set ("social_" ++ PyStr.lower (fst link)) (snd link) flat)
            links contributor_flat)
  | _ => Raise AttributeError
  end.

(** [create_dataframe], lines 215-225: the frame is given by the list of
    rows it is built from. *)
Fixpoint create_dataframe (contributors : list dict) : result (list dict) :=
  match contributors with
  | [] => Ok []
  | contributor :: rest =>
      let? contributor_flat := flatten contributor in
      let? flattened_data := create_dataframe rest in
      Ok (contributor_flat :: flattened_data)
  end.

End GitHubContributorAnalyzer.

(** The reference the script is run with, line 11. *)
Definition REPO_URL : string :=
  "https://github.com/tensorflow/tensorflow/tree/master/tensorflow/python".

(** ** The script, lines 267-274

    The reference is parsed first; the analyzer is created and run only
    when that succeeds.  The result comes with the trace of the run. *)
Definition script (net : network) (os : platform) (fuel : nat)
    (repo_url : string) (github_token : option string) (clock0 : Z)
  : option (result (list GitHubContributorAnalyzer.details)) * list event :=
  match extract_repo_info repo_url with
  | Raise e => (Some (Raise e), [])
  | Ok (repo_owner, repo_name) =>
      let analyzer :=
        GitHubContributorAnalyzer.__init__ github_token os clock0 in
      let (contributors, st) :=
        GitHubContributorAnalyzer.analyze_repository net fuel repo_owner repo_name
                                                     analyzer in
      (contributors, trace st)
  end.

(** ** The report, lines 282-291

    The lines printed for the contributor at index [i] of the sorted
    list. *)
Definition display_name (contributor : GitHubContributorAnalyzer.details)
  : json :=
  Py.or_ (GitHubContributorAnalyzer.name contributor)
         (GitHubContributorAnalyzer.username contributor).

Definition report_block (i : nat)
    (contributor : GitHubContributorAnalyzer.details) : list string :=
  let links := GitHubContributorAnalyzer.social_links contributor in
  let heading :=
    Py.str_int (Z.of_nat (i + 1)) ++ ". " ++ Py.str (display_name contributor) in
  let username :=
    "   Username: "
    ++ Py.str (GitHubContributorAnalyzer.username contributor) in
  let contributions :=
    "   Contributions: "
    ++ Py.str (GitHubContributorAnalyzer.contributions contributor) in
  let latest :=
    "   Latest commit: "
    ++ Py.str (GitHubContributorAnalyzer.latest_commit_date contributor) in
  let social :=
    if Py.truthy (JDict links)
    then "   Social links:"
         :: map (fun link => "     - " ++ fst link ++ ": " ++ Py.str (snd link))
                links
    else [] in
  List.app [heading; username; contributions; latest] (List.app social [""]).

(** ** Vocabulary of the statements *)

(** All the characters of [s] satisfy [p]. *)
Fixpoint str_all (p : ascii -> bool) (s : string) : bool :=
  match s with
  | EmptyString => true
  | String c s' => p c && str_all p s'
  end.

Definition not_slash (c : ascii) : bool := negb (c =? "/")%char.
Definition not_colon (c : ascii) : bool := negb (c =? ":")%char.
Definition not_space (c : ascii) : bool := negb (PyStr.isspace c).

(** A path segment that names an owner or a repository: not empty, and
    free of slashes, colons and white space. *)
Definition segment (s : string) : bool :=
  negb (s =? "")%string
  && str_all (fun c => not_slash c && not_colon c && not_space c) s.

(** The three reference formats of the script. *)
Inductive ref_format : Type := Https | Ssh | Shorthand.

Definition format_prefix (f : ref_format) : string :=
  match f with
  | Https => https_github
  | Ssh => ssh_github
  | Shorthand => ""
  end.

Fixpoint path_of (segments : list string) : string :=
  match segments with
  | [] => ""
  | s :: rest => "/" ++ s ++ path_of rest
  end.

(** The reference to [owner/name] in format [f], followed by the path
    [extra] and by a slash when [trailing] is set. *)
Definition reference (f : ref_format) (owner name : string)
    (extra : list string) (trailing : bool) : string :=
  format_prefix f ++ owner ++ "/" ++ name ++ path_of extra
  ++ (if trailing then "/" else "").

(** [s[n:]] *)
Fixpoint drop (n : nat) (s : string) : string :=
  match n, s with
  | S n', String _ s' => drop n' s'
  | _, _ => s
  end.

(** The host of an [https://] URL: what stands between the scheme and the
    next slash. *)
Definition url_host (url : string) : string :=
  hd "" (PyStr.split_from "/" 0 (drop 8 url)).

(** [d.get(k)]: the value of a key, [None] when the key is missing. *)
Definition field (d : dict) (k : string) : json :=
  match Py.lookup k d with Some v => v | None => JNull end.

(** The three steps of [get_user_social_links] on a profile [d]: the
    links after the blog has been looked at, then the profile page, then
    the Twitter user name. *)
Definition blog_links (d : dict) : result dict :=
  if Py.truthy (field d "blog") then
    match field d "blog" with
    | JStr url =>
        if PyStr.startswith url "http"
        then Ok (Py.set (GitHubContributorAnalyzer.platform_of_domain
                           (GitHubContributorAnalyzer.domain_of url))
                        (JStr url) [])
        else Ok []
    | _ => Raise AttributeError
    end
  else Ok [].

Definition with_github (d : dict) (links : dict) : dict :=
  if Py.truthy (field d "html_url")
  then Py.set "GitHub" (field d "html_url") links else links.

Definition with_twitter (d : dict) (links : dict) : dict :=
  if Py.truthy (field d "twitter_username")
  then Py.set "Twitter"
         (JStr ("https://twitter.com/" ++ Py.str (field d "twitter_username")))
         links
  else links.

(** *** Requests and traces *)

(** The requests of a trace, first sent first. *)
Fixpoint requests_of (tr : list event) : list request :=
  match tr with
  | [] => []
  | Get _ r :: tr' => (requests_of tr' ++ [r])%list
  | _ :: tr' => requests_of tr'
  end.

(** The trace of [st'] continues that of [st]. *)
Definition extends (st st' : state) : Prop :=
  exists later, trace st' = (later ++ trace st)%list.

(** A computation whose final state is related by [R] to the state it
    starts in, whether it returns, raises or runs out of fuel. *)
Definition respects (R : state -> state -> Prop) {A : Type} (m : M A) : Prop :=
  forall st, R st (snd (m st)).


(** The state after the script has announced a wait of [d] and slept. *)
Definition after_wait (st : state) (d : Z) : state :=
  {| base_url := base_url st; headers := headers st;
     rate_limit_remaining := rate_limit_remaining st;
     rate_limit_reset := rate_limit_reset st;
     host := host st;
     clock := (clock st + d)%Z;
     trace := Sleep d :: Print (RateLimitReached d) :: trace st |}.

(** *** Platforms

    The two platforms of the examples are described for a period of time
    and for durations from 9 000 000 000 seconds below zero, which
    [time.sleep] still converts, to a day; beyond that they are made to
    raise, and the examples stay within. *)

Definition refuses_beyond_a_day (d : Z) : option exn :=
  if ((- 9000000000 * second <=? d) && (d <=? 86400 * second))%Z%bool
  then None else Some OverflowError.

(** A platform whose local time is UTC, described from the epoch to the
    end of the year 2099. *)
Definition utc : platform :=
  {| localtime :=
       fun t => if ((0 <=? t) && (t <? 4102444800 * second))%Z%bool
                then Ok t else Raise OSError;
     refuses := fun _ d => refuses_beyond_a_day d |}.

(** The offset of US Eastern time from 5 November 2023 to 9 March 2025:
    daylight time (4 hours behind UTC) from 10 March 2024, 07:00 UTC, to
    3 November 2024, 06:00 UTC, and standard time (5 hours behind)
    before and after. *)
Definition eastern_offset (t : Z) : Z :=
  if ((1710054000 * second <=? t) && (t <? 1730613600 * second))%Z%bool
  then (- 4 * 3600 * second)%Z
  else (- 5 * 3600 * second)%Z.

(** A platform in that zone, described for that period. *)
Definition eastern : platform :=
  {| localtime :=
       fun t => if ((1699164000 * second <=? t)
                    && (t <? 1741503600 * second))%Z%bool
                then Ok (t + eastern_offset t)%Z else Raise OSError;
     refuses := fun _ d => refuses_beyond_a_day d |}.

(** An analyzer on [os] at the time [now] (in seconds) that has one
    request left, the quota being reset 10 seconds later. *)
Definition reset_in_ten_seconds (os : platform) (now : Z) : state :=
  {| base_url := "https://api.github.com";
     headers := [("Accept", "application/vnd.github.v3+json")];
     rate_limit_remaining := Some 1%Z;
     rate_limit_reset := Some (now + 10)%Z;
     host := os;
     clock := (now * second)%Z; trace := [] |}.

(** The quota is not known to be used up: the next request is sent
    without a look at the clock. *)
Definition ready (st : state) : Prop :=
  forall r : Z, rate_limit_remaining st = Some r -> (1 < r)%Z.

(** The reset time is known whenever the remaining quota is. *)
Definition consistent (st : state) : Prop :=
  rate_limit_remaining st <> None -> rate_limit_reset st <> None.

(** Consistency is not lost from [st] to [st']. *)
Definition stays_consistent (st st' : state) : Prop :=
  consistent st -> consistent st'.

(** [net] answers the request [r] with status 200, the JSON value [j]
    and a remaining quota above 1, whenever it is asked. *)
Definition serves (net : network) (r : request) (j : json) : Prop :=
  forall (now : Z) (tr : list event),
    status_code (net now tr r) = 200%Z /\ body (net now tr r) = Some j
    /\ exists quota, x_ratelimit_remaining (net now tr r) = Some quota
                     /\ (1 < quota)%Z.

Definition page_params (page : Z) : dict :=
  [("per_page", JInt 100); ("page", JInt page)].

(** The request for a page of the list at [url]. *)
Definition page_request (hdrs : list (string * string)) (url : string)
    (page : Z) : request :=
  {| req_url := url; req_headers := hdrs; req_params := Some (page_params page) |}.

(** The items of a page, none when the answer is not a list. *)
Definition page_items (v : json) : list json :=
  match v with
  | JList items => items
  | _ => []
  end.

(** The answer ends the paging: it is not a list of 100 items or more. *)
Definition last_page (v : json) : Prop :=
  match v with
  | JList items => (List.length items < 100)%nat
  | _ => True
  end.

(** The page numbers [first], [first + 1], ... ([count] of them). *)
Fixpoint page_numbers (first : Z) (count : nat) : list Z :=
  match count with
  | O => []
  | S count' => first :: page_numbers (first + 1) count'
  end.

(** A list endpoint with 237 entries, served in pages of 100. *)
Definition fake_entry (i : nat) : json := JDict [("id", JInt (Z.of_nat i))].

Definition fake_page (page : Z) : list json :=
  if (page =? 1)%Z then map fake_entry (seq 0 100)
  else if (page =? 2)%Z then map fake_entry (seq 100 100)
  else if (page =? 3)%Z then map fake_entry (seq 200 37)
  else [].

Definition fake_endpoint : network :=
  fun _ _ r =>
    let page :=
      match req_params r with
      | Some params =>
          match Py.lookup "page" params with Some (JInt p) => p | _ => 1%Z end
      | None => 1%Z
      end in
    {| status_code := 200; x_ratelimit_remaining := Some 4000%Z;
       x_ratelimit_reset := Some 1700000000%Z; text := "";
       body := Some (JList (fake_page page)) |}.

(** A host that answers every request with status 403 and a page that is
    not JSON. *)
Definition forbidden_html : network :=
  fun _ _ _ =>
    {| status_code := 403; x_ratelimit_remaining := None;
       x_ratelimit_reset := None; text := "<html>Forbidden</html>";
       body := None |}.

(** A record with a login and a commit date, the other fields empty. *)
Definition example_details (login : string) (date : json)
  : GitHubContributorAnalyzer.details :=
  {| GitHubContributorAnalyzer.username := JStr login;
     GitHubContributorAnalyzer.name := JStr "";
     GitHubContributorAnalyzer.email := JStr "";
     GitHubContributorAnalyzer.bio := JStr "";
     GitHubContributorAnalyzer.company := JStr "";
     GitHubContributorAnalyzer.location := JStr "";
     GitHubContributorAnalyzer.avatar_url := JStr "";
     GitHubContributorAnalyzer.profile_url := JStr "";
     GitHubContributorAnalyzer.contributions := JInt 1;
     GitHubContributorAnalyzer.latest_commit_date := date;
     GitHubContributorAnalyzer.social_links := [] |}.

(** *** Dates and their order *)

Definition is_digit (c : ascii) : bool :=
  let n := nat_of_ascii c in ((48 <=? n) && (n <=? 57))%nat.

(** [s] has the shape of [pattern], where a [d] of the pattern stands for
    a digit and any other character for itself. *)
Fixpoint has_shape (pattern s : string) : bool :=
  match pattern, s with
  | EmptyString, EmptyString => true
  | String p pattern', String c s' =>
      (if (p =? "d")%char then is_digit c else (c =? p)%char)
      && has_shape pattern' s'
  | _, _ => false
  end.

(** An ISO-8601 time stamp in UTC, as the API writes commit dates. *)
Definition iso_timestamp (s : string) : bool :=
  has_shape "dddd-dd-ddTdd:dd:ddZ" s.

(** The commit date of a record is [None] or a time stamp. *)
Definition well_dated (x : GitHubContributorAnalyzer.details) : Prop :=
  GitHubContributorAnalyzer.latest_commit_date x = JNull
  \/ exists s, GitHubContributorAnalyzer.latest_commit_date x = JStr s
               /\ iso_timestamp s = true.

(** The date as an option, to compare two records by it. *)
Definition date_of (x : GitHubContributorAnalyzer.details) : option string :=
  match GitHubContributorAnalyzer.latest_commit_date x with
  | JStr s => Some s
  | _ => None
  end.

Definition same_date (d : option string) (x : GitHubContributorAnalyzer.details)
  : bool :=
  match d, date_of x with
  | Some a, Some b => (a =? b)%string
  | None, None => true
  | _, _ => false
  end.

(** [x] may stand before [y] in the report: [y] has no date, or both have
    one and that of [x] is not the smaller string. *)
Definition not_later (x y : GitHubContributorAnalyzer.details) : Prop :=
  match date_of y with
  | None => True
  | Some b =>
      match date_of x with
      | Some a => String.leb b a = true
      | None => False
      end
  end.

(** The string a record is sorted by when its date is a string or [None]. *)
Definition date_key (x : GitHubContributorAnalyzer.details) : string :=
  match GitHubContributorAnalyzer.latest_commit_date x with
  | JStr s => if (s =? "")%string then "0" else s
  | _ => "0"
  end.

(** Stable insertion sort by a string key, in ascending order: what
    [Py.sort_keyed] computes when every key is a string. *)
Section SortByString.
Variable A : Type.
Variable key : A -> string.

Fixpoint insert_by (x : A) (l : list A) : list A :=
  match l with
  | [] => [x]
  | y :: l' =>
      if String.ltb (key x) (key y) then x :: y :: l'
      else y :: insert_by x l'
  end.

Fixpoint sort_by (done todo : list A) : list A :=
  match todo with
  | [] => done
  | x :: todo' => sort_by (insert_by x done) todo'
  end.

(** The descending sort: reverse, sort, reverse. *)
Definition sorted_desc (l : list A) : list A := rev (sort_by [] (rev l)).
End SortByString.

(** *** Links and rows *)

(** The platforms a link can be filed under. *)
Definition platforms : list string :=
  ["Twitter"; "LinkedIn"; "Facebook"; "Instagram"; "GitHub"; "Website"].

(** The column a link becomes in a flattened row. *)
Definition social_column (link : string * json) : string * json :=
  ("social_" ++ PyStr.lower (fst link), snd link).

(** The flattened row of a record: its ten plain fields, then one column
    per link. *)
Definition row_of (x : GitHubContributorAnalyzer.details) : dict :=
  (firstn 10 (GitHubContributorAnalyzer.as_dict x)
   ++ map social_column (GitHubContributorAnalyzer.social_links x))%list.

(** *** Rate-limit responses *)

(** The integer read from a rate-limit header, 0 when it is missing. *)
Definition header_or_zero (h : option Z) : Z :=
  match h with Some n => n | None => 0%Z end.

(** A response the wrapper takes for a rate-limit refusal: status 403 and
    a JSON object whose message speaks of the rate limit. *)
Definition rate_limited (r : response) : Prop :=
  status_code r = 403%Z
  /\ exists (d : dict) (message : string),
       body r = Some (JDict d)
       /\ match Py.lookup "message" d with Some v => v | None => JStr "" end
          = JStr message
       /\ PyStr.contains (PyStr.lower message) "rate limit" = true.

(** The state once the response [r] has been received and its rate-limit
    headers stored, with [events] added to the trace and the clock moved
    on by [elapsed]. *)
Definition received (st : state) (r : response) (elapsed : Z)
    (events : list event) : state :=
  {| base_url := base_url st; headers := headers st;
     rate_limit_remaining := Some (header_or_zero (x_ratelimit_remaining r));
     rate_limit_reset := Some (header_or_zero (x_ratelimit_reset r));
     host := host st;
     clock := (clock st + elapsed)%Z;
     trace := (events ++ trace st)%list |}.

(** A host that refuses the first request of a run for the rate limit,
    with the reset 3 seconds after the epoch, and serves the empty list
    afterwards. *)
Definition refuses_once : network :=
  fun _ tr _ =>
    match requests_of tr with
    | [] =>
        {| status_code := 403; x_ratelimit_remaining := Some 0%Z;
           x_ratelimit_reset := Some 3%Z; text := "";
           body := Some (JDict [("message",
                                 JStr "API rate limit exceeded for 1.2.3.4")]) |}
    | _ =>
        {| status_code := 200; x_ratelimit_remaining := Some 59%Z;
           x_ratelimit_reset := Some 3600%Z; text := "";
           body := Some (JList []) |}
    end.

(** A host that refuses every request for the rate limit without a reset
    header. *)
Definition refuses_without_reset : network :=
  fun _ _ _ =>
    {| status_code := 403; x_ratelimit_remaining := None;
       x_ratelimit_reset := None; text := "";
       body := Some (JDict [("message", JStr "Rate limit exceeded")]) |}.

(** *** Fetching a page *)

(** From any state with the headers [hdrs] in which the quota is not
    known to be used up, the request for [page] returns [j], is the one
    request sent, and leaves a state of which [after] holds. *)
Definition fetches (net : network) (retries : nat) (url : string)
    (hdrs : list (string * string)) (page : Z) (j : json)
    (after : state -> Prop) : Prop :=
  forall st : state,
    ready st -> headers st = hdrs ->
    exists st',
      GitHubContributorAnalyzer._make_request
        net (S retries) url (Some (page_params page)) st
      = (Some (Ok j), st')
      /\ after st' /\ headers st' = hdrs
      /\ requests_of (trace st')
         = (requests_of (trace st) ++ [page_request hdrs url page])%list.

(** [net] answers the request [r] with a status that is neither 200 nor
    403, whenever it is asked. *)
Definition fails (net : network) (r : request) : Prop :=
  forall (now : Z) (tr : list event),
    status_code (net now tr r) <> 200%Z /\ status_code (net now tr r) <> 403%Z.

(** A host that serves 100 entries on every page. *)
Definition endless_pages : network :=
  fun _ _ _ =>
    {| status_code := 200; x_ratelimit_remaining := Some 4000%Z;
       x_ratelimit_reset := Some 1700000000%Z; text := "";
       body := Some (JList (map fake_entry (seq 0 100))) |}.

(** A host that serves the first page of [fake_endpoint] and answers
    every other request with status 502. *)
Definition fails_after_first_page : network :=
  fun now tr r =>
    match req_params r with
    | Some params =>
        match Py.lookup "page" params with
        | Some (JInt 1) => fake_endpoint now tr r
        | _ => {| status_code := 502; x_ratelimit_remaining := None;
                  x_ratelimit_reset := None; text := "Bad Gateway";
                  body := None |}
        end
    | None => {| status_code := 502; x_ratelimit_remaining := None;
                 x_ratelimit_reset := None; text := "Bad Gateway";
                 body := None |}
    end.

(** From [st] to [st'] the session is kept: the headers and the base
    URL are the same. *)
Definition same_session (st st' : state) : Prop :=
  headers st' = headers st /\ base_url st' = base_url st.

(** A host that knows no repository. *)
Definition not_found : network :=
  fun _ _ _ =>
    {| status_code := 404; x_ratelimit_remaining := Some 59%Z;
       x_ratelimit_reset := Some 1700000000%Z; text := "Not Found";
       body := Some (JDict [("message", JStr "Not Found")]) |}.

(** *** The requests about one contributor *)

Definition user_request (hdrs : list (string * string)) (base : string)
    (username : json) : request :=
  {| req_url := base ++ "/users/" ++ Py.str username; req_headers := hdrs;
     req_params := None |}.

Definition commits_request (hdrs : list (string * string))
    (base owner repo : string) (username : json) : request :=
  {| req_url := base ++ "/repos/" ++ owner ++ "/" ++ repo ++ "/commits";
     req_headers := hdrs;
     req_params := Some [("author", username); ("per_page", JInt 10)] |}.

Definition requests_about (hdrs : list (string * string))
    (base owner repo : string) (d : GitHubContributorAnalyzer.details)
  : list request :=
  [user_request hdrs base (GitHubContributorAnalyzer.username d);
   commits_request hdrs base owner repo (GitHubContributorAnalyzer.username d)].

(** [net] serves the profile and the commits of [contributor], and [d]
    is the record that lines 176-199 build from the two answers. *)
Definition analysed (net : network) (hdrs : list (string * string))
    (base owner repo : string) (contributor : json)
    (d : GitHubContributorAnalyzer.details) : Prop :=
  exists username user_data recent_commits,
    Py.getitem contributor "login" = Ok username
    /\ serves net (user_request hdrs base username) user_data
    /\ serves net (commits_request hdrs base owner repo username)
               recent_commits
    /\ GitHubContributorAnalyzer.enrich username contributor user_data
                                        recent_commits
       = Ok d.

(** A host with one repository of two contributors, whose commits are of
    different days. *)
Definition small_contributor (login : string) : json :=
  JDict [("login", JStr login); ("avatar_url", JStr (login ++ ".png"));
         ("contributions", JInt 3)].

Definition small_profile (login : string) : json :=
  JDict [("login", JStr login); ("name", JStr (PyStr.lower login));
         ("html_url", JStr ("https://github.com/" ++ login))].

Definition small_commits (author : json) : json :=
  let day := match author with
             | JStr "alice" => "2024-05-01T10:00:00Z"
             | _ => "2024-06-01T10:00:00Z"
             end in
  JList [JDict [("commit", JDict [("author", JDict [("date", JStr day)])])]].

Definition small_repo : network :=
  fun _ _ r =>
    let answer :=
      if PyStr.endswith (req_url r) "/contributors"
      then JList [small_contributor "alice"; small_contributor "bob"]
      else if PyStr.endswith (req_url r) "/commits"
      then small_commits
             (match req_params r with
              | Some params =>
                  match Py.lookup "author" params with
                  | Some a => a
                  | None => JNull
                  end
              | None => JNull
              end)
      else if PyStr.endswith (req_url r) "/alice" then small_profile "alice"
      else small_profile "bob" in
    {| status_code := 200; x_ratelimit_remaining := Some 4000%Z;
       x_ratelimit_reset := Some 1700000000%Z; text := "";
       body := Some answer |}.

(** * Facts about the string methods *)

Section StringFacts.

Lemma append_nil_r (s : string) : s ++ "" = s.
Proof. induction s as [|c s IH]; simpl; [reflexivity | now rewrite IH]. Qed.

Lemma append_assoc (a b c : string) : (a ++ b) ++ c = a ++ (b ++ c).
Proof. induction a as [|x a IH]; simpl; [reflexivity | now rewrite IH]. Qed.

Lemma str_all_app p a b : str_all p (a ++ b) = str_all p a && str_all p b.
Proof.
  induction a as [|x a IH]; simpl; [reflexivity|].
  now rewrite IH, andb_assoc.
Qed.

Lemma prefix_split (p s : string) :
  String.prefix p s = true -> exists t, s = p ++ t.
Proof.
  revert s; induction p as [|a p IH]; intros s H.
  - exists s; reflexivity.
  - destruct s as [|b s]; simpl in H; [discriminate|].
    destruct (ascii_dec a b) as [->|]; [|discriminate].
    destruct (IH _ H) as [t ->]. exists t; reflexivity.
Qed.

Lemma prefix_app (p t : string) : String.prefix p (p ++ t) = true.
Proof.
  induction p as [|a p IH]; simpl; [now destruct t|].
  destruct (ascii_dec a a); [assumption | congruence].
Qed.

Lemma prefix_app_r (p s t : string) :
  String.prefix p s = true -> String.prefix p (s ++ t) = true.
Proof.
  intros H. destruct (prefix_split _ _ H) as [u ->].
  rewrite append_assoc. apply prefix_app.
Qed.

(** A prefix of a string whose characters all satisfy [q] is made of
    such characters. *)
Lemma prefix_str_all (q : ascii -> bool) (p s : string) :
  String.prefix p s = true -> str_all q s = true -> str_all q p = true.
Proof.
  intros H Hs. destruct (prefix_split _ _ H) as [t ->].
  rewrite str_all_app in Hs. now apply andb_true_iff in Hs.
Qed.

Lemma prefix_nil (s : string) : String.prefix "" s = true.
Proof. now destruct s. Qed.

Lemma prefix_cons (a b : ascii) (p s : string) :
  String.prefix (String a p) (String b s)
  = (a =? b)%char && String.prefix p s.
Proof.
  change (String.prefix (String a p) (String b s))
    with (if ascii_dec a b then String.prefix p s else false).
  destruct (ascii_dec a b) as [->|Hne].
  - now rewrite Ascii.eqb_refl.
  - apply Ascii.eqb_neq in Hne. now rewrite Hne.
Qed.

Lemma prefix_slash (c : ascii) (s : string) :
  String.prefix "/" (String c s) = (c =? "/")%char.
Proof.
  rewrite prefix_cons, prefix_nil, andb_true_r. apply Ascii.eqb_sym.
Qed.

(** *** [strip] *)

Lemma rstrip_cons (c : ascii) (s : string) :
  PyStr.isspace c = false ->
  PyStr.rstrip (String c s) = String c (PyStr.rstrip s).
Proof. intros H. simpl. rewrite H. now destruct (PyStr.rstrip s). Qed.

Lemma rstrip_id (s : string) :
  str_all not_space s = true -> PyStr.rstrip s = s.
Proof.
  induction s as [|c s IH]; [reflexivity|]. simpl str_all.
  intros [Hc Hs]%andb_true_iff. apply negb_true_iff in Hc.
  now rewrite rstrip_cons, IH.
Qed.

Lemma strip_id (s : string) :
  str_all not_space s = true -> PyStr.strip s = s.
Proof.
  intros H. unfold PyStr.strip.
  assert (PyStr.lstrip s = s) as ->.
  { destruct s as [|c s]; [reflexivity|]. simpl in *.
    apply andb_true_iff in H as [Hc _]. apply negb_true_iff in Hc.
    now rewrite Hc. }
  now apply rstrip_id.
Qed.

Lemma rstrip_prefix (s : string) : exists t, s = PyStr.rstrip s ++ t.
Proof.
  induction s as [|c s [t IH]]; [now exists ""|].
  simpl. destruct (PyStr.rstrip s) as [|x r] eqn:E.
  - destruct (PyStr.isspace c).
    + now exists (String c s).
    + exists t. simpl. now rewrite IH at 1.
  - exists t. simpl. now rewrite IH at 1.
Qed.

(** *** [endswith] and [s[:-1]] *)

Lemma but_last_cons (c x : ascii) (s : string) :
  PyStr.but_last (String c (String x s)) = String c (PyStr.but_last (String x s)).
Proof. reflexivity. Qed.

Lemma but_last_prefix (s : string) : exists t, s = PyStr.but_last s ++ t.
Proof.
  induction s as [|c s [t IH]]; [now exists ""|].
  destruct s as [|x s].
  - now exists (String c "").
  - rewrite but_last_cons. exists t.
    change (String c (String x s)
            = String c (PyStr.but_last (String x s) ++ t)).
    now f_equal.
Qed.

Lemma but_last_app_slash (t : string) : PyStr.but_last (t ++ "/") = t.
Proof.
  induction t as [|c t IH]; [reflexivity|].
  simpl append. destruct t as [|x t]; [reflexivity|].
  simpl append in *. rewrite but_last_cons. now rewrite IH.
Qed.

Lemma endswith_app_slash (t : string) : PyStr.endswith (t ++ "/") "/" = true.
Proof.
  induction t as [|c t IH]; [reflexivity|].
  simpl. rewrite IH. apply orb_true_r.
Qed.

Lemma eqb_cons_slash (c : ascii) (s : string) :
  s <> "" -> (String c s =? "/")%string = false.
Proof.
  intros H. apply String.eqb_neq. intros E. inversion E. contradiction.
Qed.

(** Whether a string ends with a slash is decided by any non-empty
    end of it. *)
Lemma endswith_app (a b : string) :
  b <> "" -> PyStr.endswith (a ++ b) "/" = PyStr.endswith b "/".
Proof.
  intros Hb. induction a as [|c a IH]; [reflexivity|].
  simpl append. cbn [PyStr.endswith]. rewrite IH.
  rewrite eqb_cons_slash; [reflexivity|].
  destruct a; simpl; [assumption | discriminate].
Qed.

Lemma endswith_no_slash (s : string) :
  str_all not_slash s = true -> PyStr.endswith s "/" = false.
Proof.
  induction s as [|c s IH]; [reflexivity|]. simpl str_all.
  intros [Hc Hs]%andb_true_iff. cbn [PyStr.endswith]. rewrite (IH Hs).
  rewrite orb_false_r. apply String.eqb_neq. intros E. inversion E; subst.
  discriminate.
Qed.

(** *** [replace] *)

Lemma replace_from_skip (old new a s : string) :
  PyStr.replace_from old new (String.length a) (a ++ s)
  = PyStr.replace_from old new 0 s.
Proof.
  induction a as [|c a IH]; simpl; [|assumption].
  now destruct s.
Qed.

Lemma replace_from_hit (old new s : string) :
  old <> "" ->
  PyStr.replace_from old new 0 (old ++ s)
  = new ++ PyStr.replace_from old new 0 s.
Proof.
  intros Hne. destruct old as [|a old]; [contradiction|].
  assert (Hp : String.prefix (String a old) (String a old ++ s) = true)
    by apply prefix_app.
  simpl append in *. cbn [PyStr.replace_from]. rewrite Hp.
  replace (String.length (String a old) - 1) with (String.length old)
    by (simpl; lia).
  now rewrite replace_from_skip.
Qed.

Lemma replace_from_miss (old new : string) (c : ascii) (s : string) :
  String.prefix old (String c s) = false ->
  PyStr.replace_from old new 0 (String c s)
  = String c (PyStr.replace_from old new 0 s).
Proof. intros H. cbn [PyStr.replace_from]. now rewrite H. Qed.

(** Nothing is replaced in a string that lacks a character of [old]. *)
Lemma replace_from_absent (q : ascii -> bool) (old new s : string) :
  str_all q s = true -> str_all q old = false ->
  PyStr.replace_from old new 0 s = s.
Proof.
  intros Hs Hold. induction s as [|c s IH]; [reflexivity|].
  rewrite replace_from_miss.
  - simpl in Hs. apply andb_true_iff in Hs as [_ Hs]. now rewrite IH.
  - destruct (String.prefix old (String c s)) eqn:E; [|reflexivity].
    rewrite (prefix_str_all q _ _ E Hs) in Hold. discriminate.
Qed.

(** *** [split] on a slash *)

Lemma split_from_cons (c : ascii) (s : string) :
  PyStr.split_from "/" 0 (String c s)
  = if (c =? "/")%char then "" :: PyStr.split_from "/" 0 s
    else String c (hd "" (PyStr.split_from "/" 0 s))
           :: tl (PyStr.split_from "/" 0 s).
Proof.
  cbn [PyStr.split_from]. rewrite prefix_slash.
  destruct (c =? "/")%char; [reflexivity|].
  assert (H : PyStr.split_from "/" 0 s <> []).
  { destruct s as [|x s]; cbn [PyStr.split_from]; [discriminate|].
    destruct (String.prefix "/" (String x s)); [discriminate|].
    now destruct (PyStr.split_from "/" 0 s). }
  now destruct (PyStr.split_from "/" 0 s).
Qed.

Lemma split_from_segment (a r : string) :
  str_all not_slash a = true ->
  PyStr.split_from "/" 0 (a ++ String "/" r) = a :: PyStr.split_from "/" 0 r.
Proof.
  induction a as [|c a IH]; intros H.
  - simpl append. now rewrite split_from_cons.
  - simpl in H. apply andb_true_iff in H as [Hc Ha].
    simpl append. rewrite split_from_cons, (IH Ha).
    unfold not_slash in Hc. apply negb_true_iff in Hc. now rewrite Hc.
Qed.

Lemma split_from_no_slash (a : string) :
  str_all not_slash a = true -> PyStr.split_from "/" 0 a = [a].
Proof.
  induction a as [|c a IH]; intros H; [reflexivity|].
  simpl in H. apply andb_true_iff in H as [Hc Ha].
  rewrite split_from_cons, (IH Ha).
  unfold not_slash in Hc. apply negb_true_iff in Hc. now rewrite Hc.
Qed.

End StringFacts.

(** * [extract_repo_info] *)

Section RepoReference.

Lemma str_all_and (p q : ascii -> bool) (s : string) :
  str_all (fun c => p c && q c) s = str_all p s && str_all q s.
Proof.
  induction s as [|c s IH]; [reflexivity|]. simpl. rewrite IH.
  destruct (p c), (q c), (str_all p s), (str_all q s); reflexivity.
Qed.

Lemma segment_inv (s : string) :
  segment s = true ->
  s <> "" /\ str_all not_slash s = true /\ str_all not_colon s = true
  /\ str_all not_space s = true.
Proof.
  unfold segment. rewrite !str_all_and.
  intros [Hne [[H1 H2]%andb_true_iff H3]%andb_true_iff]%andb_true_iff.
  apply negb_true_iff, String.eqb_neq in Hne. auto.
Qed.

Lemma path_of_all (q : ascii -> bool) (extra : list string) :
  q "/"%char = true ->
  (forall s, segment s = true -> str_all q s = true) ->
  forallb segment extra = true -> str_all q (path_of extra) = true.
Proof.
  intros Hq Hseg. induction extra as [|s extra IH]; [reflexivity|].
  simpl forallb. intros [Hs Hextra]%andb_true_iff.
  simpl. now rewrite Hq, !str_all_app, (Hseg _ Hs), (IH Hextra).
Qed.

Variables (owner name : string) (extra : list string).
Hypothesis owner_ok : segment owner = true.
Hypothesis name_ok : segment name = true.
Hypothesis extra_ok : forallb segment extra = true.

(** The part of a reference that follows the prefix of its format. *)
Let body : string := owner ++ "/" ++ name ++ path_of extra.

Lemma body_all (q : ascii -> bool) :
  q "/"%char = true ->
  (forall s, segment s = true -> str_all q s = true) ->
  str_all q body = true.
Proof.
  intros Hq Hseg. unfold body.
  rewrite str_all_app, (Hseg _ owner_ok). simpl.
  rewrite Hq, str_all_app, (Hseg _ name_ok).
  now rewrite (path_of_all q extra Hq Hseg extra_ok).
Qed.

Lemma body_no_colon : str_all not_colon body = true.
Proof. apply body_all; [reflexivity|]. intros s H. now apply segment_inv in H. Qed.

Lemma body_no_space : str_all not_space body = true.
Proof. apply body_all; [reflexivity|]. intros s H. now apply segment_inv in H. Qed.

Lemma tail_no_trailing_slash :
  forall a, segment a = true ->
  forallb segment extra = true ->
  PyStr.endswith (a ++ path_of extra) "/" = false.
Proof.
  clear owner_ok name_ok extra_ok body.
  induction extra as [|s rest IH]; intros a Ha Hextra.
  - simpl path_of. rewrite append_nil_r. apply endswith_no_slash.
    now apply segment_inv in Ha.
  - simpl in Hextra. apply andb_true_iff in Hextra as [Hs Hrest].
    assert (E : a ++ path_of (s :: rest) = (a ++ "/") ++ (s ++ path_of rest))
      by now rewrite append_assoc.
    rewrite E, endswith_app; [now apply IH|].
    apply segment_inv in Hs as [Hne _]. destruct s; [contradiction|discriminate].
Qed.

Lemma clean_reference (f : ref_format) (trailing : bool) :
  clean_url (reference f owner name extra trailing) = format_prefix f ++ body.
Proof.
  assert (Hsplit : reference f owner name extra trailing
                   = (format_prefix f ++ body)
                     ++ (if trailing then "/" else "")).
  { unfold reference, body. now rewrite !append_assoc. }
  assert (Hspace : str_all not_space (reference f owner name extra trailing)
                   = true).
  { rewrite Hsplit, !str_all_app, body_no_space.
    destruct f, trailing; reflexivity. }
  unfold clean_url. rewrite (strip_id _ Hspace), Hsplit.
  destruct trailing.
  - now rewrite endswith_app_slash, but_last_app_slash.
  - rewrite append_nil_r.
    assert (PyStr.endswith (format_prefix f ++ body) "/" = false) as ->;
      [|reflexivity].
    assert (E : format_prefix f ++ body
                = (format_prefix f ++ owner ++ "/") ++ (name ++ path_of extra))
      by (unfold body; now rewrite !append_assoc).
    rewrite E, endswith_app; [now apply tail_no_trailing_slash|].
    apply segment_inv in name_ok as [Hne _].
    destruct name; [contradiction|discriminate].
Qed.

Lemma split_body :
  exists rest, PyStr.split_from "/" 0 body = owner :: name :: rest.
Proof.
  unfold body. simpl append.
  rewrite split_from_segment by now apply segment_inv in owner_ok.
  destruct extra as [|s rest].
  - simpl path_of. rewrite append_nil_r.
    rewrite split_from_no_slash by now apply segment_inv in name_ok.
    now exists [].
  - simpl path_of. simpl append.
    rewrite split_from_segment by now apply segment_inv in name_ok.
    eauto.
Qed.

Lemma body_not_prefixed (p : string) :
  str_all not_colon p = false -> String.prefix p body = false.
Proof.
  intros Hp. destruct (String.prefix p body) eqn:E; [|reflexivity].
  rewrite (prefix_str_all not_colon _ _ E body_no_colon) in Hp. discriminate.
Qed.

Lemma replace_prefixed_body (p : string) :
  p <> "" -> str_all not_colon p = false ->
  PyStr.replace (p ++ body) p "" = body.
Proof.
  intros Hne Hp. unfold PyStr.replace.
  destruct p as [|a p]; [contradiction|].
  rewrite replace_from_hit by assumption. simpl append.
  now apply replace_from_absent with (q := not_colon); [apply body_no_colon|].
Qed.

Lemma repo_parts_reference (f : ref_format) (trailing : bool) :
  exists rest,
    repo_parts (reference f owner name extra trailing) = owner :: name :: rest.
Proof.
  unfold repo_parts. rewrite clean_reference. unfold PyStr.startswith.
  destruct f; unfold format_prefix.
  - assert (String.prefix "https://" (https_github ++ body) = true) as ->.
    { change https_github with ("https://" ++ "github.com/").
      rewrite append_assoc. apply prefix_app. }
    rewrite replace_prefixed_body by (reflexivity || discriminate).
    apply split_body.
  - assert (String.prefix "https://" (ssh_github ++ body) = false) as ->.
    { unfold ssh_github. simpl append. now rewrite prefix_cons. }
    rewrite prefix_app.
    rewrite replace_prefixed_body by (reflexivity || discriminate).
    apply split_body.
  - simpl append.
    rewrite !body_not_prefixed by reflexivity.
    apply split_body.
Qed.

End RepoReference.

(** C3.  A reference to [owner/name] in any of the three formats, with or
    without a trailing slash and whatever path segments follow the
    repository name, is parsed to the pair [(owner, name)]. *)
Theorem reference_formats_agree :
  forall (f : ref_format) (owner name : string) (extra : list string)
         (trailing : bool),
    segment owner = true -> segment name = true ->
    forallb segment extra = true ->
    extract_repo_info (reference f owner name extra trailing) = Ok (owner, name).
Proof.
  intros f owner name extra trailing Ho Hn He.
  destruct (repo_parts_reference owner name extra Ho Hn He f trailing)
    as [rest H].
  unfold extract_repo_info. now rewrite H.
Qed.

Lemma reference_formats_agree_witness :
  extract_repo_info "https://github.com/acme/widgets" = Ok ("acme", "widgets")
  /\ extract_repo_info "https://github.com/acme/widgets/" = Ok ("acme", "widgets")
  /\ extract_repo_info "git@github.com:acme/widgets" = Ok ("acme", "widgets")
  /\ extract_repo_info "acme/widgets" = Ok ("acme", "widgets")
  /\ extract_repo_info "https://github.com/acme/widgets/tree/master/src"
     = Ok ("acme", "widgets").
Proof.
  refine (conj _ (conj _ (conj _ (conj _ _)))).
  - apply (reference_formats_agree Https "acme" "widgets" [] false); reflexivity.
  - apply (reference_formats_agree Https "acme" "widgets" [] true); reflexivity.
  - apply (reference_formats_agree Ssh "acme" "widgets" [] false); reflexivity.
  - apply (reference_formats_agree Shorthand "acme" "widgets" [] false);
      reflexivity.
  - apply (reference_formats_agree Https "acme" "widgets"
             ["tree"; "master"; "src"] false); reflexivity.
Defined.

(** ** URLs of another host *)

Section OtherHost.

(** The cleaned form of an [https://] URL is a prefix of it, and keeps
    the scheme unless nothing follows it. *)
Lemma clean_https (rest : string) :
  clean_url ("https://" ++ rest) = "https:/"
  \/ exists r t, clean_url ("https://" ++ rest) = "https://" ++ r
                 /\ rest = r ++ t.
Proof.
  unfold clean_url, PyStr.strip.
  assert (PyStr.lstrip ("https://" ++ rest) = "https://" ++ rest) as ->
    by reflexivity.
  assert (PyStr.rstrip ("https://" ++ rest) = "https://" ++ PyStr.rstrip rest)
    as ->.
  { simpl append. now rewrite !rstrip_cons by reflexivity. }
  destruct (rstrip_prefix rest) as [t Ht].
  destruct (PyStr.endswith ("https://" ++ PyStr.rstrip rest) "/").
  - destruct (PyStr.rstrip rest) as [|c r] eqn:E.
    + now left.
    + right. destruct (but_last_prefix (String c r)) as [t' Ht'].
      exists (PyStr.but_last (String c r)), (t' ++ t). split.
      * reflexivity.
      * rewrite <- append_assoc, <- Ht'. exact Ht.
  - right. now exists (PyStr.rstrip rest), t.
Qed.

Lemma replace_keeps_scheme (r : string) :
  String.prefix https_github ("https://" ++ r) = false ->
  PyStr.replace ("https://" ++ r) https_github ""
  = "https://" ++ PyStr.replace_from https_github "" 0 r.
Proof.
  intros H. unfold PyStr.replace, https_github in *. simpl append in *.
  rewrite replace_from_miss by exact H.
  now rewrite !replace_from_miss by now rewrite prefix_cons.
Qed.

Lemma split_scheme (r : string) :
  PyStr.split_from "/" 0 ("https://" ++ r)
  = "https:" :: "" :: PyStr.split_from "/" 0 r.
Proof.
  change ("https://" ++ r) with ("https:" ++ String "/" ("" ++ String "/" r)).
  now rewrite !split_from_segment by reflexivity.
Qed.

Lemma other_host_parts (url : string) :
  PyStr.startswith url "https://" = true ->
  PyStr.startswith url https_github = false ->
  exists rest, repo_parts url = "https:" :: "" :: rest.
Proof.
  unfold PyStr.startswith. intros Hs Hg.
  destruct (prefix_split _ _ Hs) as [rest ->].
  unfold repo_parts, PyStr.startswith.
  destruct (clean_https rest) as [-> | (r & t & -> & Hrest)].
  - now exists [].
  - rewrite prefix_app.
    rewrite replace_keeps_scheme.
    + rewrite split_scheme. eauto.
    + destruct (String.prefix https_github ("https://" ++ r)) eqn:E;
        [|reflexivity].
      apply prefix_app_r with (t := t) in E.
      rewrite append_assoc, <- Hrest in E. congruence.
Qed.

Lemma github_host (url : string) :
  PyStr.startswith url https_github = true -> url_host url = "github.com".
Proof.
  unfold PyStr.startswith. intros H.
  destruct (prefix_split _ _ H) as [t ->].
  unfold url_host, https_github.
  change (drop 8 ("https://github.com/" ++ t))
    with ("github.com" ++ String "/" t).
  now rewrite split_from_segment.
Qed.

End OtherHost.

(** C10.  A URL that starts with [https://] and whose host is not
    [github.com] is not rejected: the parser returns the owner ["https:"]
    and the empty name. *)
Theorem other_host_not_rejected :
  forall url : string,
    PyStr.startswith url "https://" = true ->
    url_host url <> "github.com" ->
    extract_repo_info url = Ok ("https:", "").
Proof.
  intros url Hs Hhost.
  destruct (other_host_parts url Hs) as [rest H].
  - destruct (PyStr.startswith url https_github) eqn:E; [|reflexivity].
    now apply github_host in E.
  - unfold extract_repo_info. now rewrite H.
Qed.

Lemma other_host_not_rejected_witness :
  extract_repo_info "https://example.com/acme/widgets" = Ok ("https:", "").
Proof.
  apply (other_host_not_rejected "https://example.com/acme/widgets").
  - reflexivity.
  - vm_compute. discriminate.
Defined.

(** ** References with fewer than two segments *)

(** A reference that is one bare segment has that segment as its only
    part. *)
Lemma single_segment_parts (s : string) :
  segment s = true -> repo_parts s = [s].
Proof.
  intros H. apply segment_inv in H as (_ & Hslash & Hcolon & Hspace).
  unfold repo_parts, clean_url, PyStr.startswith.
  rewrite (strip_id _ Hspace), (endswith_no_slash _ Hslash).
  assert (Hp : forall p, str_all not_colon p = false ->
                         String.prefix p s = false).
  { intros p Hp. destruct (String.prefix p s) eqn:E; [|reflexivity].
    rewrite (prefix_str_all not_colon _ _ E Hcolon) in Hp. discriminate. }
  rewrite !Hp by reflexivity. now apply split_from_no_slash.
Qed.

Lemma single_segment_rejected (s : string) :
  segment s = true -> extract_repo_info s = Raise ValueError.
Proof.
  intros H. unfold extract_repo_info. now rewrite (single_segment_parts _ H).
Qed.

(** The reference of the script names the repository it points into. *)
Example extract_repo_info_REPO_URL :
  extract_repo_info REPO_URL = Ok ("tensorflow", "tensorflow").
Proof.
  destruct (@repo_parts_reference "tensorflow" "tensorflow"
              ["tree"; "master"; "tensorflow"; "python"]
              eq_refl eq_refl eq_refl Https false) as [rest H].
  unfold extract_repo_info, REPO_URL. unfold reference in H. cbn in H.
  now rewrite H.
Qed.

Lemma extract_repo_info_fails (repo_url : string) :
  (List.length (repo_parts repo_url) < 2)%nat ->
  extract_repo_info repo_url = Raise ValueError.
Proof.
  unfold extract_repo_info.
  destruct (repo_parts repo_url) as [|owner [|name rest]]; simpl; intros H;
    [reflexivity | reflexivity | lia].
Qed.

(** C9.  A reference that leaves fewer than two path segments makes
    [extract_repo_info] raise [ValueError], and the script stops there:
    the run ends with that exception and an empty trace, so no request
    has been sent. *)
Theorem short_reference_rejected :
  forall (repo_url : string),
    (List.length (repo_parts repo_url) < 2)%nat ->
    extract_repo_info repo_url = Raise ValueError
    /\ forall net os fuel github_token clock0,
         script net os fuel repo_url github_token clock0
         = (Some (Raise ValueError), []).
Proof.
  intros repo_url H. pose proof (extract_repo_info_fails repo_url H) as E.
  split; [exact E|]. intros. unfold script. now rewrite E.
Qed.

Lemma short_reference_rejected_witness :
  extract_repo_info "acme" = Raise ValueError
  /\ forall net os fuel github_token clock0,
       script net os fuel "acme" github_token clock0
       = (Some (Raise ValueError), []).
Proof.
  apply (short_reference_rejected "acme"). vm_compute. lia.
Defined.

(** * Dictionaries *)

Section DictFacts.

Lemma lookup_set_eq (k : string) (v : json) (d : dict) :
  Py.lookup k (Py.set k v d) = Some v.
Proof.
  induction d as [|[k' v'] d IH]; simpl.
  - now rewrite String.eqb_refl.
  - destruct (k =? k')%string eqn:E; simpl.
    + now rewrite String.eqb_refl.
    + now rewrite E.
Qed.

Lemma lookup_set_neq (k k' : string) (v : json) (d : dict) :
  k <> k' -> Py.lookup k (Py.set k' v d) = Py.lookup k d.
Proof.
  intros Hne. apply String.eqb_neq in Hne.
  induction d as [|[k0 v0] d IH]; simpl.
  - now rewrite Hne.
  - destruct (k' =? k0)%string eqn:E; simpl.
    + apply String.eqb_eq in E. subst k0. now rewrite Hne.
    + now rewrite IH.
Qed.

Lemma get_field (d : dict) (k : string) :
  Py.get (JDict d) k JNull = Ok (field d k).
Proof. reflexivity. Qed.

Lemma getitem_truthy (d : dict) (k : string) :
  Py.truthy (field d k) = true -> Py.getitem (JDict d) k = Ok (field d k).
Proof.
  unfold field, Py.getitem. now destruct (Py.lookup k d).
Qed.

End DictFacts.

(** * Social links *)

Import GitHubContributorAnalyzer.

Section SocialLinks.

Lemma get_user_social_links_steps (d : dict) :
  get_user_social_links (JDict d)
  = let? links := blog_links d in Ok (with_twitter d (with_github d links)).
Proof.
  assert (Hrest : forall links : dict,
    (let? html_url := Py.get (JDict d) "html_url" JNull in
     let? social_links :=
       if Py.truthy html_url then
         let? v := Py.getitem (JDict d) "html_url" in
         Ok (Py.set "GitHub" v links)
       else Ok links in
     let? twitter_username := Py.get (JDict d) "twitter_username" JNull in
     let? social_links :=
       if Py.truthy twitter_username then
         let? v := Py.getitem (JDict d) "twitter_username" in
         Ok (Py.set "Twitter" (JStr ("https://twitter.com/" ++ Py.str v))
                    social_links)
       else Ok social_links in
     Ok social_links)
    = Ok (with_twitter d (with_github d links))).
  { intros links. unfold with_twitter, with_github.
    rewrite !get_field. cbn [rbind].
    destruct (Py.truthy (field d "html_url")) eqn:Eh;
      [rewrite (getitem_truthy _ _ Eh)|]; cbn [rbind];
      (destruct (Py.truthy (field d "twitter_username")) eqn:Et;
       [rewrite (getitem_truthy _ _ Et)|]; reflexivity). }
  unfold get_user_social_links, blog_links.
  rewrite get_field. cbn [rbind].
  destruct (Py.truthy (field d "blog")) eqn:Eb.
  - rewrite (getitem_truthy _ _ Eb). cbn [rbind].
    destruct (field d "blog") as [| | |url| |]; try reflexivity.
    destruct (PyStr.startswith url "http"); cbn [rbind]; apply Hrest.
  - cbn [rbind]. apply Hrest.
Qed.

Lemma get_user_social_links_dict (user_data : json) (links : dict) :
  get_user_social_links user_data = Ok links ->
  exists d, user_data = JDict d.
Proof.
  destruct user_data; try discriminate. eauto.
Qed.

End SocialLinks.

(** C1.  For a profile whose blog is a Twitter URL, with a profile page
    and a Twitter user name, the links are exactly the Twitter link built
    from the user name and the GitHub link of the profile page.  In
    general, whenever links are returned, a Twitter user name decides the
    [Twitter] entry and a profile page decides the [GitHub] entry,
    whatever the blog was filed under; and links are returned whenever
    the blog is a string or is missing. *)
Theorem social_links_precedence :
  forall (d : dict),
    (Py.lookup "blog" d = Some (JStr "https://twitter.com/foo") ->
     Py.lookup "html_url" d = Some (JStr "https://github.com/foo") ->
     Py.lookup "twitter_username" d = Some (JStr "foo2") ->
     get_user_social_links (JDict d)
     = Ok [("Twitter", JStr "https://twitter.com/foo2");
           ("GitHub", JStr "https://github.com/foo")])
    /\ (forall links : dict,
          get_user_social_links (JDict d) = Ok links ->
          (forall u, Py.lookup "twitter_username" d = Some u ->
                     Py.truthy u = true ->
                     Py.lookup "Twitter" links
                     = Some (JStr ("https://twitter.com/" ++ Py.str u)))
          /\ (forall h, Py.lookup "html_url" d = Some h ->
                        Py.truthy h = true ->
                        Py.lookup "GitHub" links = Some h))
    /\ (Py.truthy (field d "blog") = false
        \/ (exists url, field d "blog" = JStr url) ->
        exists links, get_user_social_links (JDict d) = Ok links).
Proof.
  intros d. rewrite get_user_social_links_steps. split; [|split].
  - intros Hb Hh Ht.
    unfold blog_links, with_twitter, with_github, field.
    rewrite Hb, Hh, Ht. reflexivity.
  - intros links H.
    destruct (blog_links d) as [l|e]; [|discriminate].
    cbn [rbind] in H. injection H as <-. split.
    + intros u Hu Htr. unfold with_twitter, field. rewrite Hu, Htr.
      apply lookup_set_eq.
    + intros h Hh Htr. unfold with_twitter.
      assert (Hg : Py.lookup "GitHub" (with_github d l) = Some h).
      { unfold with_github, field. rewrite Hh, Htr. apply lookup_set_eq. }
      destruct (Py.truthy (field d "twitter_username")); [|exact Hg].
      rewrite lookup_set_neq; [exact Hg | discriminate].
  - intros Hblog. unfold blog_links.
    destruct Hblog as [-> | [url ->]]; [cbn [rbind]; eauto|].
    destruct (Py.truthy (JStr url)); [|cbn [rbind]; eauto].
    destruct (PyStr.startswith url "http"); cbn [rbind]; eauto.
Qed.

Lemma social_links_precedence_witness :
  let d := [("login", JStr "foo"); ("blog", JStr "https://twitter.com/foo");
            ("html_url", JStr "https://github.com/foo");
            ("twitter_username", JStr "foo2")] in
  get_user_social_links (JDict d)
  = Ok [("Twitter", JStr "https://twitter.com/foo2");
        ("GitHub", JStr "https://github.com/foo")]
  /\ Py.lookup "Twitter" [("Twitter", JStr "https://twitter.com/foo2");
                          ("GitHub", JStr "https://github.com/foo")]
     = Some (JStr ("https://twitter.com/" ++ Py.str (JStr "foo2")))
  /\ Py.lookup "GitHub" [("Twitter", JStr "https://twitter.com/foo2");
                         ("GitHub", JStr "https://github.com/foo")]
     = Some (JStr "https://github.com/foo").
Proof.
  intros d.
  destruct (social_links_precedence d) as (Hexample & Hgeneral & _).
  pose proof (Hexample eq_refl eq_refl eq_refl) as E.
  destruct (Hgeneral _ E) as [Ht Hg].
  refine (conj E (conj _ _)).
  - exact (Ht (JStr "foo2") eq_refl eq_refl).
  - exact (Hg (JStr "https://github.com/foo") eq_refl eq_refl).
Defined.

(** * The latest commit date *)

Section LatestCommit.

Lemma latest_commit_date_falsy (recent_commits : json) :
  Py.truthy recent_commits = false ->
  latest_commit_date_of recent_commits = Ok JNull.
Proof. intros H. unfold latest_commit_date_of. now rewrite H. Qed.

Lemma latest_commit_date_not_list (recent_commits : json) :
  Py.isinstance_list recent_commits = false ->
  latest_commit_date_of recent_commits = Ok JNull.
Proof.
  intros H. unfold latest_commit_date_of. now rewrite H, andb_false_r.
Qed.

(** What is done with the first element of a non-empty list. *)
Lemma latest_commit_date_first (first : json) (rest : list json) :
  latest_commit_date_of (JList (first :: rest))
  = let? has_commit :=
      if Py.isinstance_dict first then Py.contains first "commit"
      else Ok false in
    if has_commit then
      let? commit_info := Py.getitem first "commit" in
      let? has_author := Py.contains commit_info "author" in
      let? has_date :=
        if has_author then
          let? author := Py.getitem commit_info "author" in
          Py.contains author "date"
        else Ok false in
      if has_date then
        let? author := Py.getitem commit_info "author" in
        Py.getitem author "date"
      else Ok JNull
    else Ok JNull.
Proof.
  unfold latest_commit_date_of.
  cbn [Py.truthy Py.isinstance_list andb Py.len rbind Py.getindex nth_error].
  assert ((Z.of_nat (List.length (first :: rest)) >? 0)%Z = true) as ->.
  { apply Z.gtb_lt. simpl List.length. lia. }
  reflexivity.
Qed.

Lemma latest_commit_date_first_not_dict (first : json) (rest : list json) :
  Py.isinstance_dict first = false ->
  latest_commit_date_of (JList (first :: rest)) = Ok JNull.
Proof. intros H. rewrite latest_commit_date_first. now rewrite H. Qed.

Lemma latest_commit_date_no_commit (c : dict) (rest : list json) :
  Py.lookup "commit" c = None ->
  latest_commit_date_of (JList (JDict c :: rest)) = Ok JNull.
Proof.
  intros H. rewrite latest_commit_date_first.
  cbn [Py.isinstance_dict Py.contains]. now rewrite H.
Qed.

Lemma latest_commit_date_no_author (c ci : dict) (rest : list json) :
  Py.lookup "commit" c = Some (JDict ci) ->
  Py.lookup "author" ci = None ->
  latest_commit_date_of (JList (JDict c :: rest)) = Ok JNull.
Proof.
  intros Hc Ha. rewrite latest_commit_date_first.
  cbn [Py.isinstance_dict Py.contains Py.getitem]. rewrite Hc.
  cbn [rbind Py.contains]. now rewrite Ha.
Qed.

Lemma latest_commit_date_no_date (c ci a : dict) (rest : list json) :
  Py.lookup "commit" c = Some (JDict ci) ->
  Py.lookup "author" ci = Some (JDict a) ->
  Py.lookup "date" a = None ->
  latest_commit_date_of (JList (JDict c :: rest)) = Ok JNull.
Proof.
  intros Hc Ha Hd. rewrite latest_commit_date_first.
  cbn [Py.isinstance_dict Py.contains Py.getitem]. rewrite Hc.
  cbn [rbind Py.contains Py.getitem]. rewrite Ha.
  cbn [rbind Py.contains Py.getitem]. now rewrite Hd.
Qed.

(** The date of the first commit is taken when its three levels are
    there. *)
Lemma latest_commit_date_present (c ci a : dict) (date : json)
    (rest : list json) :
  Py.lookup "commit" c = Some (JDict ci) ->
  Py.lookup "author" ci = Some (JDict a) ->
  Py.lookup "date" a = Some date ->
  latest_commit_date_of (JList (JDict c :: rest)) = Ok date.
Proof.
  intros Hc Ha Hd. rewrite latest_commit_date_first.
  cbn [Py.isinstance_dict Py.contains Py.getitem]. rewrite Hc.
  cbn [rbind Py.contains Py.getitem]. rewrite Ha.
  cbn [rbind Py.contains Py.getitem]. now rewrite Hd.
Qed.

(** An author that is not a dictionary is not tolerated when it is
    [None], a number or a Boolean: [in] raises. *)
Lemma latest_commit_date_author_not_container (c ci : dict) (author : json)
    (rest : list json) :
  Py.lookup "commit" c = Some (JDict ci) ->
  Py.lookup "author" ci = Some author ->
  Py.contains author "date" = Raise TypeError ->
  latest_commit_date_of (JList (JDict c :: rest)) = Raise TypeError.
Proof.
  intros Hc Ha Hd. rewrite latest_commit_date_first.
  cbn [Py.isinstance_dict Py.contains Py.getitem]. rewrite Hc.
  cbn [rbind Py.contains Py.getitem]. rewrite Ha.
  cbn [rbind]. now rewrite Hd.
Qed.

(** Nor is a commit that is [None], a number or a Boolean. *)
Lemma latest_commit_date_commit_not_container (c : dict) (commit : json)
    (rest : list json) :
  Py.lookup "commit" c = Some commit ->
  Py.contains commit "author" = Raise TypeError ->
  latest_commit_date_of (JList (JDict c :: rest)) = Raise TypeError.
Proof.
  intros Hc Ha. rewrite latest_commit_date_first.
  cbn [Py.isinstance_dict Py.contains Py.getitem]. rewrite Hc.
  cbn [rbind]. now rewrite Ha.
Qed.

End LatestCommit.

(** C7.  The commits answer [[{"commit": {"author": null}}]] is a
    non-empty list whose first element lacks [commit.author.date], yet
    no date is set: the membership test on the author raises
    [TypeError], and so does the enrichment of the contributor. *)
Theorem malformed_commit_raises :
  let recent_commits := JList [JDict [("commit", JDict [("author", JNull)])]] in
  latest_commit_date_of recent_commits = Raise TypeError
  /\ forall username contributor user_data,
       enrich username contributor user_data recent_commits = Raise TypeError.
Proof.
  intros recent_commits.
  assert (H : latest_commit_date_of recent_commits = Raise TypeError)
    by (apply latest_commit_date_author_not_container
          with (ci := [("author", JNull)]) (author := JNull); reflexivity).
  split; [exact H|]. intros. unfold enrich. now rewrite H.
Qed.

(** * The record of a contributor *)

Section Details.

Lemma make_details_fields
    (username contributor latest : json) (d links : dict) (r : details) :
  make_details username contributor (JDict d) latest links = Ok r ->
  name r = match Py.lookup "name" d with Some v => v | None => JStr "" end
  /\ email r = match Py.lookup "email" d with Some v => v | None => JStr "" end
  /\ bio r = match Py.lookup "bio" d with Some v => v | None => JStr "" end
  /\ company r
     = match Py.lookup "company" d with Some v => v | None => JStr "" end
  /\ location r
     = match Py.lookup "location" d with Some v => v | None => JStr "" end
  /\ profile_url r
     = match Py.lookup "html_url" d with Some v => v | None => JStr "" end
  /\ Py.getitem contributor "avatar_url" = Ok (avatar_url r)
  /\ Py.getitem contributor "contributions" = Ok (contributions r)
  /\ latest_commit_date r = latest
  /\ social_links r = links.
Proof.
  unfold make_details. cbn [Py.get rbind].
  destruct (Py.getitem contributor "avatar_url") as [a|e]; [|discriminate].
  cbn [rbind].
  destruct (Py.getitem contributor "contributions") as [n|e]; [|discriminate].
  cbn [rbind]. intros [= <-]. cbn. auto 10.
Qed.

(** A value the profile gives is kept as it is, [None] included. *)
Lemma make_details_keeps
    (username contributor latest v : json) (d links : dict) (r : details) :
  make_details username contributor (JDict d) latest links = Ok r ->
  Py.lookup "name" d = Some v -> name r = v.
Proof.
  intros H Hv. apply make_details_fields in H as (Hn & _).
  now rewrite Hn, Hv.
Qed.

(** A contributor whose profile and commits could not be fetched, so
    that both answers are the empty dictionary, gets the defaults. *)
Lemma enrich_without_data (username contributor avatar count : json) :
  Py.getitem contributor "avatar_url" = Ok avatar ->
  Py.getitem contributor "contributions" = Ok count ->
  enrich username contributor (JDict []) (JDict [])
  = Ok {| username := username; name := JStr ""; email := JStr "";
          bio := JStr ""; company := JStr ""; location := JStr "";
          avatar_url := avatar; profile_url := JStr "";
          contributions := count; latest_commit_date := JNull;
          social_links := [] |}.
Proof.
  intros Ha Hc. unfold enrich, make_details. cbn. now rewrite Ha, Hc.
Qed.

End Details.

(** A profile field that the profile gives is kept as it is, whatever it
    is. *)
Lemma enrich_keeps_profile
    (username contributor recent_commits : json) (d : dict) (r : details) :
  enrich username contributor (JDict d) recent_commits = Ok r ->
  forall v : json,
    (Py.lookup "name" d = Some v -> name r = v)
    /\ (Py.lookup "email" d = Some v -> email r = v)
    /\ (Py.lookup "bio" d = Some v -> bio r = v)
    /\ (Py.lookup "company" d = Some v -> company r = v)
    /\ (Py.lookup "location" d = Some v -> location r = v)
    /\ (Py.lookup "html_url" d = Some v -> profile_url r = v).
Proof.
  unfold enrich.
  destruct (latest_commit_date_of recent_commits) as [latest|e];
    [|discriminate].
  cbn [rbind].
  destruct (get_user_social_links (JDict d)) as [links|e]; [|discriminate].
  cbn [rbind]. intros H v.
  apply make_details_fields in H as (Hn & He & Hb & Hc & Hl & Hp & _).
  repeat split; intros Hv; rewrite Hv in *; assumption.
Qed.

(** C4.  A profile that reports its unset fields as null, the way the
    users endpoint does, does not get the empty string for them: every
    profile field that is null in the profile is [None] in the record,
    as for the profile of the example, whose record holds [None] for
    name, email, bio, company and location beside the latest commit
    date. *)
Theorem null_profile_fields_kept :
  (forall (username contributor recent_commits : json) (d : dict)
          (r : details),
      enrich username contributor (JDict d) recent_commits = Ok r ->
      (Py.lookup "name" d = Some JNull -> name r = JNull)
      /\ (Py.lookup "email" d = Some JNull -> email r = JNull)
      /\ (Py.lookup "bio" d = Some JNull -> bio r = JNull)
      /\ (Py.lookup "company" d = Some JNull -> company r = JNull)
      /\ (Py.lookup "location" d = Some JNull -> location r = JNull)
      /\ (Py.lookup "html_url" d = Some JNull -> profile_url r = JNull))
  /\ enrich (JStr "octocat")
            (JDict [("login", JStr "octocat");
                    ("avatar_url", JStr "https://avatars.example/1");
                    ("contributions", JInt 7)])
            (JDict [("login", JStr "octocat"); ("name", JNull);
                    ("company", JNull); ("blog", JStr "");
                    ("location", JNull); ("email", JNull); ("bio", JNull);
                    ("twitter_username", JNull);
                    ("html_url", JStr "https://github.com/octocat")])
            (JList [])
     = Ok {| username := JStr "octocat"; name := JNull; email := JNull;
             bio := JNull; company := JNull; location := JNull;
             avatar_url := JStr "https://avatars.example/1";
             profile_url := JStr "https://github.com/octocat";
             contributions := JInt 7; latest_commit_date := JNull;
             social_links :=
               [("GitHub", JStr "https://github.com/octocat")] |}.
Proof.
  split.
  - intros username contributor recent_commits d r H.
    exact (enrich_keeps_profile _ _ _ _ H JNull).
  - reflexivity.
Qed.

(** In the record of a contributor, each of the six profile fields is the
    empty string when the profile lacks its key; the latest commit date
    is [None] when no commits came back; the avatar and the contribution
    count are values the contributor entry does hold. *)
Theorem profile_fields_default :
  forall (username contributor user_data recent_commits : json) (r : details),
    enrich username contributor user_data recent_commits = Ok r ->
    exists d : dict,
      user_data = JDict d
      /\ (Py.lookup "name" d = None -> name r = JStr "")
      /\ (Py.lookup "email" d = None -> email r = JStr "")
      /\ (Py.lookup "bio" d = None -> bio r = JStr "")
      /\ (Py.lookup "company" d = None -> company r = JStr "")
      /\ (Py.lookup "location" d = None -> location r = JStr "")
      /\ (Py.lookup "html_url" d = None -> profile_url r = JStr "")
      /\ (Py.truthy recent_commits = false -> latest_commit_date r = JNull)
      /\ Py.getitem contributor "avatar_url" = Ok (avatar_url r)
      /\ Py.getitem contributor "contributions" = Ok (contributions r).
Proof.
  intros username contributor user_data recent_commits r. unfold enrich.
  destruct (latest_commit_date_of recent_commits) as [latest|e] eqn:El;
    [|discriminate].
  cbn [rbind].
  destruct (get_user_social_links user_data) as [links|e] eqn:Es;
    [|discriminate].
  cbn [rbind]. intros H.
  destruct (get_user_social_links_dict _ Es) as [d ->]. exists d.
  apply make_details_fields in H
    as (Hn & He & Hb & Hc & Hl & Hp & Ha & Hk & Hd & _).
  split; [reflexivity|].
  repeat match goal with
         | |- (Py.lookup _ d = None -> _) /\ _ =>
             split; [intros Hk'; rewrite Hk' in *; assumption|]
         end.
  split; [|split; assumption].
  intros Hf. rewrite (latest_commit_date_falsy _ Hf) in El.
  injection El as <-. exact Hd.
Qed.

Lemma profile_fields_default_witness :
  exists r : details,
    enrich (JStr "foo")
           (JDict [("login", JStr "foo"); ("avatar_url", JStr "https://a/1");
                   ("contributions", JInt 7)])
           (JDict []) (JDict []) = Ok r
    /\ name r = JStr "" /\ email r = JStr "" /\ bio r = JStr ""
    /\ company r = JStr "" /\ location r = JStr "" /\ profile_url r = JStr ""
    /\ latest_commit_date r = JNull.
Proof.
  eexists. split; [reflexivity|].
  destruct (profile_fields_default
              (JStr "foo")
              (JDict [("login", JStr "foo"); ("avatar_url", JStr "https://a/1");
                      ("contributions", JInt 7)])
              (JDict []) (JDict []) eq_refl)
    as (d & Hd & Hn & He & Hb & Hc & Hl & Hp & Hdate & _).
  injection Hd as <-.
  exact (conj (Hn eq_refl) (conj (He eq_refl) (conj (Hb eq_refl)
          (conj (Hc eq_refl) (conj (Hl eq_refl) (conj (Hp eq_refl)
          (Hdate eq_refl))))))).
Defined.

(** * Sorting the report *)

Section StringOrder.

Lemma ltb_lts (a b : string) :
  String.ltb a b = true <-> String_as_OT.lt a b.
Proof.
  unfold String.ltb. rewrite <- String_as_OT.cmp_lt. unfold String_as_OT.cmp.
  destruct (String.compare a b); split; intros H;
    (discriminate || reflexivity).
Qed.

Lemma leb_lts (a b : string) :
  String.leb a b = true <-> String_as_OT.lt a b \/ a = b.
Proof.
  unfold String.leb.
  rewrite <- String_as_OT.cmp_lt, <- String_as_OT.cmp_eq.
  unfold String_as_OT.cmp.
  destruct (String.compare a b); split; intros H;
    try discriminate; try reflexivity; auto;
    destruct H; discriminate.
Qed.

Lemma leb_trans (a b c : string) :
  String.leb a b = true -> String.leb b c = true -> String.leb a c = true.
Proof.
  rewrite !leb_lts. intros [H1 | ->] [H2 | ->]; auto.
  left. eapply String_as_OT.lt_trans; eassumption.
Qed.

Lemma ltb_leb (a b : string) : String.ltb a b = true -> String.leb a b = true.
Proof. rewrite ltb_lts, leb_lts. auto. Qed.

Lemma ltb_false_leb (a b : string) :
  String.ltb a b = false -> String.leb b a = true.
Proof.
  unfold String.ltb, String.leb.
  rewrite (String.compare_antisym a b).
  destruct (String.compare b a); simpl; intros H;
    (discriminate || reflexivity).
Qed.

Lemma ltb_leb_trans (a b c : string) :
  String.ltb a b = true -> String.leb b c = true -> String.ltb a c = true.
Proof.
  rewrite !ltb_lts, leb_lts. intros H1 [H2 | ->]; auto.
  eapply String_as_OT.lt_trans; eassumption.
Qed.

Lemma ltb_irrefl (a : string) : String.ltb a a = false.
Proof.
  destruct (String.ltb a a) eqn:E; [|reflexivity].
  apply ltb_lts in E. exfalso.
  apply (String_as_OT.lt_not_eq a a E). reflexivity.
Qed.

Lemma ltb_neq (a b : string) : String.ltb a b = true -> (a =? b)%string = false.
Proof.
  intros H. apply String.eqb_neq. intros ->.
  rewrite ltb_irrefl in H. discriminate.
Qed.

Lemma ltb_leb_false (a b : string) :
  String.ltb a b = true -> String.leb b a = false.
Proof.
  intros H. destruct (String.leb b a) eqn:E; [|reflexivity].
  pose proof (ltb_leb_trans _ _ _ H E) as C.
  rewrite ltb_irrefl in C. discriminate.
Qed.

End StringOrder.

Section InsertionSort.
Local Open Scope list_scope.

Variable A : Type.
Variable key : A -> string.

Let le (a b : A) : Prop := String.leb (key a) (key b) = true.
Let keyed (k : string) (a : A) : bool := (key a =? k)%string.

Lemma insert_by_perm (x : A) (l : list A) :
  Permutation (x :: l) (insert_by key x l).
Proof.
  induction l as [|y l IH]; simpl; [reflexivity|].
  destruct (String.ltb (key x) (key y)); [reflexivity|].
  eapply perm_trans; [apply perm_swap | apply perm_skip, IH].
Qed.

Lemma sort_by_perm (done todo : list A) :
  Permutation (done ++ todo) (sort_by key done todo).
Proof.
  revert done. induction todo as [|x todo IH]; intros done; simpl.
  - now rewrite app_nil_r.
  - eapply perm_trans; [|apply IH].
    apply perm_trans with ((x :: done) ++ todo).
    + symmetry. apply Permutation_middle.
    + apply Permutation_app_tail, insert_by_perm.
Qed.

Lemma insert_by_sorted (x : A) (l : list A) :
  StronglySorted le l -> StronglySorted le (insert_by key x l).
Proof.
  induction 1 as [|y l Hs IH Hall]; simpl.
  - repeat constructor.
  - destruct (String.ltb (key x) (key y)) eqn:E.
    + apply ltb_leb in E. constructor; [now constructor|].
      constructor; [exact E|].
      eapply Forall_impl; [|exact Hall].
      intros z Hz. unfold le in *. eapply leb_trans; eassumption.
    + constructor; [exact IH|].
      apply Forall_forall. intros z Hz.
      apply (Permutation_in _ (Permutation_sym (insert_by_perm x l))) in Hz.
      destruct Hz as [<- | Hz].
      * now apply ltb_false_leb.
      * rewrite Forall_forall in Hall. now apply Hall.
Qed.

Lemma sort_by_sorted (done todo : list A) :
  StronglySorted le done -> StronglySorted le (sort_by key done todo).
Proof.
  revert done. induction todo as [|x todo IH]; intros done H; simpl;
    [exact H|].
  now apply IH, insert_by_sorted.
Qed.

Lemma filter_none (p : A -> bool) (l : list A) :
  Forall (fun z => p z = false) l -> filter p l = [].
Proof.
  induction 1 as [|z l Hz _ IH]; simpl; [reflexivity|]. now rewrite Hz.
Qed.

(** An element is inserted behind the elements that have its key. *)
Lemma insert_by_filter (k : string) (x : A) (l : list A) :
  StronglySorted le l ->
  filter (keyed k) (insert_by key x l)
  = (filter (keyed k) l ++ (if keyed k x then [x] else []))%list.
Proof.
  induction 1 as [|y l Hs IH Hall]; simpl.
  - now destruct (keyed k x).
  - destruct (String.ltb (key x) (key y)) eqn:E.
    + destruct (keyed k x) eqn:Ek.
      * assert (Hnone : filter (keyed k) (y :: l) = []).
        { apply filter_none. unfold keyed in *.
          apply String.eqb_eq in Ek. subst k.
          constructor.
          - rewrite String.eqb_sym. now apply ltb_neq.
          - eapply Forall_impl; [|exact Hall]. intros z Hz.
            rewrite String.eqb_sym. apply ltb_neq.
            eapply ltb_leb_trans; eassumption. }
        cbn [filter]. rewrite Ek. simpl in Hnone. now rewrite Hnone.
      * cbn [filter]. rewrite Ek. now rewrite app_nil_r.
    + cbn [filter]. rewrite IH. now destruct (keyed k y).
Qed.

Lemma sort_by_filter (k : string) (done todo : list A) :
  StronglySorted le done ->
  filter (keyed k) (sort_by key done todo)
  = (filter (keyed k) done ++ filter (keyed k) todo)%list.
Proof.
  revert done. induction todo as [|x todo IH]; intros done H; simpl.
  - now rewrite app_nil_r.
  - rewrite IH by now apply insert_by_sorted.
    rewrite insert_by_filter by exact H.
    rewrite <- app_assoc. now destruct (keyed k x).
Qed.

(** *** The sort of the script, computed on string keys *)

Let decorate (x : A) : json * A := (JStr (key x), x).

Lemma py_insert_strings (x : A) (l : list A) :
  Py.insert (decorate x) (map decorate l)
  = Ok (map decorate (insert_by key x l)).
Proof.
  induction l as [|y l IH]; [reflexivity|].
  cbn [map Py.insert insert_by]. unfold decorate at 1 2.
  cbn [fst Py.lt rbind].
  destruct (String.ltb (key x) (key y)); [reflexivity|].
  now rewrite IH.
Qed.

Lemma py_sort_keyed_strings (done todo : list A) :
  Py.sort_keyed (map decorate done) (map decorate todo)
  = Ok (map decorate (sort_by key done todo)).
Proof.
  revert done. induction todo as [|x todo IH]; intros done; [reflexivity|].
  cbn [map Py.sort_keyed sort_by]. rewrite py_insert_strings. cbn [rbind].
  apply IH.
Qed.

Lemma py_sorted_strings (json_key : A -> json) (l : list A) :
  (forall x, In x l -> json_key x = JStr (key x)) ->
  Py.sorted l json_key true = Ok (sorted_desc key l).
Proof.
  intros Hkey. unfold Py.sorted.
  rewrite (map_ext_in (fun x => (json_key x, x)) decorate).
  - rewrite <- map_rev.
    pose proof (py_sort_keyed_strings [] (rev l)) as E.
    change (map decorate []) with (@nil (json * A)) in E.
    rewrite E. cbn [rbind]. unfold sorted_desc.
    rewrite <- map_rev, map_map. unfold decorate. cbn [snd].
    now rewrite map_id.
  - intros x Hx. unfold decorate. now rewrite Hkey.
Qed.

(** *** The result of the descending sort *)

Lemma sorted_desc_perm (l : list A) : Permutation l (sorted_desc key l).
Proof.
  unfold sorted_desc. rewrite <- Permutation_rev.
  rewrite <- (sort_by_perm [] (rev l)). apply Permutation_rev.
Qed.

Lemma sorted_desc_stable (k : string) (l : list A) :
  filter (keyed k) (sorted_desc key l) = filter (keyed k) l.
Proof.
  unfold sorted_desc. rewrite filter_rev.
  rewrite sort_by_filter by constructor.
  cbn [filter app]. now rewrite filter_rev, rev_involutive.
Qed.

Lemma StronglySorted_app (R : A -> A -> Prop) (l1 l2 : list A) :
  StronglySorted R l1 -> StronglySorted R l2 ->
  (forall x y, In x l1 -> In y l2 -> R x y) ->
  StronglySorted R (l1 ++ l2).
Proof.
  induction 1 as [|a l1 Hs IH Hall]; intros H2 Hcross; [exact H2|].
  simpl. constructor.
  - apply IH; [exact H2|]. intros x y Hx Hy. apply Hcross; [now right|exact Hy].
  - apply Forall_app. split; [exact Hall|].
    apply Forall_forall. intros y Hy. apply Hcross; [now left|exact Hy].
Qed.

Lemma StronglySorted_rev (R : A -> A -> Prop) (l : list A) :
  StronglySorted R l -> StronglySorted (fun a b => R b a) (rev l).
Proof.
  induction 1 as [|a l Hs IH Hall]; simpl; [constructor|].
  apply StronglySorted_app; [exact IH | repeat constructor |].
  intros x y Hx [<- | []]. apply in_rev in Hx.
  rewrite Forall_forall in Hall. now apply Hall.
Qed.

Lemma StronglySorted_weaken (R R' : A -> A -> Prop) (l : list A) :
  (forall x y, In x l -> In y l -> R x y -> R' x y) ->
  StronglySorted R l -> StronglySorted R' l.
Proof.
  intros Himp H. induction H as [|a l Hs IH Hall]; [constructor|].
  constructor.
  - apply IH. intros x y Hx Hy. apply Himp; now right.
  - apply Forall_forall. intros y Hy. rewrite Forall_forall in Hall.
    apply Himp; [now left | now right | now apply Hall].
Qed.

Lemma sorted_desc_sorted (l : list A) :
  StronglySorted (fun a b => String.leb (key b) (key a) = true) (sorted_desc key l).
Proof.
  unfold sorted_desc.
  apply (StronglySorted_rev (R := le)).
  apply sort_by_sorted. constructor.
Qed.

End InsertionSort.

Section ReportOrder.
Local Open Scope list_scope.

Lemma iso_timestamp_first (s : string) :
  iso_timestamp s = true ->
  exists c s', s = String c s' /\ is_digit c = true /\ s' <> "".
Proof.
  unfold iso_timestamp. destruct s as [|c s']; [discriminate|].
  cbn [has_shape]. rewrite Ascii.eqb_refl.
  intros [Hc Hs]%andb_true_iff. exists c, s'. repeat split; [exact Hc|].
  intros ->. discriminate.
Qed.

Lemma digit_after_zero (c : ascii) :
  is_digit c = true -> c = "0"%char \/ Ascii.compare "0" c = Lt.
Proof.
  destruct c as [[] [] [] [] [] [] [] []]; intros H;
    try discriminate; auto.
Qed.

Lemma iso_after_zero (s : string) :
  iso_timestamp s = true -> String.ltb "0" s = true.
Proof.
  intros H. destruct (iso_timestamp_first s H) as (c & s' & -> & Hc & Hs').
  unfold String.ltb. cbn [String.compare].
  destruct (digit_after_zero c Hc) as [-> | ->]; [|reflexivity].
  destruct s'; [contradiction|reflexivity].
Qed.

Lemma iso_not_sentinel (s : string) :
  iso_timestamp s = true -> (s =? "0")%string = false.
Proof.
  intros H. rewrite String.eqb_sym. now apply ltb_neq, iso_after_zero.
Qed.

(** The two kinds of well-dated records, with their keys. *)
Lemma well_dated_inv (x : details) :
  well_dated x ->
  (latest_commit_date x = JNull /\ date_of x = None /\ date_key x = "0")
  \/ exists s, latest_commit_date x = JStr s /\ date_of x = Some s
               /\ date_key x = s /\ iso_timestamp s = true.
Proof.
  unfold date_of, date_key. intros [H | (s & H & Hs)]; rewrite H.
  - now left.
  - right. exists s. repeat split; [|exact Hs].
    destruct (iso_timestamp_first s Hs) as (c & s' & -> & _). reflexivity.
Qed.

Lemma well_dated_sort_key (x : details) :
  well_dated x -> sort_key x = JStr (date_key x).
Proof.
  intros H. unfold sort_key, Py.or_.
  destruct (well_dated_inv H) as [(E & _ & ->) | (s & E & _ & -> & Hs)];
    rewrite E; [reflexivity|].
  destruct (iso_timestamp_first s Hs) as (c & s' & -> & _). reflexivity.
Qed.

Lemma key_order_not_later (x y : details) :
  well_dated x -> well_dated y ->
  String.leb (date_key y) (date_key x) = true -> not_later x y.
Proof.
  intros Hx Hy. unfold not_later.
  destruct (well_dated_inv Hy) as [(_ & -> & _) | (b & _ & -> & -> & Hb)];
    [trivial|].
  destruct (well_dated_inv Hx) as [(_ & -> & ->) | (a & _ & -> & -> & _)];
    [|trivial].
  intros H. apply iso_after_zero in Hb.
  rewrite (ltb_leb_false _ _ Hb) in H. discriminate.
Qed.

(** On well-dated records, having a given date is having a given key,
    or is impossible. *)
Lemma same_date_key (d : option string) :
  (exists k, forall x, well_dated x -> same_date d x = (date_key x =? k)%string)
  \/ (forall x, well_dated x -> same_date d x = false).
Proof.
  destruct d as [a|].
  - destruct (iso_timestamp a) eqn:Ha.
    + left. exists a. intros x Hx. unfold same_date.
      destruct (well_dated_inv Hx) as [(_ & -> & ->) | (b & _ & -> & -> & _)].
      * symmetry. rewrite String.eqb_sym. now apply iso_not_sentinel.
      * apply String.eqb_sym.
    + right. intros x Hx. unfold same_date.
      destruct (well_dated_inv Hx) as [(_ & -> & _) | (b & _ & -> & _ & Hb)];
        [reflexivity|].
      apply String.eqb_neq. intros ->. congruence.
  - left. exists "0". intros x Hx. unfold same_date.
    destruct (well_dated_inv Hx) as [(_ & -> & ->) | (b & _ & -> & -> & Hb)];
      [reflexivity|].
    symmetry. now apply iso_not_sentinel.
Qed.

Lemma sort_contributors_well_dated (l : list details) :
  Forall well_dated l ->
  sort_contributors l = Ok (sorted_desc date_key l).
Proof.
  intros H. unfold sort_contributors. apply py_sorted_strings.
  intros x Hx. rewrite Forall_forall in H. now apply well_dated_sort_key, H.
Qed.

End ReportOrder.

(** C2.  A list of records whose commit dates are time stamps or [None]
    is sorted without error; the result is a rearrangement of the list in
    which no record stands before one with a greater date string nor a
    record without date before a dated one, and records of the same date
    (or both without date) keep the order they came in.  In particular
    the dates [2024-01-01], none, [2024-03-01], none come out as third,
    first, second, fourth. *)
Theorem report_sorted_by_date :
  (forall l : list details,
      Forall well_dated l ->
      exists sorted : list details,
        sort_contributors l = Ok sorted
        /\ Permutation l sorted
        /\ StronglySorted not_later sorted
        /\ forall d, filter (same_date d) sorted = filter (same_date d) l)
  /\ (forall a b c d : details,
         latest_commit_date a = JStr "2024-01-01T00:00:00Z" ->
         latest_commit_date b = JNull ->
         latest_commit_date c = JStr "2024-03-01T00:00:00Z" ->
         latest_commit_date d = JNull ->
         sort_contributors [a; b; c; d] = Ok [c; a; b; d]).
Proof.
  split.
  - intros l Hl. exists (sorted_desc date_key l).
    assert (Hperm : Permutation l (sorted_desc date_key l))
      by apply sorted_desc_perm.
    assert (Hin : forall x, In x (sorted_desc date_key l) -> well_dated x).
    { intros x Hx. rewrite Forall_forall in Hl.
      apply Hl. eapply Permutation_in; [symmetry; exact Hperm | exact Hx]. }
    split; [now apply sort_contributors_well_dated|].
    split; [exact Hperm|]. split.
    + eapply StronglySorted_weaken; [|apply sorted_desc_sorted].
      intros x y Hx Hy. apply key_order_not_later; now apply Hin.
    + intros d. destruct (same_date_key d) as [[k Hk] | Hnone].
      * rewrite (filter_ext_in (same_date d) (fun x => date_key x =? k)%string)
          by (intros x Hx; now apply Hk, Hin).
        rewrite (filter_ext_in (same_date d) (fun x => date_key x =? k)%string l)
          by (intros x Hx; rewrite Forall_forall in Hl; now apply Hk, Hl).
        apply sorted_desc_stable.
      * rewrite (filter_ext_in (same_date d) (fun _ => false))
          by (intros x Hx; now apply Hnone, Hin).
        rewrite (filter_ext_in (same_date d) (fun _ => false) l)
          by (intros x Hx; rewrite Forall_forall in Hl; now apply Hnone, Hl).
        now rewrite !filter_false.
  - intros a b c d Ha Hb Hc Hd.
    destruct a, b, c, d. cbn in Ha, Hb, Hc, Hd. subst. reflexivity.
Qed.

Lemma report_sorted_by_date_witness :
  let a := example_details "ann" (JStr "2024-01-01T00:00:00Z") in
  let b := example_details "bob" JNull in
  let c := example_details "cyd" (JStr "2024-03-01T00:00:00Z") in
  let d := example_details "dee" JNull in
  sort_contributors [a; b; c; d] = Ok [c; a; b; d]
  /\ Permutation [a; b; c; d] [c; a; b; d]
  /\ StronglySorted not_later [c; a; b; d]
  /\ filter (same_date None) [c; a; b; d] = [b; d].
Proof.
  intros a b c d.
  destruct report_sorted_by_date as [Hgeneral Hexample].
  pose proof (Hexample a b c d eq_refl eq_refl eq_refl eq_refl) as E.
  assert (Hwell : Forall well_dated [a; b; c; d]).
  { apply Forall_cons; [right; eexists; split; reflexivity|].
    apply Forall_cons; [now left|].
    apply Forall_cons; [right; eexists; split; reflexivity|].
    apply Forall_cons; [now left|]. apply Forall_nil. }
  destruct (Hgeneral [a; b; c; d] Hwell) as (sorted & Es & Hp & Hs & Hst).
  rewrite E in Es. injection Es as <-.
  exact (conj E (conj Hp (conj Hs (Hst None)))).
Defined.

(** * The request wrapper *)

Section Requests.
Local Open Scope list_scope.
Local Open Scope Z_scope.

Variable net : network.

(** *** The wait before a request *)

Lemma wait_for_reset_unknown (st : state) :
  rate_limit_remaining st = None -> wait_for_reset st = (Some (Ok tt), st).
Proof.
  intros H. unfold wait_for_reset, bind, gets. now rewrite H.
Qed.

Lemma wait_for_reset_enough (st : state) (r : Z) :
  rate_limit_remaining st = Some r -> 1 < r ->
  wait_for_reset st = (Some (Ok tt), st).
Proof.
  intros H Hr. unfold wait_for_reset, bind, gets. rewrite H.
  now apply Z.leb_gt in Hr as ->.
Qed.

Lemma wait_for_reset_ready (st : state) :
  ready st -> wait_for_reset st = (Some (Ok tt), st).
Proof.
  intros Hr. destruct (rate_limit_remaining st) as [r|] eqn:H.
  - exact (wait_for_reset_enough st H (Hr r H)).
  - exact (wait_for_reset_unknown st H).
Qed.

(** With the quota used up, the two local times are taken and their
    difference plus 5 seconds is slept when it is positive. *)
Lemma wait_for_reset_due (st : state) (r t reset_time current_time : Z) :
  rate_limit_remaining st = Some r -> r <= 1 ->
  rate_limit_reset st = Some t ->
  localtime (host st) (t * second) = Ok reset_time ->
  localtime (host st) (clock st) = Ok current_time ->
  let sleep_time := reset_time - current_time + 5 * second in
  refuses (host st) (clock st) sleep_time = None ->
  wait_for_reset st
  = (Some (Ok tt), if sleep_time >? 0 then after_wait st sleep_time else st).
Proof.
  intros H Hr Ht Hreset Hnow sleep_time Hsleep.
  unfold wait_for_reset, bind, gets. rewrite H.
  apply Z.leb_le in Hr as ->. rewrite Ht.
  unfold fromtimestamp, now. rewrite Hreset, Hnow. fold sleep_time.
  destruct (sleep_time >? 0) eqn:E; [|reflexivity].
  unfold print, emit, sleep. cbn [clock trace host].
  rewrite Hsleep.
  assert ((sleep_time <? 0) = false) as ->.
  { apply Z.ltb_ge. apply Z.gtb_lt in E. lia. }
  reflexivity.
Qed.

(** The reset time that cannot be given as a local time is an error. *)
Lemma wait_for_reset_out_of_range (st : state) (r t : Z) (e : exn) :
  rate_limit_remaining st = Some r -> r <= 1 ->
  rate_limit_reset st = Some t ->
  localtime (host st) (t * second) = Raise e ->
  wait_for_reset st = (Some (Raise e), st).
Proof.
  intros H Hr Ht Hreset.
  unfold wait_for_reset, bind, gets. rewrite H.
  apply Z.leb_le in Hr as ->. rewrite Ht.
  unfold fromtimestamp. now rewrite Hreset.
Qed.

(** When the quota is not used up, the wait does nothing. *)
Lemma wait_for_reset_ok (st : state) :
  ready st ->
  exists st1,
    wait_for_reset st = (Some (Ok tt), st1)
    /\ headers st1 = headers st /\ base_url st1 = base_url st
    /\ requests_of (trace st1) = requests_of (trace st).
Proof.
  intros Hr. exists st. rewrite (wait_for_reset_ready Hr). auto.
Qed.


(** *** What every computation of the analyzer respects

    A relation between states that is a preorder and that the four
    primitive effects respect is respected by every method. *)

Create HintDb effects.

Section Respects.

Variable R : state -> state -> Prop.
Hypothesis R_refl : forall st, R st st.
Hypothesis R_trans : forall st1 st2 st3, R st1 st2 -> R st2 st3 -> R st1 st3.
Hypothesis R_emit : forall e, respects R (emit e).
Hypothesis R_sleep : forall d, respects R (sleep d).
Hypothesis R_set_rate_limit : forall a b, respects R (set_rate_limit a b).
Hypothesis R_requests_get :
  forall url params, respects R (requests_get net url params).

Lemma respects_ret {A : Type} (a : A) : respects R (ret a).
Proof. intros st. apply R_refl. Qed.

Lemma respects_lift {A : Type} (r : result A) : respects R (lift r).
Proof. intros st. apply R_refl. Qed.

Lemma respects_gets {A : Type} (f : state -> A) : respects R (gets f).
Proof. intros st. apply R_refl. Qed.

Lemma respects_out_of_fuel {A : Type} : respects R (@out_of_fuel A).
Proof. intros st. apply R_refl. Qed.

Lemma respects_fromtimestamp (t : option Z) : respects R (fromtimestamp t).
Proof. intros st. destruct t; apply R_refl. Qed.

Lemma respects_response_json (r : response) : respects R (response_json r).
Proof. intros st. unfold response_json. destruct (body r); apply R_refl. Qed.

Lemma respects_print (l : line) : respects R (print l).
Proof. apply R_emit. Qed.

Lemma respects_now : respects R now.
Proof. intros st. apply R_refl. Qed.

Lemma respects_bind {A B : Type} (m : M A) (k : A -> M B) :
  respects R m -> (forall a, respects R (k a)) -> respects R (bind m k).
Proof.
  intros Hm Hk st. unfold bind. specialize (Hm st).
  destruct (m st) as [[[a|e]|] st1]; cbn [snd] in *; [|exact Hm|exact Hm].
  eapply R_trans; [exact Hm | apply Hk].
Qed.

#[local] Hint Resolve respects_ret respects_lift respects_gets
  respects_out_of_fuel respects_fromtimestamp respects_response_json
  respects_print respects_now respects_bind
  R_emit R_sleep R_set_rate_limit R_requests_get : effects.

Lemma respects_is_rate_limit_error (r : response) :
  respects R (is_rate_limit_error r).
Proof.
  unfold is_rate_limit_error.
  destruct (status_code r =? 403); auto 10 with effects.
Qed.

Lemma respects_handle_response (retry : M json) (r : response) :
  respects R retry -> respects R (handle_response retry r).
Proof.
  intros Hretry. unfold handle_response.
  apply respects_bind; [auto with effects | intros _].
  destruct (status_code r =? 200); [auto with effects|].
  apply respects_bind; [apply respects_is_rate_limit_error | intros limited].
  destruct limited; auto 15 with effects.
Qed.

Lemma respects_wait_for_reset : respects R wait_for_reset.
Proof.
  unfold wait_for_reset.
  apply respects_bind; [auto with effects | intros [r|]]; [|auto with effects].
  destruct (r <=? 1); [|auto with effects].
  apply respects_bind; [auto with effects | intros reset].
  apply respects_bind; [auto with effects | intros reset_time].
  apply respects_bind; [auto with effects | intros current_time].
  destruct (_ >? 0); auto with effects.
Qed.

Lemma respects_make_request (fuel : nat) (url : string)
    (params : option dict) :
  respects R (_make_request net fuel url params).
Proof.
  induction fuel as [|fuel IH]; [apply respects_out_of_fuel|].
  cbn [_make_request].
  apply respects_bind; [apply respects_wait_for_reset | intros _].
  apply respects_bind; [apply R_requests_get | intros response].
  now apply respects_handle_response.
Qed.

#[local] Hint Resolve respects_make_request : effects.

Lemma respects_contributors_loop (retries fuel : nat) (url : string) :
  forall (params : dict) (contributors : list json) (page : Z),
    respects R (contributors_loop net retries fuel url params contributors page).
Proof.
  induction fuel as [|fuel IH]; intros params contributors page;
    [apply respects_out_of_fuel|].
  cbn [contributors_loop].
  apply respects_bind; [auto with effects | intros response_data].
  destruct (negb (Py.truthy response_data)
            || negb (Py.isinstance_list response_data))%bool;
    [auto with effects|].
  destruct (negb (Py.truthy response_data)); [auto with effects|].
  destruct response_data; auto with effects.
  destruct (_ <? 100); auto with effects.
Qed.

Lemma respects_get_repository_contributors (fuel : nat)
    (owner repo : string) :
  respects R (get_repository_contributors net fuel owner repo).
Proof.
  unfold get_repository_contributors.
  apply respects_bind; [auto with effects | intros base].
  apply respects_contributors_loop.
Qed.

Lemma respects_process_contributor (fuel : nat) (owner repo : string)
    (total i : nat) (contributor : json) :
  respects R (process_contributor net fuel owner repo total i contributor).
Proof.
  unfold process_contributor, get_user_details, get_user_recent_commits.
  auto 15 with effects.
Qed.

Lemma respects_process_all (fuel : nat) (owner repo : string) (total : nat)
    (contributors : list json) :
  forall (i : nat) (contributor_details : list details),
    respects R (process_all net fuel owner repo total i contributors
                            contributor_details).
Proof.
  induction contributors as [|contributor rest IH];
    intros i contributor_details; cbn [process_all]; [auto with effects|].
  apply respects_bind; [apply respects_process_contributor | intros d].
  apply IH.
Qed.

Lemma respects_analyze_repository (fuel : nat) (owner repo : string) :
  respects R (analyze_repository net fuel owner repo).
Proof.
  unfold analyze_repository.
  apply respects_bind; [auto with effects | intros _].
  apply respects_bind;
    [apply respects_get_repository_contributors | intros contributors].
  apply respects_bind; [auto with effects | intros _].
  apply respects_bind; [apply respects_process_all | intros ds].
  auto with effects.
Qed.

End Respects.

(** *** Traces only grow *)

Lemma extends_refl (st : state) : extends st st.
Proof. now exists []. Qed.

Lemma extends_trans (st1 st2 st3 : state) :
  extends st1 st2 -> extends st2 st3 -> extends st1 st3.
Proof.
  intros [l1 H1] [l2 H2]. exists (l2 ++ l1).
  now rewrite H2, H1, app_assoc.
Qed.

Lemma extends_emit (e : event) : respects extends (emit e).
Proof. intros st. now exists [e]. Qed.

Lemma extends_sleep (d : Z) : respects extends (sleep d).
Proof.
  intros st. unfold sleep.
  destruct (refuses (host st) (clock st) d); [apply extends_refl|].
  destruct (d <? 0); [apply extends_refl|].
  now exists [Sleep d].
Qed.

Lemma extends_set_rate_limit (a b : Z) : respects extends (set_rate_limit a b).
Proof. intros st. now exists []. Qed.

Lemma extends_requests_get (url : string) (params : option dict) :
  respects extends (requests_get net url params).
Proof.
  intros st.
  now exists [Get (clock st) {| req_url := url; req_headers := headers st;
                                req_params := params |}].
Qed.

Lemma grows_handle_response (retry : M json) (r : response) :
  respects extends retry -> respects extends (handle_response retry r).
Proof.
  intros H. apply respects_handle_response;
    solve [ exact extends_refl | exact extends_trans | exact extends_emit
          | exact extends_sleep | exact extends_set_rate_limit | exact H ].
Qed.

Lemma grows_make_request (fuel : nat) (url : string) (params : option dict) :
  respects extends (_make_request net fuel url params).
Proof.
  exact (respects_make_request extends_refl extends_trans extends_emit
           extends_sleep extends_set_rate_limit extends_requests_get
           fuel url params).
Qed.

(** Nothing that was printed or sent is lost in the course of an
    analysis. *)
Lemma grows_analyze_repository (fuel : nat) (owner repo : string) :
  respects extends (analyze_repository net fuel owner repo).
Proof.
  exact (respects_analyze_repository extends_refl extends_trans extends_emit
           extends_sleep extends_set_rate_limit extends_requests_get
           fuel owner repo).
Qed.

(** *** The reset time stays known *)

Lemma stays_consistent_refl (st : state) : stays_consistent st st.
Proof. intros H. exact H. Qed.

Lemma stays_consistent_trans (st1 st2 st3 : state) :
  stays_consistent st1 st2 -> stays_consistent st2 st3 ->
  stays_consistent st1 st3.
Proof. intros H1 H2 H. apply H2, H1, H. Qed.

Lemma stays_consistent_emit (e : event) : respects stays_consistent (emit e).
Proof. intros st H. exact H. Qed.

Lemma stays_consistent_sleep (d : Z) : respects stays_consistent (sleep d).
Proof.
  intros st H. unfold sleep.
  destruct (refuses (host st) (clock st) d); [exact H|].
  destruct (d <? 0); exact H.
Qed.

Lemma stays_consistent_set_rate_limit (a b : Z) :
  respects stays_consistent (set_rate_limit a b).
Proof. intros st _ _. discriminate. Qed.

Lemma stays_consistent_requests_get (url : string) (params : option dict) :
  respects stays_consistent (requests_get net url params).
Proof. intros st H. exact H. Qed.

(** The analyzer starts consistent and stays so, whatever the network
    answers and however the analysis ends. *)
Lemma consistent_init (token : option string) (os : platform) (clock0 : Z) :
  consistent (__init__ token os clock0).
Proof. intros H. now contradiction H. Qed.

Lemma consistent_make_request (fuel : nat) (url : string)
    (params : option dict) :
  respects stays_consistent (_make_request net fuel url params).
Proof.
  exact (respects_make_request stays_consistent_refl stays_consistent_trans
           stays_consistent_emit stays_consistent_sleep
           stays_consistent_set_rate_limit stays_consistent_requests_get
           fuel url params).
Qed.

Lemma consistent_analyze_repository (fuel : nat) (owner repo : string) :
  respects stays_consistent (analyze_repository net fuel owner repo).
Proof.
  exact (respects_analyze_repository stays_consistent_refl
           stays_consistent_trans stays_consistent_emit
           stays_consistent_sleep stays_consistent_set_rate_limit
           stays_consistent_requests_get fuel owner repo).
Qed.

End Requests.


Section Precheck.
Local Open Scope list_scope.
Local Open Scope Z_scope.

(** The trace of a request that starts with the quota used up. *)
Lemma make_request_after_wait (net : network) (fuel : nat) (url : string)
    (params : option dict) (st : state) (r t reset_time current_time : Z) :
  rate_limit_remaining st = Some r -> r <= 1 ->
  rate_limit_reset st = Some t ->
  localtime (host st) (t * second) = Ok reset_time ->
  localtime (host st) (clock st) = Ok current_time ->
  let sleep_time := reset_time - current_time + 5 * second in
  let request :=
    {| req_url := url; req_headers := headers st; req_params := params |} in
  refuses (host st) (clock st) sleep_time = None ->
  exists later,
    trace (snd (_make_request net (S fuel) url params st))
    = later
      ++ Get (clock st + Z.max 0 sleep_time) request
      :: (if sleep_time >? 0
          then [Sleep sleep_time; Print (RateLimitReached sleep_time)]
          else [])
      ++ trace st.
Proof.
  intros Hr Hle Ht Hreset Hnow sleep_time request Hsleep.
  cbn [_make_request]. unfold bind at 1.
  rewrite (@wait_for_reset_due st r t reset_time current_time
             Hr Hle Ht Hreset Hnow Hsleep).
  fold sleep_time.
  unfold bind at 1, requests_get.
  set (st1 := if sleep_time >? 0 then after_wait st sleep_time else st).
  match goal with
  | |- context [handle_response ?retry ?resp ?st2] =>
      destruct (grows_handle_response resp
                  (grows_make_request net fuel url params) st2)
        as [later Hlater]
  end.
  cbn [trace] in Hlater. exists later. rewrite Hlater. f_equal.
  subst st1 request. destruct (sleep_time >? 0) eqn:E.
  - apply Z.gtb_lt in E. rewrite Z.max_r by lia. reflexivity.
  - assert (sleep_time <= 0)
      by (rewrite Z.gtb_ltb in E; apply Z.ltb_ge in E; lia).
    rewrite Z.max_l by lia. now rewrite Z.add_0_r.
Qed.

(** Where local time is at one offset from UTC for the reset and for
    the present, and the platform sleeps that long, the wait is
    [reset - now + 5] seconds: with the reset 10 seconds ahead, 15
    seconds. *)
Lemma precheck_at_one_offset (net : network) (fuel : nat) (url : string)
    (params : option dict) (st : state) (r t offset : Z) :
  rate_limit_remaining st = Some r -> r <= 1 ->
  rate_limit_reset st = Some t ->
  localtime (host st) (t * second) = Ok (t * second + offset) ->
  localtime (host st) (clock st) = Ok (clock st + offset) ->
  let sleep_time := t * second - clock st + 5 * second in
  let request :=
    {| req_url := url; req_headers := headers st; req_params := params |} in
  refuses (host st) (clock st) sleep_time = None ->
  wait_for_reset st
  = (Some (Ok tt), if sleep_time >? 0 then after_wait st sleep_time else st)
  /\ (exists later,
        trace (snd (_make_request net (S fuel) url params st))
        = later
          ++ Get (clock st + Z.max 0 sleep_time) request
          :: (if sleep_time >? 0
              then [Sleep sleep_time; Print (RateLimitReached sleep_time)]
              else [])
          ++ trace st)
  /\ (t * second = clock st + 10 * second -> sleep_time = 15 * second).
Proof.
  intros Hr Hle Ht Hreset Hnow sleep_time request Hsleep.
  assert (E : t * second + offset - (clock st + offset) + 5 * second
              = sleep_time) by (unfold sleep_time; lia).
  pose proof (@wait_for_reset_due st r t _ _ Hr Hle Ht Hreset Hnow) as Hwait.
  pose proof (@make_request_after_wait net fuel url params st r t _ _
                Hr Hle Ht Hreset Hnow) as Htrace.
  cbv zeta in Hwait, Htrace. rewrite E in Hwait, Htrace.
  split; [exact (Hwait Hsleep)|]. split; [exact (Htrace Hsleep)|].
  intros H. unfold sleep_time. lia.
Qed.

End Precheck.

(** C8.  With one request left and the reset 10 seconds ahead, the
    wrapper does not always wait the 15 seconds of [reset - now + 5]: it
    subtracts two local times.  Five seconds before US Eastern time goes
    back to standard time the difference is -3585 seconds, nothing is
    slept and the request goes out at once; five seconds before
    daylight time begins it is 3615 seconds, and that is slept. *)
Theorem precheck_across_clock_change :
  let autumn := reset_in_ten_seconds eastern 1730613595 in
  let spring := reset_in_ten_seconds eastern 1710053995 in
  let url := "https://api.github.com/users/foo" in
  wait_for_reset autumn = (Some (Ok tt), autumn)
  /\ trace (snd (_make_request fake_endpoint 1 url None autumn))
     = [Get (clock autumn)
            {| req_url := url; req_headers := headers autumn;
               req_params := None |}]
  /\ wait_for_reset spring
     = (Some (Ok tt), after_wait spring (3615 * second)%Z)
  /\ trace (snd (_make_request fake_endpoint 1 url None spring))
     = [Get (clock spring + 3615 * second)%Z
            {| req_url := url; req_headers := headers spring;
               req_params := None |};
        Sleep (3615 * second)%Z;
        Print (RateLimitReached (3615 * second)%Z)].
Proof.
  intros autumn spring url.
  assert (Ha : wait_for_reset autumn = (Some (Ok tt), autumn)).
  { exact (@wait_for_reset_due autumn 1 1730613605
             (1730613605 * second - 5 * 3600 * second)
             (1730613595 * second - 4 * 3600 * second)
             eq_refl ltac:(lia) eq_refl eq_refl eq_refl eq_refl). }
  assert (Hs : wait_for_reset spring
               = (Some (Ok tt), after_wait spring (3615 * second)%Z)).
  { exact (@wait_for_reset_due spring 1 1710054005
             (1710054005 * second - 4 * 3600 * second)
             (1710053995 * second - 5 * 3600 * second)
             eq_refl ltac:(lia) eq_refl eq_refl eq_refl eq_refl). }
  split; [exact Ha|]. split.
  - cbn [_make_request]. unfold bind at 1. rewrite Ha. reflexivity.
  - split; [exact Hs|].
    cbn [_make_request]. unfold bind at 1. rewrite Hs. reflexivity.
Qed.

(** * Statuses other than 200 *)

Section ErrorStatus.
Local Open Scope list_scope.
Local Open Scope Z_scope.

Variable net : network.

(** A response that is neither a success nor a 403 is reported and
    answered with an empty dictionary. *)
Lemma handle_response_other_status (retry : M json) (r : response)
    (st : state) :
  status_code r <> 200 -> status_code r <> 403 ->
  exists st',
    handle_response retry r st = (Some (Ok (JDict [])), st')
    /\ trace st' = Print (HttpError (status_code r) (text r)) :: trace st.
Proof.
  intros H200 H403. unfold handle_response, bind at 1, set_rate_limit.
  apply Z.eqb_neq in H200, H403. rewrite H200.
  unfold bind at 1, is_rate_limit_error. rewrite H403.
  unfold ret, bind, print, emit. cbn. eauto.
Qed.

(** So is a 403 whose body is a dictionary with a message that does not
    speak of the rate limit. *)
Lemma handle_response_forbidden (retry : M json) (r : response)
    (st : state) (d : dict) (message : string) :
  status_code r = 403 -> body r = Some (JDict d) ->
  match Py.lookup "message" d with Some v => v | None => JStr "" end
  = JStr message ->
  PyStr.contains (PyStr.lower message) "rate limit" = false ->
  exists st',
    handle_response retry r st = (Some (Ok (JDict [])), st')
    /\ trace st' = Print (HttpError (status_code r) (text r)) :: trace st.
Proof.
  intros H403 Hbody Hmsg Hno.
  unfold handle_response, bind at 1, set_rate_limit.
  rewrite H403. cbn [Z.eqb Pos.eqb].
  unfold bind at 1, is_rate_limit_error. rewrite H403. cbn [Z.eqb Pos.eqb].
  unfold response_json. rewrite Hbody.
  unfold bind, ret, lift, Py.get. rewrite Hmsg. cbn [lower]. rewrite Hno.
  unfold print, emit. cbn. eauto.
Qed.

Lemma make_request_other_status (fuel : nat) (url : string)
    (params : option dict) (st : state) :
  ready st ->
  (forall now tr r, status_code (net now tr r) <> 200
                    /\ status_code (net now tr r) <> 403) ->
  exists st',
    _make_request net (S fuel) url params st = (Some (Ok (JDict [])), st').
Proof.
  intros Hc Hnet. cbn [_make_request]. unfold bind at 1.
  destruct (wait_for_reset_ok Hc) as (st1 & -> & _).
  unfold bind at 1, requests_get.
  match goal with
  | |- context [handle_response ?retry ?resp ?st2] =>
      destruct (handle_response_other_status retry resp st2)
        as (st' & E & _); [apply Hnet | apply Hnet |]
  end.
  eauto.
Qed.

(** The caller goes on without the data: the list of contributors is
    empty. *)
Lemma contributors_without_data (fuel : nat) (owner repo : string)
    (st : state) :
  ready st ->
  (forall now tr r, status_code (net now tr r) <> 200
                    /\ status_code (net now tr r) <> 403) ->
  exists st',
    get_repository_contributors net (S fuel) owner repo st
    = (Some (Ok []), st').
Proof.
  intros Hc Hnet. unfold get_repository_contributors, bind at 1, gets.
  cbn [contributors_loop]. unfold bind at 1.
  match goal with
  | |- context [_make_request net (S fuel) ?url ?params st] =>
      destruct (make_request_other_status fuel url params Hc Hnet)
        as (st' & ->)
  end.
  now exists st'.
Qed.

End ErrorStatus.

(** C6.  A response with status 403 whose body is not JSON is neither a
    success nor a rate-limit response, yet no empty mapping comes back:
    the wrapper raises [JSONDecodeError] while it reads the message, and
    the analysis of the repository ends with that exception. *)
Theorem forbidden_page_raises :
  forall (fuel : nat) (url : string) (params : option dict)
         (owner repo : string) (token : option string) (os : platform)
         (clock0 : Z),
    fst (_make_request forbidden_html (S fuel) url params
                       (__init__ token os clock0))
    = Some (Raise JSONDecodeError)
    /\ fst (analyze_repository forbidden_html (S fuel) owner repo
                               (__init__ token os clock0))
       = Some (Raise JSONDecodeError).
Proof.
  intros. split; reflexivity.
Qed.

(** * Paging through the contributors *)

Section Paging.
Local Open Scope list_scope.

Variable net : network.

(** A request that is served returns the value served, and leaves one
    more request in the trace. *)
Lemma make_request_served (fuel : nat) (url : string) (params : option dict)
    (st : state) (j : json) :
  ready st ->
  serves net {| req_url := url; req_headers := headers st;
                req_params := params |} j ->
  exists st',
    _make_request net (S fuel) url params st = (Some (Ok j), st')
    /\ ready st'
    /\ headers st' = headers st /\ base_url st' = base_url st
    /\ requests_of (trace st')
       = requests_of (trace st)
         ++ [{| req_url := url; req_headers := headers st;
                req_params := params |}].
Proof.
  intros Hc Hserved. cbn [_make_request]. unfold bind at 1.
  destruct (wait_for_reset_ok Hc) as (st1 & -> & Hh & Hb & Hreq).
  unfold bind at 1, requests_get. rewrite Hh.
  destruct (Hserved (clock st1) (trace st1))
    as (Hstatus & Hbody & quota & Hquota & Hleft).
  unfold handle_response, bind at 1, set_rate_limit.
  rewrite Hstatus. cbn [Z.eqb Pos.eqb]. unfold response_json.
  rewrite Hbody, Hquota. unfold ret. eexists. split; [reflexivity|].
  unfold ready.
  cbn [headers base_url trace rate_limit_remaining rate_limit_reset
       requests_of].
  repeat split; auto.
  - now intros r [= <-].
  - now rewrite Hreq.
Qed.

Lemma set_page (page page' : Z) :
  Py.set "page" (JInt page) [("per_page", JInt 100)] = page_params page
  /\ Py.set "page" (JInt page) (page_params page') = page_params page.
Proof. split; reflexivity. Qed.



End Paging.

Ltac served :=
  split; [reflexivity|];
  split; [reflexivity|];
  eexists; split; [reflexivity | lia].



(** * More on [extract_repo_info] *)

Section MoreOnReferences.

Lemma split_from_slash_nonempty (s : string) : PyStr.split_from "/" 0 s <> [].
Proof.
  destruct s as [|c s]; [discriminate|]. rewrite split_from_cons.
  destruct (c =? "/")%char; discriminate.
Qed.

Lemma split_pieces_no_slash (s : string) :
  Forall (fun piece => str_all not_slash piece = true)
         (PyStr.split_from "/" 0 s).
Proof.
  induction s as [|c s IH]; [repeat constructor|].
  rewrite split_from_cons. destruct (c =? "/")%char eqn:E.
  - constructor; [reflexivity | exact IH].
  - pose proof (split_from_slash_nonempty s) as Hne.
    destruct (PyStr.split_from "/" 0 s) as [|piece rest]; [contradiction|].
    apply Forall_cons_iff in IH as [Hpiece Hrest]. cbn [hd tl].
    constructor; [|exact Hrest]. simpl. unfold not_slash at 1.
    now rewrite E, Hpiece.
Qed.

(** The parts are the pieces of one string split on the slash. *)
Lemma repo_parts_path (repo_url : string) :
  exists path, repo_parts repo_url = PyStr.split_from "/" 0 path.
Proof.
  unfold repo_parts.
  destruct (PyStr.startswith _ "https://"); [eauto|].
  destruct (PyStr.startswith _ ssh_github); eauto.
Qed.

(** *** White space around the reference *)

Lemma lstrip_spaces (w x : string) :
  str_all PyStr.isspace w = true -> PyStr.lstrip (w ++ x) = PyStr.lstrip x.
Proof.
  induction w as [|c w IH]; [reflexivity|]. simpl.
  intros [Hc Hw]%andb_true_iff. rewrite Hc. now apply IH.
Qed.

Lemma rstrip_spaces (w : string) :
  str_all PyStr.isspace w = true -> PyStr.rstrip w = "".
Proof.
  induction w as [|c w IH]; [reflexivity|]. simpl.
  intros [Hc Hw]%andb_true_iff. now rewrite (IH Hw), Hc.
Qed.

Lemma rstrip_app_spaces (x w : string) :
  str_all PyStr.isspace w = true -> PyStr.rstrip (x ++ w) = PyStr.rstrip x.
Proof.
  intros Hw. induction x as [|c x IH]; [now apply rstrip_spaces|].
  simpl. now rewrite IH.
Qed.

Lemma lstrip_empty_spaces (s : string) :
  PyStr.lstrip s = "" -> str_all PyStr.isspace s = true.
Proof.
  induction s as [|c s IH]; [reflexivity|]. simpl.
  destruct (PyStr.isspace c); [exact IH | discriminate].
Qed.

Lemma lstrip_app (s w : string) :
  PyStr.lstrip s <> "" -> PyStr.lstrip (s ++ w) = PyStr.lstrip s ++ w.
Proof.
  induction s as [|c s IH]; [contradiction|]. simpl.
  destruct (PyStr.isspace c); [exact IH | reflexivity].
Qed.

Lemma strip_surrounded (w1 s w2 : string) :
  str_all PyStr.isspace w1 = true -> str_all PyStr.isspace w2 = true ->
  PyStr.strip (w1 ++ s ++ w2) = PyStr.strip s.
Proof.
  intros H1 H2. unfold PyStr.strip. rewrite (lstrip_spaces _ _ H1).
  destruct (PyStr.lstrip s) as [|c r] eqn:E.
  - apply lstrip_empty_spaces in E.
    assert (Hall : str_all PyStr.isspace (s ++ w2) = true)
      by now rewrite str_all_app, E, H2.
    replace (s ++ w2) with ((s ++ w2) ++ "") by apply append_nil_r.
    now rewrite (lstrip_spaces _ _ Hall).
  - rewrite lstrip_app by (rewrite E; discriminate).
    rewrite E. now apply rstrip_app_spaces.
Qed.

(** *** The scheme [http://] *)

Lemma clean_http (rest : string) :
  clean_url ("http://" ++ rest) = "http:/"
  \/ exists r, clean_url ("http://" ++ rest) = "http://" ++ r.
Proof.
  unfold clean_url, PyStr.strip.
  assert (PyStr.lstrip ("http://" ++ rest) = "http://" ++ rest) as ->
    by reflexivity.
  assert (PyStr.rstrip ("http://" ++ rest) = "http://" ++ PyStr.rstrip rest)
    as ->.
  { simpl append. now rewrite !rstrip_cons by reflexivity. }
  destruct (PyStr.endswith ("http://" ++ PyStr.rstrip rest) "/").
  - destruct (PyStr.rstrip rest) as [|c r] eqn:E.
    + now left.
    + right. now exists (PyStr.but_last (String c r)).
  - right. now exists (PyStr.rstrip rest).
Qed.

End MoreOnReferences.

(** X1.  Whatever the input, [extract_repo_info] either returns an owner
    and a name that contain no slash, or raises [ValueError]; it raises
    exactly when the cleaned reference is a single part. *)
Theorem extract_repo_info_outcome :
  forall repo_url : string,
    match extract_repo_info repo_url with
    | Ok (owner, name) =>
        str_all not_slash owner = true /\ str_all not_slash name = true
        /\ exists rest, repo_parts repo_url = owner :: name :: rest
    | Raise e =>
        e = ValueError /\ exists part, repo_parts repo_url = [part]
    end.
Proof.
  intros repo_url. unfold extract_repo_info.
  destruct (repo_parts_path repo_url) as [path E]. rewrite E.
  pose proof (split_pieces_no_slash path) as Hall.
  pose proof (split_from_slash_nonempty path) as Hne.
  destruct (PyStr.split_from "/" 0 path) as [|owner [|name rest]];
    [contradiction | eauto |].
  apply Forall_cons_iff in Hall as [Ho Hall].
  apply Forall_cons_iff in Hall as [Hn _]. eauto.
Qed.

(** X2.  A reference with the scheme [http://] is not recognised as a
    URL: whatever follows, even [github.com/owner/name], the owner
    returned is ["http:"] and the name is empty. *)
Theorem http_scheme_not_recognised :
  forall url : string,
    PyStr.startswith url "http://" = true ->
    extract_repo_info url = Ok ("http:", "").
Proof.
  unfold PyStr.startswith. intros url H.
  destruct (prefix_split _ _ H) as [rest ->].
  unfold extract_repo_info, repo_parts, PyStr.startswith.
  destruct (clean_http rest) as [-> | [r ->]]; [reflexivity|].
  assert (String.prefix "https://" ("http://" ++ r) = false) as ->
    by (simpl append; now rewrite !prefix_cons).
  assert (String.prefix ssh_github ("http://" ++ r) = false) as ->
    by (unfold ssh_github; simpl append; now rewrite prefix_cons).
  change ("http://" ++ r) with ("http:" ++ String "/" ("" ++ String "/" r)).
  now rewrite !split_from_segment by reflexivity.
Qed.

Lemma http_scheme_not_recognised_witness :
  extract_repo_info "http://github.com/acme/widgets" = Ok ("http:", "").
Proof.
  apply (http_scheme_not_recognised "http://github.com/acme/widgets").
  reflexivity.
Defined.

(** X3.  White space before and after a reference does not change the
    outcome. *)
Theorem surrounding_space_ignored :
  forall w1 s w2 : string,
    str_all PyStr.isspace w1 = true -> str_all PyStr.isspace w2 = true ->
    extract_repo_info (w1 ++ s ++ w2) = extract_repo_info s.
Proof.
  intros w1 s w2 H1 H2.
  unfold extract_repo_info, repo_parts, clean_url.
  now rewrite (strip_surrounded w1 s w2 H1 H2).
Qed.

Lemma surrounding_space_ignored_witness :
  extract_repo_info ("  " ++ "acme/widgets" ++ " ")
  = extract_repo_info "acme/widgets".
Proof.
  apply (surrounding_space_ignored "  " "acme/widgets" " "); reflexivity.
Defined.

(** * More on dictionaries and links *)

Section MoreOnLinks.
Local Open Scope list_scope.

Lemma set_absent (k : string) (v : json) (d : dict) :
  Py.lookup k d = None -> Py.set k v d = d ++ [(k, v)].
Proof.
  induction d as [|[k' v'] d IH]; [reflexivity|]. simpl.
  destruct (k =? k')%string; [discriminate|]. intros H. now rewrite IH.
Qed.

Lemma set_present_keys (k : string) (v w : json) (d : dict) :
  Py.lookup k d = Some w -> map fst (Py.set k v d) = map fst d.
Proof.
  induction d as [|[k' v'] d IH]; [discriminate|]. simpl.
  destruct (k =? k')%string eqn:E.
  - apply String.eqb_eq in E. now subst.
  - intros H. simpl. now rewrite IH.
Qed.

Lemma lookup_none_keys (k : string) (d : dict) :
  Py.lookup k d = None <-> ~ In k (map fst d).
Proof.
  induction d as [|[k' v'] d IH]; simpl; [tauto|].
  destruct (k =? k')%string eqn:E.
  - apply String.eqb_eq in E. subst. split; [discriminate | tauto].
  - apply String.eqb_neq in E. rewrite IH. split; [|tauto].
    intros H [H' | H']; [congruence | tauto].
Qed.

(** Keys stay distinct and within [allowed] when one of them is set. *)
Lemma set_keeps_keys (allowed : list string) (k : string) (v : json)
    (d : dict) :
  In k allowed ->
  NoDup (map fst d) /\ incl (map fst d) allowed ->
  NoDup (map fst (Py.set k v d)) /\ incl (map fst (Py.set k v d)) allowed.
Proof.
  intros Hk [Hnd Hincl]. destruct (Py.lookup k d) as [w|] eqn:E.
  - now rewrite (set_present_keys _ v _ E).
  - rewrite (set_absent _ v _ E), map_app. cbn [map fst]. split.
    + apply NoDup_app; [exact Hnd | repeat constructor; intros [] |].
      intros x Hx [<- | []]. now apply lookup_none_keys in E.
    + apply incl_app; [exact Hincl|]. intros x [<- | []]. exact Hk.
Qed.

Lemma set_length (k : string) (v : json) (d : dict) :
  (List.length (Py.set k v d) <= S (List.length d))%nat.
Proof.
  induction d as [|[k' v'] d IH]; simpl; [lia|].
  destruct (k =? k')%string; simpl; lia.
Qed.

Lemma platform_of_domain_known (domain : string) :
  In (platform_of_domain domain) platforms.
Proof.
  unfold platform_of_domain, platforms.
  repeat match goal with
         | |- context [if ?b then _ else _] => destruct b
         end; simpl; tauto.
Qed.

Lemma blog_links_shape (d : dict) (links : dict) :
  blog_links d = Ok links ->
  NoDup (map fst links) /\ incl (map fst links) platforms
  /\ (List.length links <= 1)%nat.
Proof.
  unfold blog_links.
  assert (Hnil : NoDup (map fst (@nil (string * json)))
                 /\ incl (map fst (@nil (string * json))) platforms
                 /\ (List.length (@nil (string * json)) <= 1)%nat).
  { split; [constructor | split; [intros x [] | simpl; lia]]. }
  destruct (Py.truthy (field d "blog")); [|now intros [= <-]].
  destruct (field d "blog") as [| | |url| |]; try discriminate.
  destruct (PyStr.startswith url "http"); intros [= <-]; [|exact Hnil].
  cbn [Py.set map fst List.length]. split; [|split; [|lia]].
  - repeat constructor. intros [].
  - intros x [<- | []]. apply platform_of_domain_known.
Qed.

Lemma get_user_social_links_shape (user_data : json) (links : dict) :
  get_user_social_links user_data = Ok links ->
  NoDup (map fst links) /\ incl (map fst links) platforms
  /\ (List.length links <= 3)%nat.
Proof.
  intros H. destruct (get_user_social_links_dict _ H) as [d ->].
  rewrite get_user_social_links_steps in H.
  destruct (blog_links d) as [l|e] eqn:E; [|discriminate].
  cbn [rbind] in H. injection H as <-.
  apply blog_links_shape in E as (Hnd & Hincl & Hlen).
  assert (Hg : NoDup (map fst (with_github d l))
               /\ incl (map fst (with_github d l)) platforms).
  { unfold with_github. destruct (Py.truthy (field d "html_url")); [|tauto].
    apply set_keeps_keys; [simpl; tauto | tauto]. }
  assert (Hgl : (List.length (with_github d l) <= 2)%nat).
  { unfold with_github. destruct (Py.truthy (field d "html_url")); [|lia].
    pose proof (set_length "GitHub" (field d "html_url") l). lia. }
  unfold with_twitter.
  destruct (Py.truthy (field d "twitter_username")); [|intuition lia].
  match goal with
  | |- context [Py.set "Twitter" ?v ?l] =>
      pose proof (set_length "Twitter" v l);
      destruct (@set_keeps_keys platforms "Twitter" v l) as [H1 H2];
      [simpl; tauto | exact Hg |]
  end.
  repeat split; [exact H1 | exact H2 | lia].
Qed.

End MoreOnLinks.

(** X4.  The links of a profile hold at most one entry per platform, name
    no platform beyond the six known ones, and are at most three. *)
Theorem social_links_well_formed :
  forall (user_data : json) (links : dict),
    get_user_social_links user_data = Ok links ->
    NoDup (map fst links)
    /\ (forall platform, In platform (map fst links) -> In platform platforms)
    /\ (List.length links <= 3)%nat.
Proof.
  intros user_data links H.
  apply get_user_social_links_shape in H as (Hnd & Hincl & Hlen).
  split; [exact Hnd|]. split; [|exact Hlen].
  intros platform Hp. now apply Hincl.
Qed.

Lemma social_links_well_formed_witness :
  let links := [("LinkedIn", JStr "https://WWW.LinkedIn.com/in/foo");
                ("GitHub", JStr "https://github.com/foo");
                ("Twitter", JStr "https://twitter.com/foo")] in
  NoDup (map fst links)
  /\ (forall platform, In platform (map fst links) -> In platform platforms)
  /\ (List.length links <= 3)%nat.
Proof.
  intros links.
  apply (social_links_well_formed
           (JDict [("blog", JStr "https://WWW.LinkedIn.com/in/foo");
                   ("html_url", JStr "https://github.com/foo");
                   ("twitter_username", JStr "foo")])).
  reflexivity.
Defined.

(** X5.  A blog that does not start with [http] leaves no trace in the
    links: they are returned, and hold nothing but what the profile page
    and the Twitter user name give. *)
Theorem blog_without_scheme_ignored :
  forall (d : dict) (url : string),
    Py.lookup "blog" d = Some (JStr url) ->
    PyStr.startswith url "http" = false ->
    exists links,
      get_user_social_links (JDict d) = Ok links
      /\ forall platform,
           platform <> "GitHub" -> platform <> "Twitter" ->
           Py.lookup platform links = None.
Proof.
  intros d url Hblog Hhttp. rewrite get_user_social_links_steps.
  unfold blog_links, field at 1 2. rewrite Hblog, Hhttp.
  assert (Py.truthy (JStr url) = true \/ Py.truthy (JStr url) = false)
    as [-> | ->] by (destruct (Py.truthy (JStr url)); auto);
    cbn [rbind]; eexists; (split; [reflexivity|]);
    intros platform Hg Ht; unfold with_twitter, with_github;
    repeat match goal with
           | |- context [if ?b then _ else _] => destruct b
           end;
    rewrite ?lookup_set_neq by assumption; reflexivity.
Qed.

Lemma blog_without_scheme_ignored_witness :
  exists links,
    get_user_social_links
      (JDict [("blog", JStr "www.linkedin.com/in/foo");
              ("html_url", JStr "https://github.com/foo")]) = Ok links
    /\ forall platform,
         platform <> "GitHub" -> platform <> "Twitter" ->
         Py.lookup platform links = None.
Proof.
  apply (@blog_without_scheme_ignored
           [("blog", JStr "www.linkedin.com/in/foo");
            ("html_url", JStr "https://github.com/foo")]
           "www.linkedin.com/in/foo"); reflexivity.
Defined.

(** * Flattening the records *)

Section Flattening.
Local Open Scope list_scope.

Lemma lookup_app_none (k : string) (d e : dict) :
  Py.lookup k d = None -> Py.lookup k (d ++ e) = Py.lookup k e.
Proof.
  induction d as [|[k' v'] d IH]; [reflexivity|]. simpl.
  destruct (k =? k')%string; [discriminate | exact IH].
Qed.

(** Links whose columns are new and pairwise distinct are appended as
    columns, in their order. *)
Lemma fold_set_fresh (links : dict) :
  forall base : dict,
    (forall link, In link links ->
                  Py.lookup (fst (social_column link)) base = None) ->
    NoDup (map (fun link => PyStr.lower (fst link)) links) ->
    fold_left (fun flat link =>
                 Py.set ("social_" ++ PyStr.lower (fst link))%string
                        (snd link) flat)
              links base
    = base ++ map social_column links.
Proof.
  induction links as [|link links IH]; intros base Hfresh Hnd.
  - cbn. now rewrite app_nil_r.
  - cbn [fold_left map]. inversion Hnd as [|? ? Hnotin Hnd']; subst.
    rewrite set_absent by (apply (Hfresh link); now left).
    rewrite IH; [now rewrite <- app_assoc | | exact Hnd'].
    intros link' Hin. rewrite lookup_app_none by (apply Hfresh; now right).
    cbn [Py.lookup social_column fst].
    destruct (_ =? _)%string eqn:E; [|reflexivity].
    apply String.eqb_eq in E. injection E as E. exfalso. apply Hnotin.
    rewrite <- E. now apply (in_map (fun l => PyStr.lower (fst l))).
Qed.

Lemma flatten_as_dict (x : details) :
  NoDup (map (fun link => PyStr.lower (fst link)) (social_links x)) ->
  flatten (as_dict x) = Ok (row_of x).
Proof.
  intros Hnd. unfold flatten, row_of. cbn [as_dict Py.pop Py.lookup Py.remove
    String.eqb Ascii.eqb Bool.eqb firstn].
  cbn. rewrite fold_set_fresh; [reflexivity | | exact Hnd].
  intros link _. reflexivity.
Qed.

(** A column [social_<k>] is among those of the links exactly when a
    platform is [k] in lower case. *)
Lemma lookup_social_columns (k : string) (links : dict) :
  Py.lookup ("social_" ++ k)%string (map social_column links) = None
  <-> forall link, In link links -> PyStr.lower (fst link) <> k.
Proof.
  induction links as [|link links IH].
  - split; [intros _ link [] | reflexivity].
  - cbn [map Py.lookup social_column fst].
    assert (E : (("social_" ++ k) =? ("social_" ++ PyStr.lower (fst link)))%string
                = (k =? PyStr.lower (fst link))%string) by reflexivity.
    rewrite E. destruct (k =? PyStr.lower (fst link))%string eqn:Ek.
    + apply String.eqb_eq in Ek. split; [discriminate|].
      intros H. exfalso. apply (H link); [now left | now symmetry].
    + apply String.eqb_neq in Ek. rewrite IH. split.
      * intros H link' [<- | Hin]; [congruence | now apply H].
      * intros H link' Hin. apply H. now right.
Qed.

(** The six platform names stay distinct in lower case. *)
Lemma lower_platforms_injective (a b : string) :
  In a platforms -> In b platforms ->
  PyStr.lower a = PyStr.lower b -> a = b.
Proof.
  unfold platforms. simpl.
  intros [<- | [<- | [<- | [<- | [<- | [<- | []]]]]]]
         [<- | [<- | [<- | [<- | [<- | [<- | []]]]]]];
    intros H; try reflexivity; discriminate H.
Qed.

Lemma NoDup_map_injective_on (A B : Type) (f : A -> B) (l : list A) :
  (forall a b, In a l -> In b l -> f a = f b -> a = b) ->
  NoDup l -> NoDup (map f l).
Proof.
  intros Hinj Hnd. induction Hnd as [|a l Hnotin Hnd IH]; [constructor|].
  cbn [map]. constructor.
  - intros Hin. apply in_map_iff in Hin as (b & Hb & Hin).
    apply Hnotin. rewrite (Hinj a b); [exact Hin | now left | now right | auto].
  - apply IH. intros a' b' Ha Hb. apply Hinj; now right.
Qed.

Lemma enrich_links (login contributor user_data recent_commits : json)
    (x : details) :
  enrich login contributor user_data recent_commits = Ok x ->
  get_user_social_links user_data = Ok (social_links x).
Proof.
  unfold enrich.
  destruct (latest_commit_date_of recent_commits); [|discriminate].
  cbn [rbind].
  destruct (get_user_social_links user_data) as [links|e] eqn:E;
    [|discriminate].
  cbn [rbind]. intros H. destruct (get_user_social_links_dict _ E) as [d ->].
  apply make_details_fields in H. now destruct H as (_&_&_&_&_&_&_&_&_& ->).
Qed.

Lemma enriched_links_distinct (login contributor user_data recent_commits : json)
    (x : details) :
  enrich login contributor user_data recent_commits = Ok x ->
  NoDup (map (fun link => PyStr.lower (fst link)) (social_links x)).
Proof.
  intros H. apply enrich_links in H.
  apply get_user_social_links_shape in H as (Hnd & Hincl & _).
  rewrite <- (map_map fst PyStr.lower).
  apply NoDup_map_injective_on; [|exact Hnd].
  intros a b Ha Hb. apply lower_platforms_injective; now apply Hincl.
Qed.

End Flattening.

(** X6.  Flattening a record whose platform names differ in lower case
    gives its ten plain fields, unchanged and in order, followed by one
    column [social_<platform in lower case>] per link.  The row has no
    [social_links] entry unless a platform is named [links] in lower
    case, whose column takes that name. *)
Theorem flatten_row :
  forall x : details,
    NoDup (map (fun link => PyStr.lower (fst link)) (social_links x)) ->
    let row :=
      ([("username", username x); ("name", name x); ("email", email x);
        ("bio", bio x); ("company", company x); ("location", location x);
        ("avatar_url", avatar_url x); ("profile_url", profile_url x);
        ("contributions", contributions x);
        ("latest_commit_date", latest_commit_date x)]
       ++ map social_column (social_links x))%list in
    flatten (as_dict x) = Ok row
    /\ (Py.lookup "social_links" row = None
        <-> forall link, In link (social_links x) ->
                         PyStr.lower (fst link) <> "links").
Proof.
  intros x Hnd row. split.
  - rewrite (flatten_as_dict x Hnd). reflexivity.
  - subst row. rewrite lookup_app_none by reflexivity.
    apply (lookup_social_columns "links").
Qed.

Lemma flatten_row_witness :
  let x := {| username := JStr "foo"; name := JStr ""; email := JStr "";
              bio := JStr ""; company := JStr ""; location := JStr "";
              avatar_url := JStr ""; profile_url := JStr "";
              contributions := JInt 1; latest_commit_date := JNull;
              social_links := [("LinkedIn", JStr "https://linkedin.com/x")] |} in
  flatten (as_dict x)
  = Ok [("username", JStr "foo"); ("name", JStr ""); ("email", JStr "");
        ("bio", JStr ""); ("company", JStr ""); ("location", JStr "");
        ("avatar_url", JStr ""); ("profile_url", JStr "");
        ("contributions", JInt 1); ("latest_commit_date", JNull);
        ("social_linkedin", JStr "https://linkedin.com/x")].
Proof.
  intros x. apply (flatten_row x). repeat constructor. intros [].
Defined.

(** X7.  [create_dataframe] does not fail on records that the enrichment
    produced: it returns one row per record, in order, each with the
    plain fields and one column per link. *)
Theorem create_dataframe_of_enriched :
  forall records : list details,
    Forall (fun x => exists login contributor user_data recent_commits,
                enrich login contributor user_data recent_commits = Ok x)
           records ->
    create_dataframe (map as_dict records) = Ok (map row_of records).
Proof.
  intros records H. induction H as [|x records Hx _ IH]; [reflexivity|].
  destruct Hx as (login & contributor & user_data & recent_commits & Hx).
  cbn [map create_dataframe].
  rewrite (flatten_as_dict x (enriched_links_distinct _ _ _ _ Hx)).
  cbn [rbind]. now rewrite IH.
Qed.

Lemma create_dataframe_of_enriched_witness :
  exists x : details,
    enrich (JStr "foo")
           (JDict [("login", JStr "foo"); ("avatar_url", JStr "https://a/1");
                   ("contributions", JInt 7)])
           (JDict [("blog", JStr "https://linkedin.com/x")]) (JDict [])
    = Ok x
    /\ create_dataframe (map as_dict [x]) = Ok (map row_of [x])
    /\ Py.lookup "social_linkedin" (row_of x)
       = Some (JStr "https://linkedin.com/x").
Proof.
  eexists. split; [reflexivity|]. split; [|reflexivity].
  apply create_dataframe_of_enriched.
  constructor; [|constructor].
  exists (JStr "foo"),
         (JDict [("login", JStr "foo"); ("avatar_url", JStr "https://a/1");
                 ("contributions", JInt 7)]),
         (JDict [("blog", JStr "https://linkedin.com/x")]), (JDict []).
  reflexivity.
Defined.

(** * Rate-limit refusals *)

Section Refusals.
Local Open Scope list_scope.
Local Open Scope Z_scope.

Variable net : network.

(** What the wrapper does with a refusal: it stores the headers, takes
    the local times of the reset and of the present, prints the wait and
    sleeps, then retries; a wait that the platform refuses makes
    [time.sleep] raise instead, and so does another negative one. *)
Lemma handle_response_rate_limited (retry : M json) (r : response)
    (st : state) (reset_time current_time : Z) :
  rate_limited r ->
  localtime (host st) (header_or_zero (x_ratelimit_reset r) * second)
  = Ok reset_time ->
  localtime (host st) (clock st) = Ok current_time ->
  let wait := reset_time - current_time + 5 * second in
  handle_response retry r st
  = match refuses (host st) (clock st) wait with
    | Some e =>
        (Some (Raise e), received st r 0 [Print (RateLimitExceeded wait)])
    | None =>
        if wait <? 0
        then (Some (Raise ValueError),
              received st r 0 [Print (RateLimitExceeded wait)])
        else retry (received st r wait
                             [Sleep wait; Print (RateLimitExceeded wait)])
    end.
Proof.
  intros (Hstatus & d & message & Hbody & Hmsg & Hlimit) Hreset Hnow wait.
  unfold handle_response, bind at 1, set_rate_limit.
  rewrite Hstatus. cbn [Z.eqb Pos.eqb].
  unfold bind at 1, is_rate_limit_error. rewrite Hstatus. cbn [Z.eqb Pos.eqb].
  unfold response_json. rewrite Hbody.
  unfold bind, ret, lift, Py.get. rewrite Hmsg. cbn [lower].
  rewrite Hlimit.
  unfold gets, fromtimestamp, now, print, emit, sleep.
  cbn [rate_limit_reset clock trace base_url headers rate_limit_remaining
       host].
  fold (header_or_zero (x_ratelimit_reset r)).
  fold (header_or_zero (x_ratelimit_remaining r)).
  rewrite Hreset, Hnow. fold wait.
  unfold received. destruct (refuses (host st) (clock st) wait).
  - now rewrite Z.add_0_r.
  - destruct (wait <? 0); [|reflexivity]. now rewrite Z.add_0_r.
Qed.

Lemma make_request_first (fuel : nat) (url : string) (params : option dict)
    (st : state) :
  ready st ->
  _make_request net (S fuel) url params st
  = handle_response
      (_make_request net fuel url params)
      (net (clock st) (trace st)
           {| req_url := url; req_headers := headers st;
              req_params := params |})
      {| base_url := base_url st; headers := headers st;
         rate_limit_remaining := rate_limit_remaining st;
         rate_limit_reset := rate_limit_reset st;
         host := host st; clock := clock st;
         trace := Get (clock st)
                      {| req_url := url; req_headers := headers st;
                         req_params := params |} :: trace st |}.
Proof.
  intros H. cbn [_make_request]. unfold bind at 1.
  rewrite (wait_for_reset_ready H). reflexivity.
Qed.

(** After the sleep of a refusal the retry waits no more, when the local
    clock has moved on by the time slept or more. *)
Lemma wait_for_reset_after_refusal (st : state) (r : response)
    (reset_time current_time later_time wait : Z) (events : list event) :
  localtime (host st) (header_or_zero (x_ratelimit_reset r) * second)
  = Ok reset_time ->
  wait = reset_time - current_time + 5 * second ->
  localtime (host st) (clock st + wait) = Ok later_time ->
  current_time + wait <= later_time ->
  wait_for_reset (received st r wait events)
  = (Some (Ok tt), received st r wait events).
Proof.
  intros Hreset Hwait Hlater Hmoved.
  destruct (Z.le_gt_cases (header_or_zero (x_ratelimit_remaining r)) 1)
    as [Hle | Hgt].
  - unfold wait_for_reset, bind, gets. cbn [received rate_limit_remaining].
    apply Z.leb_le in Hle as ->.
    unfold fromtimestamp, now.
    cbn [received rate_limit_reset host clock].
    rewrite Hreset, Hlater.
    assert ((reset_time - later_time + 5 * second >? 0) = false) as ->
      by (rewrite Z.gtb_ltb; apply Z.ltb_ge; lia).
    reflexivity.
  - now rewrite (@wait_for_reset_enough (received st r wait events) _
                   eq_refl Hgt).
Qed.

End Refusals.

(** X8.  A request refused for the rate limit is repeated once the wait
    is over.  The wait is the local time of the reset less the local time
    of the present plus 5 seconds; when it is not negative and the
    platform sleeps that long, the wrapper prints it, sleeps, and sends
    the same request again at the end of the sleep, without waiting
    further when the local clock has moved on by the time slept, and
    returns what the second answer holds. *)
Theorem refused_request_is_retried :
  forall (net : network) (fuel : nat) (url : string) (params : option dict)
         (st : state) (j : json)
         (reset_time current_time later_time : Z),
    ready st ->
    let request :=
      {| req_url := url; req_headers := headers st; req_params := params |} in
    let first := net (clock st) (trace st) request in
    let wait := (reset_time - current_time + 5 * second)%Z in
    let waited :=
      ([Sleep wait; Print (RateLimitExceeded wait); Get (clock st) request]
       ++ trace st)%list in
    let second_answer := net (clock st + wait)%Z waited request in
    rate_limited first ->
    localtime (host st) (header_or_zero (x_ratelimit_reset first) * second)%Z
    = Ok reset_time ->
    localtime (host st) (clock st) = Ok current_time ->
    (0 <= wait)%Z ->
    refuses (host st) (clock st) wait = None ->
    localtime (host st) (clock st + wait)%Z = Ok later_time ->
    (current_time + wait <= later_time)%Z ->
    status_code second_answer = 200%Z -> body second_answer = Some j ->
    exists st',
      _make_request net (S (S fuel)) url params st = (Some (Ok j), st')
      /\ trace st' = Get (clock st + wait)%Z request :: waited
      /\ clock st' = (clock st + wait)%Z
      /\ rate_limit_remaining st'
         = Some (header_or_zero (x_ratelimit_remaining second_answer)).
Proof.
  intros net fuel url params st j reset_time current_time later_time Hready
         request first wait waited second_answer
         Hlimited Hreset Hnow Hwait Hsleeps Hlater Hmoved Hstatus Hbody.
  rewrite (make_request_first net (S fuel) url params Hready).
  fold request. fold first.
  match goal with
  | |- context [handle_response ?retry first ?st1] =>
      rewrite (@handle_response_rate_limited retry first st1 reset_time
                 current_time Hlimited Hreset Hnow)
  end.
  cbn [clock host]. fold wait. rewrite Hsleeps.
  assert ((wait <? 0)%Z = false) as -> by (apply Z.ltb_ge; lia).
  match goal with
  | |- context [received ?s first wait ?ev] =>
      set (st2 := received s first wait ev)
  end.
  cbn [_make_request]. unfold bind at 1.
  assert (Hpre : wait_for_reset st2 = (Some (Ok tt), st2)).
  { subst st2. apply wait_for_reset_after_refusal
      with (reset_time := reset_time) (current_time := current_time)
           (later_time := later_time);
      [exact Hreset | reflexivity | exact Hlater | exact Hmoved]. }
  rewrite Hpre. unfold bind at 1, requests_get.
  cbn [clock trace headers st2 received app]. fold request.
  change (Sleep wait :: Print (RateLimitExceeded wait)
          :: Get (clock st) request :: trace st) with waited.
  fold second_answer.
  unfold handle_response, bind at 1, set_rate_limit.
  rewrite Hstatus. cbn [Z.eqb Pos.eqb]. unfold response_json.
  rewrite Hbody. unfold ret. eexists. split; [reflexivity|].
  cbn [trace clock rate_limit_remaining]. auto.
Qed.

Lemma refused_request_is_retried_witness :
  exists st',
    _make_request refuses_once 2 "https://api.github.com/users/foo" None
                  (__init__ None utc 0)
    = (Some (Ok (JList [])), st')
    /\ requests_of (trace st')
       = [ {| req_url := "https://api.github.com/users/foo";
              req_headers := headers (__init__ None utc 0); req_params := None |};
           {| req_url := "https://api.github.com/users/foo";
              req_headers := headers (__init__ None utc 0); req_params := None |} ]
    /\ clock st' = (8 * second)%Z.
Proof.
  destruct (@refused_request_is_retried refuses_once 0
              "https://api.github.com/users/foo" None (__init__ None utc 0)
              (JList []) (3 * second)%Z 0%Z (8 * second)%Z)
    as (st' & E & Htrace & Hclock & _).
  - intros r Hr. discriminate.
  - split; [reflexivity|].
    exists [("message", JStr "API rate limit exceeded for 1.2.3.4")],
           "API rate limit exceeded for 1.2.3.4".
    repeat split; reflexivity.
  - reflexivity.
  - reflexivity.
  - vm_compute. discriminate.
  - reflexivity.
  - reflexivity.
  - vm_compute. discriminate.
  - reflexivity.
  - reflexivity.
  - exists st'. split; [exact E|]. rewrite Htrace, Hclock.
    split; reflexivity.
Defined.

(** X9.  A refusal whose reset lies more than 5 seconds back on the
    local clock, as when the reset header is missing and the epoch is
    taken, is not waited for: after the message is printed [time.sleep]
    raises [ValueError] on the negative duration, when that is one it can
    convert, and the request is not repeated. *)
Theorem stale_reset_raises :
  forall (net : network) (fuel : nat) (url : string) (params : option dict)
         (st : state) (reset_time current_time : Z),
    ready st ->
    let request :=
      {| req_url := url; req_headers := headers st; req_params := params |} in
    let answer := net (clock st) (trace st) request in
    let wait := (reset_time - current_time + 5 * second)%Z in
    rate_limited answer ->
    localtime (host st) (header_or_zero (x_ratelimit_reset answer) * second)%Z
    = Ok reset_time ->
    localtime (host st) (clock st) = Ok current_time ->
    (wait < 0)%Z ->
    refuses (host st) (clock st) wait = None ->
    exists st',
      _make_request net (S fuel) url params st = (Some (Raise ValueError), st')
      /\ trace st'
         = Print (RateLimitExceeded wait) :: Get (clock st) request :: trace st.
Proof.
  intros net fuel url params st reset_time current_time Hready
         request answer wait Hlimited Hreset Hnow Hwait Hsize.
  rewrite (make_request_first net fuel url params Hready).
  fold request. fold answer.
  match goal with
  | |- context [handle_response ?retry answer ?st1] =>
      rewrite (@handle_response_rate_limited retry answer st1 reset_time
                 current_time Hlimited Hreset Hnow)
  end.
  cbn [clock host]. fold wait. rewrite Hsize.
  assert ((wait <? 0)%Z = true) as -> by (apply Z.ltb_lt; lia).
  eexists. split; reflexivity.
Qed.

Lemma stale_reset_raises_witness :
  exists st',
    _make_request refuses_without_reset 5 "https://api.github.com/users/foo"
                  None (__init__ None utc (1700000000 * second))
    = (Some (Raise ValueError), st')
    /\ List.length (requests_of (trace st')) = 1%nat.
Proof.
  destruct (@stale_reset_raises refuses_without_reset 4
              "https://api.github.com/users/foo" None
              (__init__ None utc (1700000000 * second))
              0%Z (1700000000 * second)%Z)
    as (st' & E & Htrace).
  - intros r Hr. discriminate.
  - split; [reflexivity|].
    exists [("message", JStr "Rate limit exceeded")], "Rate limit exceeded".
    repeat split; reflexivity.
  - reflexivity.
  - reflexivity.
  - vm_compute. reflexivity.
  - reflexivity.
  - exists st'. split; [exact E|]. rewrite Htrace. reflexivity.
Defined.

(** * Paging without an end, and paging cut short *)

Section Endless.
Local Open Scope list_scope.

Variable net : network.

(** A served request, as a fetch. *)
Lemma serves_fetches (retries : nat) (url : string)
    (hdrs : list (string * string)) (page : Z) (j : json) :
  serves net (page_request hdrs url page) j ->
  fetches net retries url hdrs page j ready.
Proof.
  intros Hs st Hc Hh. subst hdrs.
  destruct (@make_request_served net retries url (Some (page_params page))
              st j Hc Hs) as (st' & E & Hc' & Hh' & _ & Hreq).
  exists st'. auto.
Qed.

(** What a failed request leaves behind. *)
Lemma handle_response_failed (retry : M json) (r : response) (st : state) :
  status_code r <> 200%Z -> status_code r <> 403%Z ->
  handle_response retry r st
  = (Some (Ok (JDict [])),
     received st r 0 [Print (HttpError (status_code r) (text r))]).
Proof.
  intros H200 H403. unfold handle_response, bind at 1, set_rate_limit.
  apply Z.eqb_neq in H200, H403. rewrite H200.
  unfold bind at 1, is_rate_limit_error. rewrite H403.
  unfold ret, bind, print, emit, received. cbn.
  fold (header_or_zero (x_ratelimit_reset r)).
  fold (header_or_zero (x_ratelimit_remaining r)).
  now rewrite Z.add_0_r.
Qed.

(** A failed request, as the fetch of the empty dictionary. *)
Lemma fails_fetches (retries : nat) (url : string)
    (hdrs : list (string * string)) (page : Z) :
  fails net (page_request hdrs url page) ->
  fetches net retries url hdrs page (JDict []) (fun _ => True).
Proof.
  intros Hf st Hc Hh. subst hdrs.
  cbn [_make_request]. unfold bind at 1.
  destruct (wait_for_reset_ok Hc) as (st1 & -> & Hh1 & Hb & Hreq).
  unfold bind at 1, requests_get. rewrite Hh1.
  destruct (Hf (clock st1) (trace st1)) as [H200 H403].
  unfold page_request in H200, H403.
  match goal with
  | |- context [handle_response ?retry ?r ?st2] =>
      rewrite (@handle_response_failed retry r st2 H200 H403)
  end.
  eexists. split; [reflexivity|].
  cbn [received trace headers app requests_of].
  split; [exact I|]. split; [reflexivity|].
  now rewrite Hreq.
Qed.

(** The loop over pages that are fetched, whatever way. *)
Lemma contributors_loop_fetches (retries : nat) (url : string)
    (hdrs : list (string * string)) (final : json) (after : state -> Prop) :
  last_page final ->
  forall (full : list (list json)) (fuel : nat) (params : dict)
         (contributors : list json) (page : Z) (st : state),
    ready st -> headers st = hdrs ->
    (forall p, Py.set "page" (JInt p) params = page_params p) ->
    (forall i items, nth_error full i = Some items ->
                     (100 <= List.length items)%nat
                     /\ fetches net retries url hdrs (page + Z.of_nat i)
                                (JList items) ready) ->
    fetches net retries url hdrs (page + Z.of_nat (List.length full)) final
            after ->
    (List.length full < fuel)%nat ->
    exists st',
      contributors_loop net (S retries) fuel url params contributors page st
      = (Some (Ok (contributors ++ concat full ++ page_items final)), st')
      /\ after st' /\ headers st' = hdrs
      /\ requests_of (trace st')
         = requests_of (trace st)
           ++ map (page_request hdrs url)
                  (page_numbers page (S (List.length full))).
Proof.
  intros Hfinal full.
  induction full as [|items full IH];
    intros fuel params contributors page st Hc Hh Hparams Hfull Hlast Hfuel;
    (destruct fuel as [|fuel]; [simpl in Hfuel; lia|]);
    cbn [contributors_loop]; rewrite Hparams; unfold bind at 1.
  - simpl in Hlast. rewrite Z.add_0_r in Hlast.
    destruct (Hlast st Hc Hh) as (st' & -> & Hafter & Hh' & Hreq).
    exists st'. rewrite Hreq.
    split; [|split; [exact Hafter | split; [exact Hh' | reflexivity]]].
    cbn [concat app].
    destruct final as [|b|n|s|l|d];
      cbn [Py.truthy Py.isinstance_list negb page_items];
      rewrite ?orb_true_r, ?app_nil_r; try reflexivity.
    destruct l as [|x l]; cbn [negb orb]; rewrite ?app_nil_r; [reflexivity|].
    cbn in Hfinal.
    assert ((Z.of_nat (List.length (x :: l)) <? 100)%Z = true) as ->
      by (apply Z.ltb_lt; cbn [List.length]; lia).
    reflexivity.
  - destruct (Hfull 0%nat items eq_refl) as [Hlen Hfetch].
    rewrite Z.add_0_r in Hfetch.
    destruct (Hfetch st Hc Hh) as (st1 & -> & Hc1 & Hh1 & Hreq1).
    destruct items as [|x items]; [simpl in Hlen; lia|].
    cbn [Py.truthy Py.isinstance_list negb orb].
    assert ((Z.of_nat (List.length (x :: items)) <? 100)%Z = false) as ->
      by (apply Z.ltb_ge; lia).
    destruct (IH fuel (page_params page) (contributors ++ x :: items)
                 (page + 1)%Z st1 Hc1 Hh1)
      as (st' & -> & Hafter & Hh' & Hreq).
    + intros p. apply set_page.
    + intros i its Hi. destruct (Hfull (S i) its Hi) as [Hl Hs].
      split; [exact Hl|].
      replace (page + 1 + Z.of_nat i)%Z with (page + Z.of_nat (S i))%Z by lia.
      exact Hs.
    + replace (page + 1 + Z.of_nat (List.length full))%Z
        with (page + Z.of_nat (List.length ((x :: items) :: full)))%Z.
      * exact Hlast.
      * cbn [List.length]. lia.
    + simpl in Hfuel. lia.
    + exists st'. split; [|split; [exact Hafter | split; [exact Hh'|]]].
      * cbn [concat]. now rewrite <- !app_assoc.
      * rewrite Hreq, Hreq1. cbn [page_numbers map].
        now rewrite <- app_assoc.
Qed.

(** The loop over pages of 100 entries or more that never stop. *)
Lemma contributors_loop_endless (retries : nat) (url : string)
    (hdrs : list (string * string)) (pages : Z -> list json) :
  (forall p, (100 <= List.length (pages p))%nat
             /\ serves net (page_request hdrs url p) (JList (pages p))) ->
  forall (fuel : nat) (params : dict) (contributors : list json) (page : Z)
         (st : state),
    ready st -> headers st = hdrs ->
    (forall p, Py.set "page" (JInt p) params = page_params p) ->
    fst (contributors_loop net (S retries) fuel url params contributors page st)
    = None
    /\ List.length
         (requests_of
            (trace (snd (contributors_loop net (S retries) fuel url params
                                           contributors page st))))
       = (List.length (requests_of (trace st)) + fuel)%nat.
Proof.
  intros Hpages. induction fuel as [|fuel IH];
    intros params contributors page st Hc Hh Hparams.
  - cbn. split; [reflexivity | lia].
  - destruct (Hpages page) as [Hlen Hs].
    destruct (@serves_fetches retries url hdrs page _ Hs st Hc Hh)
      as (st1 & E1 & Hc1 & Hh1 & Hreq1).
    assert (Estep :
              contributors_loop net (S retries) (S fuel) url params
                                contributors page st
              = contributors_loop net (S retries) fuel url (page_params page)
                                  (contributors ++ pages page) (page + 1)%Z
                                  st1).
    { cbn [contributors_loop]. rewrite Hparams. unfold bind at 1. rewrite E1.
      destruct (pages page) as [|x items]; [simpl in Hlen; lia|].
      cbn [Py.truthy Py.isinstance_list negb orb].
      assert ((Z.of_nat (List.length (x :: items)) <? 100)%Z = false) as ->
        by (apply Z.ltb_ge; lia).
      reflexivity. }
    rewrite Estep.
    destruct (IH (page_params page) (contributors ++ pages page)
                 (page + 1)%Z st1 Hc1 Hh1) as [IH1 IH2].
    + intros p. apply set_page.
    + split; [exact IH1|]. rewrite IH2, Hreq1, length_app.
      cbn [List.length]. lia.
Qed.

End Endless.

(** X10.  The paging has no bound of its own: when every page holds 100
    entries or more and is served with a remaining quota above 1, so
    that no request waits for the reset, no amount of fuel lets
    [get_repository_contributors] return, and every unit of fuel is one
    more page requested. *)
Theorem paging_forever :
  forall (net : network) (owner repo : string) (pages : Z -> list json)
         (fuel : nat) (st : state),
    let url := base_url st ++ "/repos/" ++ owner ++ "/" ++ repo
               ++ "/contributors" in
    ready st ->
    (forall p, (100 <= List.length (pages p))%nat
               /\ serves net (page_request (headers st) url p)
                         (JList (pages p))) ->
    fst (get_repository_contributors net fuel owner repo st) = None
    /\ List.length
         (requests_of
            (trace (snd (get_repository_contributors net fuel owner repo st))))
       = (List.length (requests_of (trace st)) + fuel)%nat.
Proof.
  intros net owner repo pages fuel st url Hc Hpages.
  unfold get_repository_contributors, bind, gets. fold url.
  destruct fuel as [|fuel]; [cbn; split; [reflexivity | lia]|].
  apply (@contributors_loop_endless net fuel url (headers st) pages Hpages
           (S fuel) [("per_page", JInt 100)] [] 1%Z st Hc eq_refl).
  intros p. apply set_page with (page' := 0%Z).
Qed.

Lemma paging_forever_witness :
  fst (get_repository_contributors endless_pages 5 "acme" "widgets"
                                   (__init__ None utc 0)) = None
  /\ List.length
       (requests_of
          (trace (snd (get_repository_contributors endless_pages 5 "acme"
                         "widgets" (__init__ None utc 0)))))
     = 5%nat.
Proof.
  apply (@paging_forever endless_pages "acme" "widgets"
           (fun _ => map fake_entry (seq 0 100)) 5 (__init__ None utc 0)).
  - intros r Hr. discriminate.
  - intros p. split; [vm_compute; lia|]. intros now tr. served.
Defined.

(** X11.  When a page cannot be fetched (a status other than 200 and
    403), after full pages that were served with a remaining quota above
    1, the paging ends without an error and the entries of the pages
    before it are returned as if they were all. *)
Theorem paging_cut_short :
  forall (net : network) (owner repo : string) (full : list (list json))
         (fuel : nat) (st : state),
    let url := base_url st ++ "/repos/" ++ owner ++ "/" ++ repo
               ++ "/contributors" in
    ready st ->
    (forall i items, nth_error full i = Some items ->
                     (100 <= List.length items)%nat
                     /\ serves net (page_request (headers st) url
                                                 (Z.of_nat i + 1))
                               (JList items)) ->
    fails net (page_request (headers st) url
                            (Z.of_nat (List.length full) + 1)) ->
    (List.length full < fuel)%nat ->
    exists st',
      get_repository_contributors net fuel owner repo st
      = (Some (Ok (concat full)), st')
      /\ requests_of (trace st')
         = (requests_of (trace st)
            ++ map (page_request (headers st) url)
                   (page_numbers 1 (S (List.length full))))%list.
Proof.
  intros net owner repo full fuel st url Hc Hfull Hfail Hfuel.
  unfold get_repository_contributors, bind, gets. fold url.
  destruct fuel as [|fuel]; [lia|].
  destruct (@contributors_loop_fetches net fuel url (headers st) (JDict [])
              (fun _ => True) I
              full (S fuel) [("per_page", JInt 100)] [] 1%Z st Hc eq_refl)
    as (st' & E & _ & _ & Hreq).
  - intros p. apply set_page with (page' := 0%Z).
  - intros i items Hi. destruct (Hfull i items Hi) as [Hl Hs].
    split; [exact Hl|]. apply serves_fetches. now rewrite Z.add_comm.
  - apply fails_fetches. now rewrite Z.add_comm.
  - exact Hfuel.
  - exists st'. split; [|exact Hreq].
    rewrite E. cbn [page_items app]. now rewrite app_nil_r.
Qed.

Lemma paging_cut_short_witness :
  exists st',
    get_repository_contributors fails_after_first_page 2 "acme" "widgets"
                                (__init__ None utc 0)
    = (Some (Ok (fake_page 1)), st')
    /\ List.length (requests_of (trace st')) = 2%nat.
Proof.
  destruct (@paging_cut_short fails_after_first_page "acme" "widgets"
              [fake_page 1] 2 (__init__ None utc 0)) as (st' & E & Hreq).
  - intros r Hr. discriminate.
  - intros [|i] items Hi; [|destruct i; discriminate].
    injection Hi as <-. split; [vm_compute; lia|].
    intros now tr. served.
  - intros now tr. split; discriminate.
  - cbn [List.length]. lia.
  - exists st'. split.
    + rewrite E. cbn [concat]. now rewrite app_nil_r.
    + rewrite Hreq. reflexivity.
Defined.

(** * The session of a run *)

Section Session.

Variable net : network.

Lemma same_session_refl (st : state) : same_session st st.
Proof. split; reflexivity. Qed.

Lemma same_session_trans (st1 st2 st3 : state) :
  same_session st1 st2 -> same_session st2 st3 -> same_session st1 st3.
Proof. intros [H1 B1] [H2 B2]. split; congruence. Qed.

Lemma same_session_emit (e : event) : respects same_session (emit e).
Proof. intros st. split; reflexivity. Qed.

Lemma same_session_sleep (d : Z) : respects same_session (sleep d).
Proof.
  intros st. unfold sleep.
  destruct (refuses (host st) (clock st) d); [split; reflexivity|].
  destruct (d <? 0)%Z; split; reflexivity.
Qed.

Lemma same_session_set_rate_limit (a b : Z) :
  respects same_session (set_rate_limit a b).
Proof. intros st. split; reflexivity. Qed.

Lemma same_session_requests_get (url : string) (params : option dict) :
  respects same_session (requests_get net url params).
Proof. intros st. split; reflexivity. Qed.

(** The fetch of the contributors leaves the session as it is. *)
Lemma get_repository_contributors_session (fuel : nat) (owner repo : string)
    (st st' : state) (r : option (result (list json))) :
  get_repository_contributors net fuel owner repo st = (r, st') ->
  headers st' = headers st /\ base_url st' = base_url st.
Proof.
  intros E.
  pose proof (respects_get_repository_contributors
                same_session_refl same_session_trans same_session_emit
                same_session_sleep same_session_set_rate_limit
                same_session_requests_get fuel owner repo st) as [H2 H3].
  rewrite E in H2, H3. cbn [snd] in H2, H3. auto.
Qed.

End Session.

(** * The analysis as a whole *)

Section Analysis.
Local Open Scope list_scope.

Variable net : network.

Lemma bind_ok {A B : Type} (m : M A) (k : A -> M B) (st st' : state) (a : A) :
  m st = (Some (Ok a), st') -> bind m k st = k a st'.
Proof. intros E. unfold bind. now rewrite E. Qed.

Lemma enrich_username (u contributor user_data recent_commits : json)
    (d : details) :
  enrich u contributor user_data recent_commits = Ok d -> username d = u.
Proof.
  unfold enrich.
  destruct (latest_commit_date_of recent_commits) as [latest|e];
    [|discriminate].
  cbn [rbind].
  destruct (get_user_social_links user_data) as [links|e]; [|discriminate].
  cbn [rbind]. unfold make_details.
  repeat match goal with
         | |- context [rbind ?r _] =>
             destruct r; cbn [rbind]; [|discriminate]
         end.
  now intros [= <-].
Qed.

Lemma get_user_details_served (fuel : nat) (u user_data : json) (st : state) :
  ready st ->
  serves net (user_request (headers st) (base_url st) u) user_data ->
  exists st',
    get_user_details net (S fuel) u st = (Some (Ok user_data), st')
    /\ ready st'
    /\ headers st' = headers st /\ base_url st' = base_url st
    /\ requests_of (trace st')
       = requests_of (trace st)
         ++ [user_request (headers st) (base_url st) u].
Proof.
  intros Hc Hs. unfold get_user_details, bind, gets.
  exact (make_request_served fuel Hc Hs).
Qed.

Lemma get_user_recent_commits_served (fuel : nat) (u recent_commits : json)
    (owner repo : string) (st : state) :
  ready st ->
  serves net (commits_request (headers st) (base_url st) owner repo u)
         recent_commits ->
  exists st',
    get_user_recent_commits net (S fuel) u owner repo st
    = (Some (Ok recent_commits), st')
    /\ ready st'
    /\ headers st' = headers st /\ base_url st' = base_url st
    /\ requests_of (trace st')
       = requests_of (trace st)
         ++ [commits_request (headers st) (base_url st) owner repo u].
Proof.
  intros Hc Hs. unfold get_user_recent_commits, bind, gets.
  exact (make_request_served fuel Hc Hs).
Qed.

Lemma process_contributor_analysed (fuel : nat) (owner repo : string)
    (total i : nat) (contributor : json) (d : details) (st : state) :
  ready st ->
  analysed net (headers st) (base_url st) owner repo contributor d ->
  exists st',
    process_contributor net (S fuel) owner repo total i contributor st
    = (Some (Ok d), st')
    /\ ready st'
    /\ headers st' = headers st /\ base_url st' = base_url st
    /\ requests_of (trace st')
       = requests_of (trace st)
         ++ requests_about (headers st) (base_url st) owner repo d.
Proof.
  intros Hc (u & user_data & recent_commits & Hlogin & Hu & Hcm & Hen).
  unfold process_contributor.
  rewrite (@bind_ok _ _ _ _ st st u) by (unfold lift; now rewrite Hlogin).
  unfold bind at 1, print, emit.
  match goal with
  | |- context [bind (get_user_details _ _ _) _ ?st0] =>
      destruct (@get_user_details_served fuel u user_data st0 Hc Hu)
        as (st1 & E1 & Hc1 & Hh1 & Hb1 & Hreq1)
  end.
  rewrite (@bind_ok _ _ _ _ _ _ _ E1).
  cbn [headers base_url trace requests_of] in Hh1, Hb1, Hreq1.
  rewrite <- Hh1, <- Hb1 in Hcm.
  destruct (@get_user_recent_commits_served fuel u recent_commits owner repo
              st1 Hc1 Hcm) as (st2 & E2 & Hc2 & Hh2 & Hb2 & Hreq2).
  rewrite (@bind_ok _ _ _ _ _ _ _ E2). unfold lift. rewrite Hen.
  exists st2. split; [reflexivity|]. split; [exact Hc2|].
  split; [congruence|]. split; [congruence|].
  rewrite Hreq2, Hreq1, Hh1, Hb1, <- app_assoc.
  unfold requests_about. now rewrite (@enrich_username _ _ _ _ _ Hen).
Qed.

Lemma process_all_analysed (fuel : nat) (owner repo : string) (total : nat)
    (hdrs : list (string * string)) (base : string) :
  forall (contributors : list json) (ds : list details),
    Forall2 (analysed net hdrs base owner repo) contributors ds ->
    forall (i : nat) (done : list details) (st : state),
      ready st -> headers st = hdrs -> base_url st = base ->
      exists st',
        process_all net (S fuel) owner repo total i contributors done st
        = (Some (Ok (done ++ ds)), st')
        /\ requests_of (trace st')
           = requests_of (trace st)
             ++ flat_map (requests_about hdrs base owner repo) ds.
Proof.
  induction 1 as [|contributor d contributors ds Hd _ IH];
    intros i done st Hc Hh Hb.
  - exists st. cbn. now rewrite !app_nil_r.
  - subst hdrs base.
    destruct (@process_contributor_analysed fuel owner repo total i
                contributor d st Hc Hd) as (st1 & E1 & Hc1 & Hh1 & Hb1 & Hreq1).
    cbn [process_all]. rewrite (@bind_ok _ _ _ _ _ _ _ E1).
    rewrite <- Hh1, <- Hb1 in IH.
    destruct (IH (S i) (done ++ [d]) st1 Hc1 eq_refl eq_refl)
      as (st' & E & Hreq).
    exists st'. split.
    + rewrite E, <- app_assoc. reflexivity.
    + rewrite Hreq, Hreq1, Hh1, Hb1, <- app_assoc. reflexivity.
Qed.

End Analysis.

(** X12.  When the one page of contributors and, for each of them, the
    profile and the commits are served, each with a remaining quota
    above 1, [analyze_repository] returns the records built from these
    answers, sorted (or the error of the sort), and sends the page
    request followed by the two requests of each contributor in the
    order of the page. *)
Theorem analysis_of_served_repository :
  forall (net : network) (owner repo : string) (fuel : nat) (st : state)
         (contributors : list json) (ds : list details),
    let url := base_url st ++ "/repos/" ++ owner ++ "/" ++ repo
               ++ "/contributors" in
    ready st ->
    (0 < fuel)%nat ->
    (List.length contributors < 100)%nat ->
    serves net (page_request (headers st) url 1) (JList contributors) ->
    Forall2 (analysed net (headers st) (base_url st) owner repo)
            contributors ds ->
    exists st',
      analyze_repository net fuel owner repo st
      = (Some (sort_contributors ds), st')
      /\ requests_of (trace st')
         = (requests_of (trace st)
            ++ page_request (headers st) url 1
               :: flat_map (requests_about (headers st) (base_url st)
                                           owner repo) ds)%list.
Proof.
  intros net owner repo fuel st contributors ds url Hc Hfuel Hlen Hpage Hds.
  destruct fuel as [|fuel']; [lia|]. remember (S fuel') as fuel eqn:Efuel.
  unfold analyze_repository. unfold bind at 1, print, emit.
  match goal with
  | |- context [bind (get_repository_contributors _ _ _ _) _ ?st0] =>
      assert (exists st1,
                 get_repository_contributors net fuel owner repo st0
                 = (Some (Ok contributors), st1)
                 /\ ready st1 /\ headers st1 = headers st
                 /\ requests_of (trace st1)
                    = requests_of (trace st)
                      ++ [page_request (headers st) url 1])%list
        as (st1 & E1 & Hc1 & Hh1 & Hreq1)
  end.
  { unfold get_repository_contributors, bind, gets. cbn [base_url]. fold url.
    subst fuel.
    match goal with
    | |- exists st1, contributors_loop _ _ _ _ _ _ _ ?st0 = _ /\ _ =>
        destruct (@contributors_loop_fetches net fuel' url (headers st)
                    (JList contributors) ready Hlen [] (S fuel')
                    [("per_page", JInt 100)] [] 1%Z st0 Hc eq_refl)
          as (st1 & E1 & Hc1 & Hh1 & Hreq1)
    end.
    - intros p. apply set_page with (page' := 0%Z).
    - intros [|i] items Hi; discriminate.
    - apply serves_fetches. exact Hpage.
    - cbn [List.length]. lia.
    - exists st1. split; [exact E1|]. auto. }
  destruct (@get_repository_contributors_session net fuel owner repo _ _ _ E1)
    as (_ & Hb1).
  rewrite (@bind_ok _ _ _ _ _ _ _ E1).
  cbn [base_url] in Hb1.
  unfold bind at 1, print, emit.
  match goal with
  | |- context [bind (process_all _ _ _ _ _ _ _ _) _ ?st2] =>
      subst fuel;
      destruct (@process_all_analysed net fuel' owner repo
                  (List.length contributors) (headers st) (base_url st)
                  contributors ds Hds 0%nat [] st2 Hc1 Hh1 Hb1)
        as (st' & E & Hreq)
  end.
  rewrite (@bind_ok _ _ _ _ _ _ _ E). cbn [app]. unfold lift.
  exists st'. split; [reflexivity|].
  rewrite Hreq. cbn [trace requests_of]. rewrite Hreq1, <- app_assoc.
  reflexivity.
Qed.

Lemma analysis_of_served_repository_witness :
  exists sorted st',
    analyze_repository small_repo 1 "acme" "widgets" (__init__ None utc 0)
    = (Some (Ok sorted), st')
    /\ map username sorted = [JStr "bob"; JStr "alice"]
    /\ List.length (requests_of (trace st')) = 5%nat.
Proof.
  destruct (@analysis_of_served_repository small_repo "acme" "widgets" 1
              (__init__ None utc 0)
              [small_contributor "alice"; small_contributor "bob"]
              (map (fun login =>
                      {| username := JStr login;
                         name := JStr (PyStr.lower login);
                         email := JStr ""; bio := JStr "";
                         company := JStr ""; location := JStr "";
                         avatar_url := JStr (login ++ ".png");
                         profile_url := JStr ("https://github.com/" ++ login);
                         contributions := JInt 3;
                         latest_commit_date :=
                           JStr (if (login =? "alice")%string
                                 then "2024-05-01T10:00:00Z"
                                 else "2024-06-01T10:00:00Z");
                         social_links :=
                           [("GitHub",
                             JStr ("https://github.com/" ++ login))] |})
                   ["alice"; "bob"]))
    as (st' & E & Hreq).
  - intros r Hr. discriminate.
  - lia.
  - cbn [List.length]. lia.
  - intros now tr. served.
  - apply Forall2_cons; [|apply Forall2_cons; [|apply Forall2_nil]].
    + exists (JStr "alice"), (small_profile "alice"),
        (small_commits (JStr "alice")).
      split; [reflexivity|]. split; [intros now tr; served|].
      split; [intros now tr; served | reflexivity].
    + exists (JStr "bob"), (small_profile "bob"),
        (small_commits (JStr "bob")).
      split; [reflexivity|]. split; [intros now tr; served|].
      split; [intros now tr; served | reflexivity].
  - eexists. exists st'. split; [rewrite E; reflexivity|].
    split; [reflexivity|]. rewrite Hreq. reflexivity.
Defined.

(** X13.  For an analyzer whose quota is not known to be used up, as a
    new one, a contributors page that cannot be fetched (a status other
    than 200 and 403) is not an error of the analysis: it returns the
    empty list, as for a repository without contributors, after this one
    request. *)
Theorem analysis_of_unreachable_repository :
  forall (net : network) (owner repo : string) (fuel : nat) (st : state),
    let url := base_url st ++ "/repos/" ++ owner ++ "/" ++ repo
               ++ "/contributors" in
    ready st ->
    (0 < fuel)%nat ->
    fails net (page_request (headers st) url 1) ->
    exists st',
      analyze_repository net fuel owner repo st = (Some (Ok []), st')
      /\ requests_of (trace st')
         = (requests_of (trace st) ++ [page_request (headers st) url 1])%list.
Proof.
  intros net owner repo fuel st url Hc Hfuel Hfail.
  destruct fuel as [|fuel']; [lia|].
  unfold analyze_repository. unfold bind at 1, print, emit.
  match goal with
  | |- context [bind (get_repository_contributors _ _ _ _) _ ?st0] =>
      assert (exists st1,
                 get_repository_contributors net (S fuel') owner repo st0
                 = (Some (Ok []), st1)
                 /\ requests_of (trace st1)
                    = requests_of (trace st)
                      ++ [page_request (headers st) url 1])%list
        as (st1 & E1 & Hreq1)
  end.
  { unfold get_repository_contributors, bind, gets. cbn [base_url]. fold url.
    match goal with
    | |- exists st1, contributors_loop _ _ _ _ _ _ _ ?st0 = _ /\ _ =>
        destruct (@contributors_loop_fetches net fuel' url (headers st)
                    (JDict []) (fun _ => True) I [] (S fuel')
                    [("per_page", JInt 100)] [] 1%Z st0 Hc eq_refl)
          as (st1 & E1 & _ & _ & Hreq1)
    end.
    - intros p. apply set_page with (page' := 0%Z).
    - intros [|i] items Hi; discriminate.
    - apply fails_fetches. exact Hfail.
    - cbn [List.length]. lia.
    - exists st1. split; [exact E1 | exact Hreq1]. }
  rewrite (@bind_ok _ _ _ _ _ _ _ E1).
  cbn [List.length process_all].
  unfold bind, print, emit, ret, lift. cbn [sort_contributors].
  eexists. split; [reflexivity|].
  cbn [trace requests_of]. exact Hreq1.
Qed.

Lemma analysis_of_unreachable_repository_witness :
  exists st',
    analyze_repository not_found 1 "acme" "widgets" (__init__ None utc 0)
    = (Some (Ok []), st')
    /\ List.length (requests_of (trace st')) = 1%nat.
Proof.
  destruct (@analysis_of_unreachable_repository not_found "acme" "widgets" 1
              (__init__ None utc 0))
    as (st' & E & Hreq).
  - intros r Hr. discriminate.
  - lia.
  - intros now tr. split; discriminate.
  - exists st'. split; [exact E|]. rewrite Hreq. reflexivity.
Defined.

(** * The report *)

(** X14.  The heading of a contributor in the report shows the login
    whenever the profile gives no name, or one that is null or empty;
    otherwise it shows the name of the profile. *)
Theorem report_heading_name :
  forall (i : nat) (login contributor recent_commits : json) (profile : dict)
         (d : details),
    enrich login contributor (JDict profile) recent_commits = Ok d ->
    let shown :=
      match Py.lookup "name" profile with
      | Some v => if Py.truthy v then v else login
      | None => login
      end in
    hd "" (report_block i d)
    = (Py.str_int (Z.of_nat (i + 1)) ++ ". " ++ Py.str shown)%string.
Proof.
  intros i login contributor recent_commits profile d Hd shown.
  pose proof (@enrich_username _ _ _ _ _ Hd) as Hu.
  unfold enrich in Hd.
  destruct (latest_commit_date_of recent_commits) as [latest|e];
    [|discriminate].
  cbn [rbind] in Hd.
  destruct (get_user_social_links (JDict profile)) as [links|e];
    [|discriminate].
  cbn [rbind] in Hd.
  apply make_details_fields in Hd. destruct Hd as (Hname & _).
  unfold report_block. cbn [List.app hd app]. unfold display_name, Py.or_.
  rewrite Hname, Hu. subst shown.
  destruct (Py.lookup "name" profile) as [v|]; reflexivity.
Qed.

Lemma report_heading_name_witness :
  hd "" (report_block 0
           {| username := JStr "alice"; name := JNull; email := JStr "";
              bio := JStr ""; company := JStr ""; location := JStr "";
              avatar_url := JStr "alice.png"; profile_url := JStr "";
              contributions := JInt 3; latest_commit_date := JNull;
              social_links := [] |})
  = "1. alice".
Proof.
  exact (@report_heading_name 0 (JStr "alice") (small_contributor "alice")
           (JList []) [("name", JNull)] _ eq_refl).
Defined.
